(** * usbll2sr: USB low-/full-speed line signalling written as a sigrok session

    A shallow embedding of [usbll2sr.py].  The two classes of the script
    ([SimpleSRWriter], [USBSignaling]) and its [__main__] block are
    translated function by function; Python integers are [Z], [bytes]
    values are lists of integers, exceptions are values of [exn], and the
    objects the script mutates live in an explicit machine state. *)

From Stdlib Require Import ZArith QArith Qround Ascii String.
From stdpp Require Import gmap strings list pretty.

Close Scope Q_scope.
Local Open Scope Z_scope.

(** ** Python values shared by the whole script *)

(** The exceptions the script can raise, with their message where the
    source gives one. *)
Inductive exn : Type :=
  | ValueError (msg : string)
  | RuntimeError (msg : string)
  | KeyError (key : string)
  | NameError (name : string)
  | AttributeError (attr : string)
  | TypeError (msg : string)
  | IndexError (msg : string)
  | ZeroDivisionError
  | SystemExit (code : Z).

(** How a call ends: it returns, it raises, or its loop never ends. *)
Inductive outcome (A : Type) : Type :=
  | Ok (a : A)
  | Raise (e : exn)
  | Diverge.
Arguments Ok {A} a.
Arguments Raise {A} e.
Arguments Diverge {A}.

(** [bytes] objects: a list of integers of [range(256)]. *)
Abbreviation bytes := (list Z).

(** [b[:n]] and [b[n:]] with Python's reading of a negative bound. *)
Definition py_clamp_index (len n : Z) : nat :=
  if n <? 0 then Z.to_nat (len + n) else Z.to_nat n.

Definition py_slice_to {A} (l : list A) (n : Z) : list A :=
  take (py_clamp_index (Z.of_nat (length l)) n) l.

Definition py_slice_from {A} (l : list A) (n : Z) : list A :=
  drop (py_clamp_index (Z.of_nat (length l)) n) l.

(** [seq * n] on sequences: nothing when [n <= 0]. *)
Definition py_mul {A} (l : list A) (n : Z) : list A :=
  concat (replicate (Z.to_nat n) l).

(** The code points of an ASCII text, as [str.encode] gives them. *)
Fixpoint encode (s : string) : bytes :=
  match s with
  | EmptyString => []
  | String c s' => Z.of_N (N_of_ascii c) :: encode s'
  end.

(** ** zipfile.ZipFile, as far as the script uses it *)

Module ZipFile.

Record t : Type := mk {
  entries : list (string * bytes);
  closed : bool
}.

(** [ZipFile(filename, 'w')]: a new, empty archive. *)
Definition create : t := {| entries := []; closed := false |}.

(** [with z.open(name, 'w') as obj: obj.write(data)]: one more member,
    refused once the archive is closed. *)
Definition write_entry (z : t) (name : string) (data : bytes)
  : outcome unit * t :=
  if closed z
  then (Raise (ValueError "Attempt to use ZIP archive that was already closed"), z)
  else (Ok tt, {| entries := entries z ++ [(name, data)]; closed := false |}).

(** [z.close()]: seals the archive; closing twice does nothing. *)
Definition close (z : t) : t := {| entries := entries z; closed := true |}.

End ZipFile.

(** ** configparser.ConfigParser, as far as the script uses it *)

Module ConfigParser.

(** Sections in insertion order, each with its options in insertion
    order. *)
Definition t : Type := list (string * list (string * string)).

Definition add_section (c : t) (name : string) : t := c ++ [(name, [])].

Fixpoint set_option (opts : list (string * string)) (k v : string)
  : list (string * string) :=
  match opts with
  | [] => [(k, v)]
  | (k', v') :: rest =>
      if String.eqb k' k then (k, v) :: rest
      else (k', v') :: set_option rest k v
  end.

Fixpoint set (c : t) (section k v : string) : t :=
  match c with
  | [] => []
  | (name, opts) :: rest =>
      if String.eqb name section then (name, set_option opts k v) :: rest
      else (name, opts) :: set rest section k v
  end.

Definition newline : string := String (ascii_of_nat 10) EmptyString.

Definition write_options (opts : list (string * string)) : string :=
  foldr (fun kv acc => (kv.1 ++ " = " ++ kv.2 ++ newline ++ acc)%string)
        EmptyString opts.

(** [c.write(textio)]: every section as a header line, its options and
    an empty line. *)
Definition write (c : t) : string :=
  foldr (fun sec acc =>
           ("[" ++ sec.1 ++ "]" ++ newline ++ write_options sec.2
                ++ newline ++ acc)%string)
        EmptyString c.

End ConfigParser.

(** ** class SimpleSRWriter *)

Module SimpleSRWriter.

Record t : Type := mk {
  _channels : list string;
  _sample_rate : Z;
  _capture_file : string;
  _unit_size : Z;
  _sr : ZipFile.t;
  _current_slice : Z;
  _slice_limit : Z;
  _slice_buffer : bytes;       (* the BytesIO; its position is its end *)
  _sample_counter : Z
}.

Definition set_sr (w : t) (z : ZipFile.t) : t :=
  mk (_channels w) (_sample_rate w) (_capture_file w) (_unit_size w) z
     (_current_slice w) (_slice_limit w) (_slice_buffer w)
     (_sample_counter w).

Definition set_slice_buffer (w : t) (b : bytes) : t :=
  mk (_channels w) (_sample_rate w) (_capture_file w) (_unit_size w)
     (_sr w) (_current_slice w) (_slice_limit w) b (_sample_counter w).

Definition set_current_slice (w : t) (n : Z) : t :=
  mk (_channels w) (_sample_rate w) (_capture_file w) (_unit_size w)
     (_sr w) n (_slice_limit w) (_slice_buffer w) (_sample_counter w).

Definition set_sample_counter (w : t) (n : Z) : t :=
  mk (_channels w) (_sample_rate w) (_capture_file w) (_unit_size w)
     (_sr w) (_current_slice w) (_slice_limit w) (_slice_buffer w) n.

(** [-(-len(channels) // 8)] *)
Definition unit_size_of (channels : list string) : Z :=
  - ((- Z.of_nat (length channels)) `div` 8).

(** The [for i, ch in enumerate(channels)] loop of [__init__]. *)
Fixpoint set_probes (c : ConfigParser.t) (i : Z) (channels : list string)
  : ConfigParser.t :=
  match channels with
  | [] => c
  | ch :: rest =>
      set_probes
        (ConfigParser.set c "device 1" ("probe" ++ pretty (i + 1))%string ch)
        (i + 1) rest
  end.

Definition metadata_of (channels : list string) (sample_rate : Z)
           (capture_file : string) (unit_size : Z) : ConfigParser.t :=
  let m := ConfigParser.add_section [] "global" in
  let m := ConfigParser.add_section m "device 1" in
  let m := ConfigParser.set m "global" "sigrok version" "0.7.1" in
  let m := ConfigParser.set m "device 1" "capturefile" capture_file in
  let m := ConfigParser.set m "device 1" "total probes"
             (pretty (Z.of_nat (length channels))) in
  let m := ConfigParser.set m "device 1" "samplerate" (pretty sample_rate) in
  let m := ConfigParser.set m "device 1" "total analog" "0" in
  let m := set_probes m 0 channels in
  ConfigParser.set m "device 1" "unitsize" (pretty unit_size).

(** [__init__]; [filename] and [overwrite] only choose where the archive
    is stored and are not part of the model. *)
Definition __init__ (channels : list string) (sample_rate : Z)
           (slice_limit : Z) : t :=
  let capture_file := "logic-1"%string in
  let unit_size := unit_size_of channels in
  let z := ZipFile.create in
  let z := (ZipFile.write_entry z "version" (encode "2")).2 in
  let metadata := metadata_of channels sample_rate capture_file unit_size in
  let z := (ZipFile.write_entry z "metadata"
              (encode (ConfigParser.write metadata))).2 in
  {| _channels := channels;
     _sample_rate := sample_rate;
     _capture_file := capture_file;
     _unit_size := unit_size;
     _sr := z;
     _current_slice := 1;
     _slice_limit := slice_limit;
     _slice_buffer := [];
     _sample_counter := 0 |}.

Definition _finalize_current_slice (w : t) : outcome unit * t :=
  match ZipFile.write_entry (_sr w)
          (_capture_file w ++ "-" ++ pretty (_current_slice w))%string
          (_slice_buffer w) with
  | (Ok _, z) =>
      let w := set_sr w z in
      let w := set_slice_buffer w [] in
      (Ok tt, set_current_slice w (_current_slice w + 1))
  | (Raise e, _) => (Raise e, w)
  | (Diverge, _) => (Diverge, w)
  end.

(** The [while True] loop of [write_samples]; [fuel] bounds the number
    of iterations, and [Diverge] is the answer when it is used up. *)
Fixpoint write_loop (fuel : nat) (w : t) (samples_mv : bytes)
  : outcome unit * t :=
  match fuel with
  | O => (Diverge, w)
  | S fuel' =>
      let remaining :=
        _slice_limit w - Z.of_nat (length (_slice_buffer w)) in
      if Z.of_nat (length samples_mv) >? remaining then
        let w := set_slice_buffer w
                   (_slice_buffer w ++ py_slice_to samples_mv remaining) in
        let samples_mv := py_slice_from samples_mv remaining in
        match _finalize_current_slice w with
        | (Ok _, w) => write_loop fuel' w samples_mv
        | (r, w) => (r, w)
        end
      else
        (Ok tt, set_slice_buffer w (_slice_buffer w ++ samples_mv))
  end.

(** Iterations that [write_samples] grants its loop: one that may flush
    an already full buffer, one for every byte, and the last one. *)
Definition write_fuel (samples : bytes) : nat := S (S (length samples)).

Definition write_samples (w : t) (samples : bytes) : outcome unit * t :=
  if _unit_size w =? 0 then (Raise ZeroDivisionError, w)
  else if negb (Z.of_nat (length samples) `mod` _unit_size w =? 0)
  then (Raise (ValueError "Unaligned sample write."), w)
  else
    match write_loop (write_fuel samples) w samples with
    | (Ok _, w) =>
        (Ok tt,
         set_sample_counter w
           (_sample_counter w
            + Z.of_nat (length samples) `div` _unit_size w))
    | (r, w) => (r, w)
    end.

Definition fill_sample (w : t) (pattern : bytes) (count : Z)
  : outcome unit * t :=
  let total_length := Z.of_nat (length pattern) * count in
  if _unit_size w =? 0 then (Raise ZeroDivisionError, w)
  else if negb (total_length `mod` _unit_size w =? 0)
  then (Raise (ValueError "Unaligned sample write."), w)
  else
    match write_samples w (py_mul pattern count) with
    | (Ok _, w) =>
        (Ok tt,
         set_sample_counter w
           (_sample_counter w + total_length `div` _unit_size w))
    | (r, w) => (r, w)
    end.

Definition sample_count (w : t) : Z := _sample_counter w.

Definition close (w : t) : outcome unit * t :=
  match _finalize_current_slice w with
  | (Ok _, w) => (Ok tt, set_sr w (ZipFile.close (_sr w)))
  | (r, w) => (r, w)
  end.

(** What a reader of the archive sees of the samples: the slice members
    in order (everything after [version] and [metadata]), and the bytes
    handed to the writer so far, flushed or still buffered. *)
Definition slices (w : t) : list bytes :=
  map snd (drop 2 (ZipFile.entries (_sr w))).

Definition written (w : t) : bytes :=
  concat (slices w) ++ _slice_buffer w.

End SimpleSRWriter.

(** ** The objects of a run *)

(** Objects are named by their address; only writers are ever reached
    through a name, so the heap holds writers. *)
Abbreviation loc := positive.

(** The values a name of the script can be bound to. *)
Inductive pyval : Type :=
  | VStr (s : string)
  | VInt (n : Z)
  | VRef (l : loc).

(** The module-level names the methods read: the global [sr], and the
    heap of writer objects it may point into. *)
Record globals : Type := mk_globals {
  sr : option pyval;
  heap : gmap loc SimpleSRWriter.t
}.

Definition set_heap (g : globals) (h : gmap loc SimpleSRWriter.t) : globals :=
  {| sr := sr g; heap := h |}.

(** The four line states; the source writes them ['j'], ['k'], ['s'] and
    ['S']. *)
Inductive chirp : Type := J | K | SE0 | SE1.

#[global] Instance chirp_eq_dec : EqDecision chirp.
Proof. solve_decision. Defined.

Definition USB_SPEED (signaling : string) : option Z :=
  if String.eqb signaling "ls" then Some 1500000
  else if String.eqb signaling "fs" then Some 12000000
  else None.

(** ** class USBSignaling *)

Module USBSignaling.

Definition c2s_ls (c : chirp) : Z :=
  match c with J => 1 | K => 2 | SE0 => 0 | SE1 => 3 end.

Definition c2s_fs (c : chirp) : Z :=
  match c with J => 2 | K => 1 | SE0 => 0 | SE1 => 3 end.

Definition CHIRP_TO_SAMPLE (signaling : string) : option (chirp -> Z) :=
  if String.eqb signaling "ls" then Some c2s_ls
  else if String.eqb signaling "fs" then Some c2s_fs
  else None.

Record t : Type := mk {
  _state : chirp;
  _sr : pyval;
  _c2s : chirp -> Z;
  _interpolate : Z
}.

Definition set_state (self : t) (c : chirp) : t :=
  mk c (_sr self) (_c2s self) (_interpolate self).

(** [__init__(self, sr, interpolate, signaling='fs')]; a call that
    leaves [signaling] out passes [None] here. *)
Definition __init__ (sr : pyval) (interpolate : Z)
           (signaling : option string) : outcome t :=
  let signaling := default "fs"%string signaling in
  match CHIRP_TO_SAMPLE signaling with
  | Some c2s =>
      Ok {| _state := J; _sr := sr; _c2s := c2s;
            _interpolate := interpolate |}
  | None => Raise (KeyError signaling)
  end.

(** A method runs on the encoder object and the module globals, and
    leaves both behind, also when it raises. *)
Definition M (A : Type) : Type := t * globals -> outcome A * (t * globals).

Definition ret {A} (a : A) : M A := fun st => (Ok a, st).

Definition raise {A} (e : exn) : M A := fun st => (Raise e, st).

Definition bind {A B} (m : M A) (f : A -> M B) : M B :=
  fun st =>
    match m st with
    | (Ok a, st') => f a st'
    | (Raise e, st') => (Raise e, st')
    | (Diverge, st') => (Diverge, st')
    end.

Notation "x <- m ;; f" := (bind m (fun x => f))
  (at level 100, m at next level, right associativity).
Notation "m ;;; f" := (bind m (fun _ => f))
  (at level 100, right associativity).

Definition get_self : M t := fun st => (Ok st.1, st).

Definition put_state (c : chirp) : M unit :=
  fun st => (Ok tt, (set_state st.1 c, st.2)).

(** Evaluating the expression [sr.write_samples] or [sr.sample_count]:
    the global name [sr] must be bound, and bound to a writer. *)
Definition resolve_sr (attr : string) : M loc :=
  fun st =>
    match sr st.2 with
    | None => (Raise (NameError "sr"), st)
    | Some (VRef l) =>
        match heap st.2 !! l with
        | Some _ => (Ok l, st)
        | None => (Raise (AttributeError attr), st)
        end
    | Some _ => (Raise (AttributeError attr), st)
    end.

(** Calling [write_samples] on the writer at [l]. *)
Definition call_write_samples (l : loc) (samples : bytes) : M unit :=
  fun st =>
    match heap st.2 !! l with
    | Some w =>
        let r := SimpleSRWriter.write_samples w samples in
        (r.1, (st.1, set_heap st.2 (<[l := r.2]> (heap st.2))))
    | None => (Raise (AttributeError "write_samples"), st)
    end.

(** [bytes(_double(seq))]: every symbol as its sample, [_interpolate]
    times. *)
Definition _double (self : t) (seq : list chirp) : bytes :=
  flat_map (fun c => replicate (Z.to_nat (_interpolate self)) (_c2s self c))
           seq.

(** What [emit_chirps] is given as [seq]: a string of symbols, or a
    generator, which yields its symbols and acts on the encoder while
    [bytes] drains it. *)
Inductive chirp_seq : Type :=
  | Str (cs : list chirp)
  | Gen (g : M (list chirp)).

Definition emit_chirps (seq : chirp_seq) (update_state : bool) : M unit :=
  l <- resolve_sr "write_samples" ;;
  cs <- match seq with Str cs => ret cs | Gen g => g end ;;
  self <- get_self ;;
  call_write_samples l (_double self cs) ;;;
  if update_state then
    match seq with
    | Str cs =>
        match last cs with
        | Some c => put_state c
        | None => raise (IndexError "string index out of range")
        end
    | Gen _ => raise (TypeError "'generator' object is not subscriptable")
    end
  else ret tt.

Definition emit_sync : M unit :=
  emit_chirps (Str [K; J; K; J; K; J; K; K]) true.

Definition emit_eop : M unit :=
  emit_chirps (Str [SE0; SE0; J]) true.

Definition emit_stall (cycles : Z) : M unit :=
  if cycles <? 0 then raise (ValueError "Cycles must be 0 or positive.")
  else if cycles =? 0 then ret tt
  else
    self <- get_self ;;
    emit_chirps (Str (py_mul [_state self] cycles)) true.

(** ['jk'.index(state)] and ['jk'[tmp]]. *)
Definition _jk_index (c : chirp) : option Z :=
  match c with J => Some 0 | K => Some 1 | _ => None end.

Definition _jk (tmp : Z) : chirp := if tmp =? 0 then J else K.

(** One pass of the body of [for _ in range(8)]: the symbols it yields
    and the new [byte], [tmp] and [stuff]. *)
Definition bit_step (byte tmp stuff : Z) : list chirp * (Z * Z * Z) :=
  let '(tmp, stuff) :=
    if Z.land byte 1 =? 0
    then (Z.land (Z.lnot tmp) 1, 0)
    else (tmp, stuff + 1) in
  let y1 := _jk tmp in
  if stuff >=? 6 then
    let tmp := Z.land (Z.lnot tmp) 1 in
    ([y1; _jk tmp], (Z.shiftr byte 1, tmp, stuff))
  else ([y1], (Z.shiftr byte 1, tmp, stuff)).

Fixpoint byte_loop (n : nat) (byte tmp stuff : Z) : list chirp * (Z * Z) :=
  match n with
  | O => ([], (tmp, stuff))
  | S n' =>
      let '(ys, (byte, tmp, stuff)) := bit_step byte tmp stuff in
      let '(rest, fin) := byte_loop n' byte tmp stuff in
      (ys ++ rest, fin)
  end.

(** [for byte in seq: for _ in range(8): ...] *)
Fixpoint bytes_loop (seq : bytes) (tmp stuff : Z) : list chirp * (Z * Z) :=
  match seq with
  | [] => ([], (tmp, stuff))
  | byte :: seq' =>
      let '(ys, (tmp, stuff)) := byte_loop 8 byte tmp stuff in
      let '(rest, fin) := bytes_loop seq' tmp stuff in
      (ys ++ rest, fin)
  end.

(** The generator [_to_chirp(seq)], drained: all the symbols it yields,
    and the assignment to [self._state] it ends with. *)
Definition _to_chirp (seq : bytes) : M (list chirp) :=
  self <- get_self ;;
  match _jk_index (_state self) with
  | None => raise (ValueError "substring not found")
  | Some tmp =>
      let '(ys, (tmp, _)) := bytes_loop seq tmp 0 in
      put_state (_jk tmp) ;;;
      ret ys
  end.

Definition emit_bytes (seq : bytes) : M unit :=
  emit_chirps (Gen (_to_chirp seq)) false.

End USBSignaling.

Import USBSignaling (M, ret, raise, bind).
Import (notations) USBSignaling.

(** ** The script's [__main__] block *)

Record packet : Type := mk_packet {
  time : Q;        (* [pkt.time], seconds *)
  load : bytes     (* [pkt.load] *)
}.

Record args_t : Type := mk_args {
  signaling : string;
  interpolate : Z;
  start_padding : Z;
  end_padding : Z
}.

(** [round(x)] on an exact number: to the nearest integer, a tie to the
    even one. *)
Definition py_round (x : Q) : Z :=
  let f := Qfloor x in
  match Qcompare (x - inject_Z f) (1 # 2) with
  | Lt => f
  | Gt => f + 1
  | Eq => if Z.even f then f else f + 1
  end.

(** [sr.sample_count // args.interpolate] *)
Definition sample_ticks (interpolate : Z) : M Z :=
  l <- USBSignaling.resolve_sr "sample_count" ;;
  fun st =>
    match heap st.2 !! l with
    | Some w =>
        if interpolate =? 0 then (Raise ZeroDivisionError, st)
        else (Ok (SimpleSRWriter.sample_count w `div` interpolate), st)
    | None => (Raise (AttributeError "sample_count"), st)
    end.

Definition overrun_message : string :=
  "Previous packet cannot be trasferred on time. Wrong signaling type?".

(** The [for pkt in tqdm(pcap)] loop, with the names it assigns. *)
Fixpoint packet_loop (speed interpolate : Z) (pcap : list packet)
         (last_pkt_at : Q) (begins_at_ticks ends_at_ticks : Z) : M unit :=
  match pcap with
  | [] => ret tt
  | pkt :: pcap' =>
      let delta_interpacket := (time pkt - last_pkt_at)%Q in
      let delta_ticks_interpacket :=
        py_round (delta_interpacket * inject_Z speed)%Q in
      let delta_ticks_intrapacket := ends_at_ticks - begins_at_ticks in
      if delta_ticks_intrapacket >? delta_ticks_interpacket
      then raise (RuntimeError overrun_message)
      else
        let stall_ticks :=
          delta_ticks_interpacket - delta_ticks_intrapacket in
        USBSignaling.emit_stall stall_ticks ;;;
        begins_at_ticks <- sample_ticks interpolate ;;
        USBSignaling.emit_sync ;;;
        USBSignaling.emit_bytes (load pkt) ;;;
        USBSignaling.emit_eop ;;;
        ends_at_ticks <- sample_ticks interpolate ;;
        packet_loop speed interpolate pcap' (time pkt)
                    begins_at_ticks ends_at_ticks
  end.

(** The body of the [with] statement, after [usb] has been built. *)
Definition with_body (args : args_t) (speed : Z) (pcap : list packet)
           (last_pkt_at : Q) : M unit :=
  USBSignaling.emit_stall (start_padding args) ;;;
  begins_at_ticks <- sample_ticks (interpolate args) ;;
  let ends_at_ticks := begins_at_ticks in
  packet_loop speed (interpolate args) pcap last_pkt_at
              begins_at_ticks ends_at_ticks ;;;
  USBSignaling.emit_stall (end_padding args).

(** [contextlib.closing(thing)]: when the block is left, by its end or by
    an exception, [thing.close()] runs, and an exception of the block goes
    on to the caller. *)
Definition closing_exit {A} (l : loc) (r : outcome A) (g : globals)
  : outcome A * globals :=
  match r with
  | Diverge => (Diverge, g)
  | _ =>
      match heap g !! l with
      | Some w =>
          let c := SimpleSRWriter.close w in
          let g' := set_heap g (<[l := c.2]> (heap g)) in
          match c.1 with
          | Ok _ => (r, g')
          | Raise e => (Raise e, g')
          | Diverge => (Diverge, g')
          end
      | None => (Raise (AttributeError "close"), g)
      end
  end.

(** Where the writer of a run is allocated. *)
Definition writer_loc : loc := 1%positive.

Definition no_globals : globals := {| sr := None; heap := ∅ |}.

(** The globals once [with closing(SimpleSRWriter(...)) as sr] has bound
    the new writer to [sr]. *)
Definition start_globals (args : args_t) (speed : Z) : globals :=
  {| sr := Some (VRef writer_loc);
     heap := <[writer_loc :=
                 SimpleSRWriter.__init__ ["D-"; "D+"]%string
                   (speed * interpolate args) 16777216]> ∅ |}.

(** The block of the [with] statement: [usb = USBSignaling(args.signaling,
    args.interpolate)] and the rest.  It gives how the block is left and
    the globals at that point. *)
Definition with_block (args : args_t) (speed : Z) (pcap : list packet)
           (last_pkt_at : Q) (g : globals) : outcome unit * globals :=
  match USBSignaling.__init__ (VStr (signaling args))
          (interpolate args) None with
  | Ok usb =>
      let r := with_body args speed pcap last_pkt_at (usb, g) in
      (r.1, r.2.2)
  | Raise e => (Raise e, g)
  | Diverge => (Diverge, g)
  end.

(** The script from [speed = USB_SPEED.get(...)] on; [pcap] is what
    [rdpcap] returned.  The result is how the script ends and the globals
    it leaves, with the writer at [writer_loc]. *)
Definition main (args : args_t) (pcap : list packet)
  : outcome unit * globals :=
  match USB_SPEED (signaling args) with
  | None => (Raise (SystemExit 2), no_globals)           (* p.error *)
  | Some speed =>
      match pcap with
      | [] => (Raise (IndexError "list index out of range"), no_globals)
      | pkt0 :: _ =>
          let last_pkt_at := time pkt0 in
          let r := with_block args speed pcap last_pkt_at
                     (start_globals args speed) in
          closing_exit writer_loc r.1 r.2
      end
  end.

(** The writer a run leaves behind. *)
Definition final_writer (res : outcome unit * globals)
  : option SimpleSRWriter.t :=
  heap res.2 !! writer_loc.

(** ** Operations on a writer, as data *)

(** A call of one of the two writing methods. *)
Inductive writer_op : Type :=
  | WriteSamples (samples : bytes)
  | FillSample (pattern : bytes) (count : Z).

Definition run_writer_op (w : SimpleSRWriter.t) (op : writer_op)
  : outcome unit * SimpleSRWriter.t :=
  match op with
  | WriteSamples samples => SimpleSRWriter.write_samples w samples
  | FillSample pattern count => SimpleSRWriter.fill_sample w pattern count
  end.

(** Calls made one after the other, up to the first that does not
    return. *)
Fixpoint run_writer_ops (w : SimpleSRWriter.t) (ops : list writer_op)
  : outcome unit * SimpleSRWriter.t :=
  match ops with
  | [] => (Ok tt, w)
  | op :: ops' =>
      match run_writer_op w op with
      | (Ok _, w') => run_writer_ops w' ops'
      | (r, w') => (r, w')
      end
  end.

(** The state every writer of a run is in between two calls: a positive
    slice limit, a buffer within it, an open archive that starts with its
    two header members. *)
Record writer_ok (w : SimpleSRWriter.t) : Prop := {
  ok_limit : 0 < SimpleSRWriter._slice_limit w;
  ok_buffer :
    Z.of_nat (length (SimpleSRWriter._slice_buffer w))
    <= SimpleSRWriter._slice_limit w;
  ok_open : ZipFile.closed (SimpleSRWriter._sr w) = false;
  ok_header : (2 <= length (ZipFile.entries (SimpleSRWriter._sr w)))%nat
}.

(** Two writer states that differ at most in archive, slice number,
    buffer and counter. *)
Definition same_config (w w' : SimpleSRWriter.t) : Prop :=
  SimpleSRWriter._channels w' = SimpleSRWriter._channels w /\
  SimpleSRWriter._sample_rate w' = SimpleSRWriter._sample_rate w /\
  SimpleSRWriter._capture_file w' = SimpleSRWriter._capture_file w /\
  SimpleSRWriter._unit_size w' = SimpleSRWriter._unit_size w /\
  SimpleSRWriter._slice_limit w' = SimpleSRWriter._slice_limit w.

(** ** Operations of the encoder, as data *)

(** A call of one of the emitting methods of [USBSignaling]. *)
Inductive emit_op : Type :=
  | EmitChirps (seq : list chirp) (update_state : bool)
  | EmitSync
  | EmitEop
  | EmitStall (cycles : Z)
  | EmitBytes (seq : bytes).

Definition run_emit_op (op : emit_op) : M unit :=
  match op with
  | EmitChirps seq update_state =>
      USBSignaling.emit_chirps (USBSignaling.Str seq) update_state
  | EmitSync => USBSignaling.emit_sync
  | EmitEop => USBSignaling.emit_eop
  | EmitStall cycles => USBSignaling.emit_stall cycles
  | EmitBytes seq => USBSignaling.emit_bytes seq
  end.

(** The encoder with another object in its [_sr] attribute. *)
Definition with_sr (self : USBSignaling.t) (v : pyval) : USBSignaling.t :=
  USBSignaling.mk (USBSignaling._state self) v (USBSignaling._c2s self)
                  (USBSignaling._interpolate self).

(** The encoder can write: the global [sr] names the writer [w] at [l],
    which is between two calls and stores one byte per sample. *)
Record ready (l : loc) (w : SimpleSRWriter.t) (st : USBSignaling.t * globals)
  : Prop := {
  ready_sr : sr st.2 = Some (VRef l);
  ready_heap : heap st.2 !! l = Some w;
  ready_ok : writer_ok w;
  ready_unit : SimpleSRWriter._unit_size w = 1
}.

(** The writer [w'] is [w] after [samples] more bytes, one per sample. *)
Record wrote (w w' : SimpleSRWriter.t) (samples : bytes) : Prop := {
  wrote_ok : writer_ok w';
  wrote_config : same_config w w';
  wrote_written :
    SimpleSRWriter.written w' = SimpleSRWriter.written w ++ samples;
  wrote_counter :
    SimpleSRWriter._sample_counter w'
    = SimpleSRWriter._sample_counter w + Z.of_nat (length samples)
}.

(** The bytes a call hands to [write_samples], if it gets that far. *)
Definition op_samples (op : emit_op) (self : USBSignaling.t) : option bytes :=
  match op with
  | EmitChirps seq _ => Some (USBSignaling._double self seq)
  | EmitSync => Some (USBSignaling._double self [K; J; K; J; K; J; K; K])
  | EmitEop => Some (USBSignaling._double self [SE0; SE0; J])
  | EmitStall cycles =>
      if cycles <=? 0 then None
      else Some (USBSignaling._double self
                   (py_mul [USBSignaling._state self] cycles))
  | EmitBytes seq =>
      match USBSignaling._jk_index (USBSignaling._state self) with
      | Some tmp =>
          Some (USBSignaling._double self
                  (USBSignaling.bytes_loop seq tmp 0).1)
      | None => None
      end
  end.

(** The heap after an emitting call, read off the global [sr] alone:
    the writer it names has received [samples]; without such a writer,
    or without samples, the heap is what it was. *)
Definition heap_after (g : globals) (samples : option bytes)
  : gmap loc SimpleSRWriter.t :=
  match sr g, samples with
  | Some (VRef l), Some s =>
      match heap g !! l with
      | Some w => <[l := (SimpleSRWriter.write_samples w s).2]> (heap g)
      | None => heap g
      end
  | _, _ => heap g
  end.

(** ** Bit stuffing and its inverse, as the USB rules state them *)

Module Spec.

(** One data bit under the stuffing rule: after the sixth one in a row
    a stuffed transition is sent and the count starts again at 0. *)
Definition bit_step (byte tmp stuff : Z) : list chirp * (Z * Z * Z) :=
  let '(tmp, stuff) :=
    if Z.land byte 1 =? 0
    then (Z.land (Z.lnot tmp) 1, 0)
    else (tmp, stuff + 1) in
  let y1 := USBSignaling._jk tmp in
  if stuff >=? 6 then
    let tmp := Z.land (Z.lnot tmp) 1 in
    ([y1; USBSignaling._jk tmp], (Z.shiftr byte 1, tmp, 0))
  else ([y1], (Z.shiftr byte 1, tmp, stuff)).

Fixpoint byte_loop (n : nat) (byte tmp stuff : Z) : list chirp * (Z * Z) :=
  match n with
  | O => ([], (tmp, stuff))
  | S n' =>
      let '(ys, (byte, tmp, stuff)) := bit_step byte tmp stuff in
      let '(rest, fin) := byte_loop n' byte tmp stuff in
      (ys ++ rest, fin)
  end.

Fixpoint bytes_loop (seq : bytes) (tmp stuff : Z) : list chirp * (Z * Z) :=
  match seq with
  | [] => ([], (tmp, stuff))
  | byte :: seq' =>
      let '(ys, (tmp, stuff)) := byte_loop 8 byte tmp stuff in
      let '(rest, fin) := bytes_loop seq' tmp stuff in
      (ys ++ rest, fin)
  end.

(** The symbols of a payload sent from line state [J] or [K]. *)
Definition to_chirp (state : chirp) (seq : bytes) : option (list chirp) :=
  match USBSignaling._jk_index state with
  | Some tmp => Some (bytes_loop seq tmp 0).1
  | None => None
  end.

(** NRZI decoding: a symbol equal to the one before it is a 1, a
    change of level is a 0. *)
Fixpoint nrzi_decode (prev : chirp) (cs : list chirp) : list bool :=
  match cs with
  | [] => []
  | c :: cs' => bool_decide (c = prev) :: nrzi_decode c cs'
  end.

(** Bit unstuffing: the bit that follows six ones in a row is dropped,
    and the count starts again. *)
Fixpoint unstuff (ones : nat) (bits : list bool) : list bool :=
  match bits with
  | [] => []
  | b :: bits' =>
      if Nat.eqb ones 6 then unstuff 0 bits'
      else b :: unstuff (if b then S ones else 0) bits'
  end.

(** The bits of a payload, least significant bit of each byte first. *)
Definition bits_of_byte (byte : Z) : list bool :=
  map (Z.testbit byte) [0; 1; 2; 3; 4; 5; 6; 7].

Definition bits_of (seq : bytes) : list bool := flat_map bits_of_byte seq.

Definition byte_of_bits (bits : list bool) : Z :=
  foldr (fun (b : bool) acc => (if b then 1 else 0) + 2 * acc) 0 bits.

(** Whole bytes out of a bit string; a string that is not a whole
    number of bytes is no payload. *)
Fixpoint pack (n : nat) (bits : list bool) : option bytes :=
  match n with
  | O => match bits with [] => Some [] | _ => None end
  | S n' =>
      match bits with
      | [] => Some []
      | _ =>
          if (length bits <? 8)%nat then None
          else (fun rest => byte_of_bits (take 8 bits) :: rest)
                 <$> pack n' (drop 8 bits)
      end
  end.

Definition decode (state : chirp) (cs : list chirp) : option bytes :=
  let bits := unstuff 0 (nrzi_decode state cs) in
  pack (length bits) bits.

End Spec.

(** ** The stuffing loop read on bit lists *)

(** One data bit [b] of either loop: [reset] tells whether a stuffed
    symbol puts the counter back to 0, as the rule has it, or leaves it,
    as the generator of [emit_bytes] does. *)
Definition stuff_step (reset : bool) (b : bool) (tmp stuff : Z)
  : list chirp * (Z * Z) :=
  let '(tmp, stuff) :=
    if b then (tmp, stuff + 1) else (Z.land (Z.lnot tmp) 1, 0) in
  let y1 := USBSignaling._jk tmp in
  if stuff >=? 6 then
    let tmp := Z.land (Z.lnot tmp) 1 in
    ([y1; USBSignaling._jk tmp], (tmp, if reset then 0 else stuff))
  else ([y1], (tmp, stuff)).

Fixpoint stuff_bits (reset : bool) (bits : list bool) (tmp stuff : Z)
  : list chirp * (Z * Z) :=
  match bits with
  | [] => ([], (tmp, stuff))
  | b :: bits' =>
      let '(ys, (tmp, stuff)) := stuff_step reset b tmp stuff in
      let '(rest, fin) := stuff_bits reset bits' tmp stuff in
      (ys ++ rest, fin)
  end.

(** No seven ones in a row, [ones] being the ones seen just before. *)
Fixpoint short_runs (ones : nat) (bits : list bool) : bool :=
  match bits with
  | [] => true
  | true :: bits' => (ones <? 6)%nat && short_runs (S ones) bits'
  | false :: bits' => short_runs 0 bits'
  end.

(** A payload is made of integers of [range(256)]. *)
Definition is_payload (seq : bytes) : Prop :=
  Forall (fun byte => 0 <= byte < 256) seq.

(** ** Timing of a capture *)

(** The bus-clock cycles one packet takes on the wire: SYNC, the stuffed
    payload, EOP. *)
Definition packet_cycles (pkt : packet) : Z :=
  8 + Z.of_nat (length (USBSignaling.bytes_loop (load pkt) 0 0).1) + 3.

(** The bus-clock cycles between two packets of the capture. *)
Definition gap_cycles (speed : Z) (pkt next : packet) : Z :=
  py_round ((time next - time pkt) * inject_Z speed)%Q.

(** Packet [n] of the capture does not fit before packet [n + 1]. *)
Definition overrun_at (speed : Z) (pcap : list packet) (n : nat) : Prop :=
  exists pkt next,
    pcap !! n = Some pkt /\ pcap !! S n = Some next /\
    packet_cycles pkt > gap_cycles speed pkt next.

(** Some packet of the rest of the capture comes before the packet
    before it is over, [used] being the cycles taken since
    [last_pkt_at]. *)
Fixpoint loop_overruns (speed : Z) (last_pkt_at : Q) (used : Z)
         (pcap : list packet) : Prop :=
  match pcap with
  | [] => False
  | pkt :: pcap' =>
      used > py_round ((time pkt - last_pkt_at) * inject_Z speed)%Q \/
      loop_overruns speed (time pkt) (packet_cycles pkt) pcap'
  end.

(** The encoder can write and interpolates by [n]. *)
Definition enc_inv (n : Z) (l : loc) (w : SimpleSRWriter.t)
           (st : USBSignaling.t * globals) : Prop :=
  ready l w st /\ USBSignaling._interpolate st.1 = n.

(** A timing overrun is reported with its context: from the error the
    script ends with, the index of the packet, the cycles it had and the
    cycles it took can be read. *)
Definition overrun_reported_with_context : Prop :=
  exists context : exn -> nat * Z * Z,
    forall args speed pcap n pkt next,
      USB_SPEED (signaling args) = Some speed ->
      0 < interpolate args -> 0 <= start_padding args ->
      pcap !! n = Some pkt -> pcap !! S n = Some next ->
      packet_cycles pkt > gap_cycles speed pkt next ->
      (forall m, (m < n)%nat -> ~ overrun_at speed pcap m) ->
      exists e,
        (main args pcap).1 = Raise e /\
        context e = (n, gap_cycles speed pkt next, packet_cycles pkt).

(** ** Names of the slice members *)

(** The member name [_finalize_current_slice] gives slice number [k]. *)
Definition slice_name (w : SimpleSRWriter.t) (k : nat) : string :=
  (SimpleSRWriter._capture_file w ++ "-" ++ pretty (Z.of_nat k))%string.

(** The slice members of the archive are numbered from 1 in order, after
    the two header members, and [_current_slice] is the next number. *)
Record numbered (w : SimpleSRWriter.t) : Prop := {
  numbered_header :
    map fst (take 2 (ZipFile.entries (SimpleSRWriter._sr w)))
    = ["version"; "metadata"]%string;
  numbered_names :
    map fst (drop 2 (ZipFile.entries (SimpleSRWriter._sr w)))
    = map (slice_name w) (seq 1 (length (SimpleSRWriter.slices w)));
  numbered_next :
    SimpleSRWriter._current_slice w
    = Z.of_nat (length (SimpleSRWriter.slices w)) + 1
}.

(** ** Runs of equal symbols *)

(** No more than [n] equal symbols in a row in [cs], [run] copies of
    [prev] standing just before it. *)
Fixpoint run_bounded (n : nat) (prev : chirp) (run : nat) (cs : list chirp)
  : bool :=
  match cs with
  | [] => true
  | c :: cs' =>
      if bool_decide (c = prev)
      then (S run <=? n)%nat && run_bounded n c (S run) cs'
      else run_bounded n c 1 cs'
  end.

(** ** What a run writes *)

(** The two header members of a writer's archive. *)
Definition header (w : SimpleSRWriter.t) : list (string * bytes) :=
  take 2 (ZipFile.entries (SimpleSRWriter._sr w)).

(** A call that, made while the encoder can write, ends and leaves the
    encoder able to write, with the header members untouched. *)
Definition keeps_ready {A} (m : M A) : Prop :=
  forall l w st,
    ready l w st ->
    exists w',
      (m st).1 <> Diverge /\ ready l w' (m st).2 /\ header w' = header w.

(** The symbols of one packet on the wire: SYNC, the payload as
    [emit_bytes] sends it from line state K, EOP. *)
Definition frame_chirps (pkt : packet) : list chirp :=
  [K; J; K; J; K; J; K; K]
  ++ (USBSignaling.bytes_loop (load pkt) 1 0).1
  ++ [SE0; SE0; J].

(** The symbols the timing loop sends for the packets of [pcap]: before
    each packet the bus idles at J for the cycles that the gap to the
    packet before leaves free. *)
Fixpoint loop_chirps (speed : Z) (last_pkt_at : Q) (used : Z)
         (pcap : list packet) : list chirp :=
  match pcap with
  | [] => []
  | pkt :: pcap' =>
      let gap :=
        py_round ((time pkt - last_pkt_at) * inject_Z speed)%Q in
      replicate (Z.to_nat (gap - used)) J
      ++ frame_chirps pkt
      ++ loop_chirps speed (time pkt) (packet_cycles pkt) pcap'
  end.

(** Every packet of the rest of the capture comes after the packet
    before it is over. *)
Fixpoint loop_fits (speed : Z) (last_pkt_at : Q) (used : Z)
         (pcap : list packet) : Prop :=
  match pcap with
  | [] => True
  | pkt :: pcap' =>
      used <= py_round ((time pkt - last_pkt_at) * inject_Z speed)%Q /\
      loop_fits speed (time pkt) (packet_cycles pkt) pcap'
  end.

(** The symbols of a whole run: start padding, the packets, end
    padding. *)
Definition run_chirps (args : args_t) (speed : Z) (pcap : list packet)
  : list chirp :=
  replicate (Z.to_nat (start_padding args)) J
  ++ loop_chirps speed (default 0%Q (time <$> head pcap)) 0 pcap
  ++ replicate (Z.to_nat (end_padding args)) J.

(** The bus-clock cycle at which packet [n] of the capture should start,
    counted from the start of the first packet: the sum of the rounded
    gaps before it. *)
Fixpoint packet_start (speed : Z) (pcap : list packet) (n : nat) : Z :=
  match n, pcap with
  | S n', pkt :: (next :: _) as pcap' =>
      gap_cycles speed pkt next + packet_start speed pcap' n'
  | _, _ => 0
  end.

(** The bus-clock cycles of a capture from the start of its first packet
    to the end of its last. *)
Fixpoint capture_ticks (speed : Z) (pcap : list packet) : Z :=
  match pcap with
  | [] => 0
  | pkt :: pcap' =>
      match pcap' with
      | [] => packet_cycles pkt
      | next :: _ => gap_cycles speed pkt next + capture_ticks speed pcap'
      end
  end.

(** The samples of a run of symbols with the full-speed table, [n]
    samples a symbol. *)
Definition fs_samples (n : Z) (cs : list chirp) : bytes :=
  flat_map (fun c => replicate (Z.to_nat n) (USBSignaling.c2s_fs c)) cs.

(** No packet of the capture comes before the packet before it is
    over. *)
Definition fits (speed : Z) (pcap : list packet) : Prop :=
  forall n, ~ overrun_at speed pcap n.

(** No packet of the capture is stamped so far before the packet before
    it that the gap rounds to less than zero cycles. *)
Definition ordered (speed : Z) (pcap : list packet) : Prop :=
  forall k pkt next,
    pcap !! k = Some pkt -> pcap !! S k = Some next ->
    0 <= gap_cycles speed pkt next.

(** * Properties of the container writer *)

Section Writer.

Import SimpleSRWriter.

Lemma same_config_refl w : same_config w w.
Proof. by repeat split. Qed.

Lemma same_config_trans w1 w2 w3 :
  same_config w1 w2 -> same_config w2 w3 -> same_config w1 w3.
Proof.
  intros (?&?&?&?&?) (?&?&?&?&?). repeat split; congruence.
Qed.

Lemma init_ok channels sample_rate slice_limit :
  0 < slice_limit -> writer_ok (__init__ channels sample_rate slice_limit).
Proof. intros Hl. split; simpl; [done | lia | done | lia]. Qed.

Lemma init_written channels sample_rate slice_limit :
  slices (__init__ channels sample_rate slice_limit) = [] /\
  _slice_buffer (__init__ channels sample_rate slice_limit) = [].
Proof. done. Qed.

Lemma slices_snoc (z : ZipFile.t) name data :
  (2 <= length (ZipFile.entries z))%nat ->
  map snd (drop 2 (ZipFile.entries z ++ [(name, data)]))
  = map snd (drop 2 (ZipFile.entries z)) ++ [data].
Proof.
  intros Hlen. rewrite drop_app_le by done. by rewrite map_app.
Qed.

(** Flushing an open writer: the buffer becomes the next slice. *)
Lemma finalize_spec w :
  writer_ok w ->
  exists w',
    _finalize_current_slice w = (Ok tt, w') /\
    writer_ok w' /\ same_config w w' /\
    slices w' = slices w ++ [_slice_buffer w] /\
    _slice_buffer w' = [] /\
    _current_slice w' = _current_slice w + 1 /\
    _sample_counter w' = _sample_counter w.
Proof.
  intros [Hl Hb Ho Hh].
  unfold _finalize_current_slice, ZipFile.write_entry. rewrite Ho.
  eexists. split; [reflexivity |].
  split.
  { split; simpl; [done | lia | done |]. rewrite length_app. lia. }
  split; [by repeat split |].
  split; [| done].
  unfold slices. simpl. by apply slices_snoc.
Qed.

(** The loop of [write_samples] on a writer in that state: it ends
    within [length mv + 2] rounds, every slice it flushes is filled to
    the limit, and no byte is lost or reordered. *)
Lemma write_loop_spec fuel : forall w mv,
  writer_ok w ->
  (length mv + 2 <= fuel)%nat \/
  (Z.of_nat (length (_slice_buffer w)) < _slice_limit w /\
   (length mv + 1 <= fuel)%nat) ->
  exists w' full,
    write_loop fuel w mv = (Ok tt, w') /\
    writer_ok w' /\ same_config w w' /\
    slices w' = slices w ++ full /\
    Forall (fun s => Z.of_nat (length s) = _slice_limit w) full /\
    concat full ++ _slice_buffer w' = _slice_buffer w ++ mv /\
    (Z.of_nat (length mv)
       <= _slice_limit w - Z.of_nat (length (_slice_buffer w)) ->
     full = []) /\
    (full <> [] -> _slice_buffer w' <> []) /\
    _sample_counter w' = _sample_counter w.
Proof.
  induction fuel as [| fuel IH]; intros w mv Hok Hfuel.
  { exfalso. destruct Hfuel as [? | [_ ?]]; lia. }
  pose proof Hok as [Hl Hb Ho Hh].
  cbn [write_loop].
  set (remaining := _slice_limit w - Z.of_nat (length (_slice_buffer w))).
  destruct (Z.gtb_spec (Z.of_nat (length mv)) remaining) as [Hgt | Hle].
  - (* the buffer overflows: fill, flush, go on with the rest *)
    assert (Hr : 0 <= remaining) by (unfold remaining; lia).
    unfold py_slice_to, py_slice_from, py_clamp_index.
    destruct (Z.ltb_spec remaining 0) as [? | _]; [lia |].
    set (n := Z.to_nat remaining).
    set (w1 := set_slice_buffer w (_slice_buffer w ++ take n mv)).
    assert (Hlen1 : Z.of_nat (length (_slice_buffer w1)) = _slice_limit w).
    { unfold w1. simpl. rewrite length_app, length_take.
      unfold n, remaining in *. lia. }
    assert (Hok1 : writer_ok w1).
    { split; [done | | done | done]. rewrite Hlen1. simpl. lia. }
    destruct (finalize_spec w1 Hok1)
      as (w2 & Hfin & Hok2 & Hcfg2 & Hsl2 & Hbuf2 & _ & Hcnt2).
    rewrite Hfin.
    destruct (IH w2 (drop n mv) Hok2)
      as (w' & full & Hrun & Hok' & Hcfg' & Hsl' & Hfull & Hcat & _ & Hne
          & Hcnt').
    { right. rewrite Hbuf2. destruct Hcfg2 as (_&_&_&_&->). simpl.
      split; [lia |]. rewrite length_drop.
      destruct Hfuel as [? | [? ?]]; unfold n, remaining in *; lia. }
    exists w', (_slice_buffer w1 :: full).
    split; [done |]. split; [done |].
    split; [by eapply same_config_trans |].
    split.
    { rewrite Hsl', Hsl2. by rewrite <- app_assoc. }
    split.
    { constructor; [done |].
      destruct Hcfg2 as (_&_&_&_&Heq). rewrite Heq in Hfull. done. }
    split.
    { simpl. rewrite <- app_assoc, Hcat, Hbuf2. simpl.
      rewrite <- app_assoc. by rewrite take_drop. }
    split; [intros ?; lia |].
    split; [| by rewrite Hcnt', Hcnt2].
    intros _. destruct full as [| s full]; [| by apply Hne].
    simpl in Hcat. rewrite Hbuf2 in Hcat. simpl in Hcat. rewrite Hcat.
    intros Hnil. apply (f_equal length) in Hnil.
    rewrite length_drop in Hnil. simpl in Hnil.
    unfold n, remaining in *. lia.
  - (* the bytes fit: they are appended in place *)
    exists (set_slice_buffer w (_slice_buffer w ++ mv)), [].
    split; [done |].
    split.
    { split; simpl; [done | | done | done].
      rewrite length_app. unfold remaining in Hle. lia. }
    split; [by repeat split |].
    split; [by rewrite app_nil_r |].
    by repeat split.
Qed.


(** One call of [write_samples] with aligned bytes. *)
Lemma write_samples_spec w samples :
  writer_ok w ->
  _unit_size w <> 0 ->
  Z.of_nat (length samples) `mod` _unit_size w = 0 ->
  exists w' full,
    write_samples w samples = (Ok tt, w') /\
    writer_ok w' /\ same_config w w' /\
    slices w' = slices w ++ full /\
    Forall (fun s => Z.of_nat (length s) = _slice_limit w) full /\
    concat full ++ _slice_buffer w' = _slice_buffer w ++ samples /\
    (Z.of_nat (length samples)
       <= _slice_limit w - Z.of_nat (length (_slice_buffer w)) ->
     full = []) /\
    (full <> [] -> _slice_buffer w' <> []) /\
    _sample_counter w'
    = _sample_counter w + Z.of_nat (length samples) `div` _unit_size w.
Proof.
  intros Hok Hu Hal. unfold write_samples.
  destruct (Z.eqb_spec (_unit_size w) 0) as [? | _]; [done |].
  rewrite Hal, Z.eqb_refl. cbn [negb].
  destruct (write_loop_spec (write_fuel samples) w samples Hok)
    as (w' & full & Hrun & Hok' & Hcfg & Hsl & Hfull & Hcat & Hfit & Hne
        & Hcnt).
  { left. unfold write_fuel. lia. }
  rewrite Hrun.
  exists (set_sample_counter w'
            (_sample_counter w'
             + Z.of_nat (length samples) `div` _unit_size w')), full.
  pose proof Hcfg as (?&?&?&Hunit&?).
  split; [done |].
  split; [by destruct Hok'; split |].
  split; [done |].
  split; [done |]. split; [done |]. split; [done |]. split; [done |].
  split; [done |].
  simpl. by rewrite Hcnt, Hunit.
Qed.

Lemma written_after w w' full samples :
  slices w' = slices w ++ full ->
  concat full ++ _slice_buffer w' = _slice_buffer w ++ samples ->
  written w' = written w ++ samples.
Proof.
  intros Hsl Hcat. unfold written.
  by rewrite Hsl, concat_app, <- !app_assoc, Hcat.
Qed.

(** A misaligned call raises and leaves the writer as it was. *)
Lemma write_samples_unaligned w samples :
  _unit_size w <> 0 ->
  Z.of_nat (length samples) `mod` _unit_size w <> 0 ->
  write_samples w samples
  = (Raise (ValueError "Unaligned sample write."), w).
Proof.
  intros Hu Hal. unfold write_samples.
  destruct (Z.eqb_spec (_unit_size w) 0) as [? | _]; [done |].
  by destruct (Z.eqb_spec (Z.of_nat (length samples) `mod` _unit_size w) 0).
Qed.

(** With a slice limit of 0 the loop of [write_samples] never ends on a
    non-empty input: no number of rounds is enough. *)
Lemma write_loop_limit_0 fuel : forall w mv,
  _slice_limit w = 0 -> _slice_buffer w = [] ->
  ZipFile.closed (_sr w) = false -> mv <> [] ->
  (write_loop fuel w mv).1 = Diverge.
Proof.
  induction fuel as [| fuel IH]; intros w mv Hl Hb Ho Hmv; [done |].
  cbn [write_loop]. rewrite Hl, Hb. simpl.
  destruct mv as [| x mv]; [done |]. simpl.
  unfold _finalize_current_slice, ZipFile.write_entry. simpl. rewrite Ho.
  by apply IH.
Qed.

(** With a negative slice limit it never ends on any input. *)
Lemma write_loop_limit_negative fuel : forall w mv,
  _slice_limit w < 0 -> ZipFile.closed (_sr w) = false ->
  (write_loop fuel w mv).1 = Diverge.
Proof.
  induction fuel as [| fuel IH]; intros w mv Hl Ho; [done |].
  cbn [write_loop].
  destruct (Z.gtb_spec (Z.of_nat (length mv))
              (_slice_limit w - Z.of_nat (length (_slice_buffer w))))
    as [_ | ?]; [| lia].
  unfold _finalize_current_slice, ZipFile.write_entry. simpl. rewrite Ho.
  by apply IH.
Qed.

(** With a positive limit and a buffer within it, the rounds granted by
    [write_samples] are enough, whether the archive is open or not. *)
Lemma write_loop_total w mv :
  0 < _slice_limit w ->
  Z.of_nat (length (_slice_buffer w)) <= _slice_limit w ->
  (write_loop (write_fuel mv) w mv).1 <> Diverge.
Proof.
  intros Hl Hb.
  destruct (ZipFile.closed (_sr w)) eqn:Ho.
  - unfold write_fuel. cbn [write_loop].
    destruct (Z.of_nat (length mv) >? _), (length mv); try done;
      unfold _finalize_current_slice, ZipFile.write_entry; simpl;
      by rewrite Ho.
  - destruct (le_lt_dec 2 (length (ZipFile.entries (_sr w)))) as [Hh | Hh].
    + destruct (write_loop_spec (write_fuel mv) w mv) as (w' & ? & -> & _);
        [by split | left; unfold write_fuel; lia | done].
    + (* an archive without its header: the same loop on a padded copy *)
      set (pad := [("version"%string, ([] : bytes));
                   ("metadata"%string, ([] : bytes))]).
      set (z := {| ZipFile.entries := pad ++ ZipFile.entries (_sr w);
                   ZipFile.closed := false |}).
      assert (Hsim : forall fuel w1 w2 mv',
        w2 = set_sr w1 {| ZipFile.entries := pad ++ ZipFile.entries (_sr w1);
                          ZipFile.closed := false |} ->
        ZipFile.closed (_sr w1) = false ->
        (write_loop fuel w1 mv').1 = (write_loop fuel w2 mv').1).
      { clear. induction fuel as [| fuel IH]; intros w1 w2 mv' -> Ho1; [done |].
        cbn [write_loop]. simpl.
        destruct (Z.of_nat (length mv') >? _); [| done].
        unfold _finalize_current_slice, ZipFile.write_entry. simpl.
        rewrite Ho1. apply IH; [| done].
        unfold set_current_slice, set_slice_buffer, set_sr. simpl.
        reflexivity. }
      rewrite (Hsim _ w (set_sr w z) mv eq_refl Ho).
      destruct (write_loop_spec (write_fuel mv) (set_sr w z) mv)
        as (w' & ? & -> & _); [| left; unfold write_fuel; lia | done].
      split; simpl; [done | done | done | lia].
Qed.

(** A run of [write_samples] calls with aligned inputs: all of them
    return, every slice flushed on the way is full, and the bytes are
    kept in order. *)
Lemma write_all_spec chunks : forall w,
  writer_ok w ->
  _unit_size w <> 0 ->
  Forall (fun c => Z.of_nat (length c) `mod` _unit_size w = 0) chunks ->
  exists w' full,
    run_writer_ops w (map WriteSamples chunks) = (Ok tt, w') /\
    writer_ok w' /\ same_config w w' /\
    slices w' = slices w ++ full /\
    Forall (fun s => Z.of_nat (length s) = _slice_limit w) full /\
    concat full ++ _slice_buffer w' = _slice_buffer w ++ concat chunks /\
    (full <> [] -> _slice_buffer w' <> []) /\
    _sample_counter w' * _unit_size w
    = _sample_counter w * _unit_size w
      + Z.of_nat (length (concat chunks)).
Proof.
  induction chunks as [| c chunks IH]; intros w Hok Hu Hal.
  - exists w, []. simpl. rewrite !app_nil_r.
    split; [done |]. split; [done |].
    split; [apply same_config_refl |].
    split; [done |]. split; [done |]. split; [done |].
    split; [done |]. lia.
  - apply Forall_cons in Hal as [Hc Hal].
    destruct (write_samples_spec w c Hok Hu Hc)
      as (w1 & full1 & Hrun1 & Hok1 & Hcfg1 & Hsl1 & Hfull1 & Hcat1 & _
          & Hne1 & Hcnt1).
    pose proof Hcfg1 as (_&_&_&Hunit&Hlim).
    destruct (IH w1 Hok1) as
      (w' & full & Hrun & Hok' & Hcfg & Hsl & Hfull & Hcat & Hne & Hcnt).
    { by rewrite Hunit. }
    { by rewrite Hunit. }
    exists w', (full1 ++ full).
    simpl. rewrite Hrun1.
    split; [done |]. split; [done |].
    split; [by eapply same_config_trans |].
    split; [by rewrite Hsl, Hsl1, <- app_assoc |].
    split.
    { apply Forall_app. split; [done |]. by rewrite Hlim in Hfull. }
    split.
    { rewrite concat_app, <- app_assoc, Hcat, !app_assoc. by rewrite Hcat1. }
    split.
    { intros Hfull12. destruct full as [| s full]; [| by apply Hne].
      rewrite app_nil_r in Hfull12. specialize (Hne1 Hfull12).
      simpl in Hcat. rewrite Hcat. by destruct (_slice_buffer w1). }
    rewrite Hunit in Hcnt. rewrite Hcnt, Hcnt1, length_app.
    apply Z.div_exact in Hc; [| done]. lia.
Qed.

End Writer.

(** The archive of a new two-channel writer: the version marker and the
    metadata text, and no slice yet. *)
Example init_metadata :
  ZipFile.entries
    (SimpleSRWriter._sr (SimpleSRWriter.__init__ ["D-"; "D+"] 48000000 16777216))
  = [("version"%string, [50]);
     ("metadata"%string,
      encode ("[global]" ++ ConfigParser.newline
              ++ "sigrok version = 0.7.1" ++ ConfigParser.newline
              ++ ConfigParser.newline
              ++ "[device 1]" ++ ConfigParser.newline
              ++ "capturefile = logic-1" ++ ConfigParser.newline
              ++ "total probes = 2" ++ ConfigParser.newline
              ++ "samplerate = 48000000" ++ ConfigParser.newline
              ++ "total analog = 0" ++ ConfigParser.newline
              ++ "probe1 = D-" ++ ConfigParser.newline
              ++ "probe2 = D+" ++ ConfigParser.newline
              ++ "unitsize = 1" ++ ConfigParser.newline
              ++ ConfigParser.newline)%string)].
Proof. vm_compute. reflexivity. Qed.

(** ** The claims about the writer *)

Lemma unit_size_of_pos channels :
  channels <> [] -> 0 < SimpleSRWriter.unit_size_of channels.
Proof.
  intros Hne. unfold SimpleSRWriter.unit_size_of.
  assert (0 < Z.of_nat (length channels)) by (destruct channels; simpl; [done | lia]).
  pose proof (Z.div_lt_upper_bound (- Z.of_nat (length channels)) 8 0).
  lia.
Qed.

(** C8: the unit size of a writer is the ceiling of its channel count
    over 8, for every list of channel names, and a writer with two
    channels has unit size 1. *)
Theorem unit_size_is_ceiling :
  (forall channels sample_rate slice_limit,
     SimpleSRWriter._unit_size
       (SimpleSRWriter.__init__ channels sample_rate slice_limit)
     = Qceiling (inject_Z (Z.of_nat (length channels)) / 8)) /\
  (forall ch1 ch2 sample_rate slice_limit,
     SimpleSRWriter._unit_size
       (SimpleSRWriter.__init__ [ch1; ch2] sample_rate slice_limit) = 1).
Proof.
  split; [| done].
  intros channels sample_rate slice_limit. simpl.
  unfold SimpleSRWriter.unit_size_of, Qceiling, Qfloor. simpl.
  by rewrite Z.mul_1_r.
Qed.

(** Between integers the ceiling is the least [u] with [C <= 8 * u]. *)
Lemma unit_size_of_bounds channels :
  let u := SimpleSRWriter.unit_size_of channels in
  8 * (u - 1) < Z.of_nat (length channels) <= 8 * u.
Proof.
  simpl. unfold SimpleSRWriter.unit_size_of.
  pose proof (Z.div_mod (- Z.of_nat (length channels)) 8).
  pose proof (Z.mod_pos_bound (- Z.of_nat (length channels)) 8).
  lia.
Qed.

Lemma length_py_mul {A} (l : list A) (n : Z) :
  0 <= n -> Z.of_nat (length (py_mul l n)) = Z.of_nat (length l) * n.
Proof.
  intros Hn. unfold py_mul.
  rewrite <- (Z2Nat.id n) at 2 by done.
  induction (Z.to_nat n) as [| m IH]; simpl; [lia |].
  rewrite length_app. lia.
Qed.

(** What [fill_sample] does on a writer between two calls: the bytes are
    written once, the counter advances twice. *)
Lemma fill_sample_spec w pattern count :
  writer_ok w ->
  SimpleSRWriter._unit_size w <> 0 ->
  0 <= count ->
  (Z.of_nat (length pattern) * count) `mod` SimpleSRWriter._unit_size w = 0 ->
  exists w',
    SimpleSRWriter.fill_sample w pattern count = (Ok tt, w') /\
    SimpleSRWriter.written w'
    = SimpleSRWriter.written w ++ py_mul pattern count /\
    SimpleSRWriter.sample_count w'
    = SimpleSRWriter.sample_count w
      + 2 * ((Z.of_nat (length pattern) * count)
               `div` SimpleSRWriter._unit_size w).
Proof.
  intros Hok Hu Hc Hal. unfold SimpleSRWriter.fill_sample.
  destruct (Z.eqb_spec (SimpleSRWriter._unit_size w) 0) as [? | _]; [done |].
  rewrite Hal, Z.eqb_refl. cbn [negb].
  pose proof (length_py_mul pattern count Hc) as Hlen.
  destruct (write_samples_spec w (py_mul pattern count) Hok Hu)
    as (w' & full & Hrun & Hok' & Hcfg & Hsl & _ & Hcat & _ & _ & Hcnt).
  { by rewrite Hlen. }
  rewrite Hrun. eexists. split; [reflexivity |].
  destruct Hcfg as (_&_&_&Hunit&_).
  split.
  - by eapply written_after.
  - unfold SimpleSRWriter.sample_count. simpl.
    rewrite Hcnt, Hunit, Hlen. lia.
Qed.

(** C3, at the input where the code leaves the claim: on the two-channel
    writer of a run, [fill_sample(b'\x01', 1)] returns with one byte
    written and a unit size of 1, and [sample_count] is 2, not the 1 that
    bytes written over unit size gives. *)
Theorem fill_sample_counts_twice :
  let w0 := SimpleSRWriter.__init__ ["D-"; "D+"]%string 48000000 16777216 in
  exists w,
    run_writer_ops w0 [FillSample [1] 1] = (Ok tt, w) /\
    SimpleSRWriter.written w0 = [] /\
    SimpleSRWriter.sample_count w0 = 0 /\
    SimpleSRWriter.written w = [1] /\
    SimpleSRWriter._unit_size w = 1 /\
    SimpleSRWriter.sample_count w = 2 /\
    SimpleSRWriter.sample_count w
    <> Z.of_nat (length (SimpleSRWriter.written w))
         `div` SimpleSRWriter._unit_size w.
Proof.
  eexists. split; [vm_compute; reflexivity |].
  repeat split; vm_compute; congruence.
Qed.

(** The counter under [write_samples] alone: after any run of aligned
    calls on a new writer, all of them return, the bytes written are the
    inputs in order, and [sample_count] is their number over the unit
    size. *)
Theorem write_samples_keeps_count channels sample_rate slice_limit chunks :
  0 < slice_limit ->
  channels <> [] ->
  Forall (fun c => Z.of_nat (length c)
                     `mod` SimpleSRWriter.unit_size_of channels = 0) chunks ->
  exists w',
    run_writer_ops (SimpleSRWriter.__init__ channels sample_rate slice_limit)
                   (map WriteSamples chunks) = (Ok tt, w') /\
    SimpleSRWriter.written w' = concat chunks /\
    SimpleSRWriter._unit_size w' = SimpleSRWriter.unit_size_of channels /\
    SimpleSRWriter.sample_count w'
    = Z.of_nat (length (SimpleSRWriter.written w'))
        `div` SimpleSRWriter._unit_size w'.
Proof.
  intros Hl Hne Hal.
  pose proof (unit_size_of_pos channels Hne) as Hu.
  set (w := SimpleSRWriter.__init__ channels sample_rate slice_limit).
  destruct (write_all_spec chunks w) as
    (w' & full & Hrun & _ & Hcfg & Hsl & _ & Hcat & _ & Hcnt);
    [by apply init_ok | simpl; lia | done |].
  exists w'. split; [done |].
  assert (Hw : SimpleSRWriter.written w' = concat chunks).
  { rewrite (written_after w w' full (concat chunks) Hsl Hcat). done. }
  destruct Hcfg as (_&_&_&Hunit&_).
  split; [done |]. split; [done |].
  unfold SimpleSRWriter.sample_count. rewrite Hw, Hunit.
  simpl in Hcnt.
  replace (Z.of_nat (length (concat chunks)))
    with (SimpleSRWriter._sample_counter w'
          * SimpleSRWriter.unit_size_of channels) by lia.
  change (SimpleSRWriter._unit_size w)
    with (SimpleSRWriter.unit_size_of channels).
  by rewrite Z.div_mul by lia.
Qed.

(** Two calls of two and four bytes on a writer of nine channels, whose
    unit size is 2. *)
Lemma write_samples_keeps_count_witness :
  let channels :=
    ["0"; "1"; "2"; "3"; "4"; "5"; "6"; "7"; "8"]%string in
  exists w',
    run_writer_ops (SimpleSRWriter.__init__ channels 1000000 5)
                   (map WriteSamples [[1; 0]; [2; 0; 3; 0]]) = (Ok tt, w') /\
    SimpleSRWriter.written w' = concat [[1; 0]; [2; 0; 3; 0]] /\
    SimpleSRWriter._unit_size w' = SimpleSRWriter.unit_size_of channels /\
    SimpleSRWriter.sample_count w'
    = Z.of_nat (length (SimpleSRWriter.written w'))
        `div` SimpleSRWriter._unit_size w'.
Proof.
  intros channels.
  apply (write_samples_keeps_count channels 1000000 5
           [[1; 0]; [2; 0; 3; 0]]).
  - lia.
  - discriminate.
  - repeat constructor.
Defined.

(** C7: aligned [write_samples] calls on a writer between two calls all
    return; what they flush are slices of exactly the slice limit, made
    of the buffered bytes followed by the input in order; [close] adds
    the rest as a last slice within the limit.  When buffer and input
    together exceed the limit there are at least two new slices, and
    when they fit nothing is flushed before [close]. *)
Theorem write_samples_slices w chunks :
  writer_ok w ->
  SimpleSRWriter._unit_size w <> 0 ->
  Forall (fun c => Z.of_nat (length c) `mod` SimpleSRWriter._unit_size w = 0)
         chunks ->
  let limit := SimpleSRWriter._slice_limit w in
  let total :=
    Z.of_nat (length (SimpleSRWriter._slice_buffer w))
    + Z.of_nat (length (concat chunks)) in
  exists w' wc full,
    run_writer_ops w (map WriteSamples chunks) = (Ok tt, w') /\
    SimpleSRWriter.close w' = (Ok tt, wc) /\
    SimpleSRWriter.slices wc
    = SimpleSRWriter.slices w ++ full ++ [SimpleSRWriter._slice_buffer w'] /\
    Forall (fun s => Z.of_nat (length s) = limit) full /\
    Forall (fun s => Z.of_nat (length s) <= limit)
           (full ++ [SimpleSRWriter._slice_buffer w']) /\
    concat (full ++ [SimpleSRWriter._slice_buffer w'])
    = SimpleSRWriter._slice_buffer w ++ concat chunks /\
    (limit < total ->
     (2 <= length (full ++ [SimpleSRWriter._slice_buffer w']))%nat) /\
    (total <= limit -> full = []).
Proof.
  intros Hok Hu Hal limit total.
  destruct (write_all_spec chunks w Hok Hu Hal)
    as (w' & full & Hrun & Hok' & Hcfg & Hsl & Hfull & Hcat & Hne & _).
  destruct (finalize_spec w' Hok')
    as (w2 & Hfin & Hok2 & _ & Hsl2 & _).
  pose proof Hcfg as (_&_&_&_&Hlim).
  pose proof Hok' as [_ Hbuf _ _]. rewrite Hlim in Hbuf.
  assert (Hsum : Z.of_nat (length (concat full)) = limit * Z.of_nat (length full)).
  { clear -Hfull. induction Hfull as [| s full Hs _ IH]; simpl; [lia |].
    rewrite length_app. fold limit in Hs. lia. }
  assert (Htot : Z.of_nat (length (concat full))
                 + Z.of_nat (length (SimpleSRWriter._slice_buffer w')) = total).
  { unfold total. rewrite <- !Nat2Z.inj_add, <- !length_app. by rewrite Hcat. }
  exists w', (SimpleSRWriter.set_sr w2 (ZipFile.close (SimpleSRWriter._sr w2))), full.
  split; [done |].
  split; [unfold SimpleSRWriter.close; by rewrite Hfin |].
  split.
  { unfold SimpleSRWriter.slices in *. simpl. by rewrite Hsl2, Hsl, <- app_assoc. }
  split; [done |].
  split.
  { apply Forall_app. split.
    - eapply Forall_impl; [exact Hfull |]. simpl. intros s Hs. fold limit in Hs. lia.
    - by constructor. }
  split.
  { by rewrite concat_app, <- Hcat; simpl; rewrite app_nil_r. }
  pose proof Hok as [Hpos _ _ _]. fold limit in Hpos, Hbuf.
  split.
  - intros Hgt. rewrite length_app. simpl.
    destruct full as [| s full']; [simpl in *; lia | simpl; lia].
  - intros Hle. destruct full as [| s full']; [done |].
    exfalso. specialize (Hne ltac:(done)).
    destruct (SimpleSRWriter._slice_buffer w'); [done |].
    simpl length in *. nia.
Qed.

(** The writer of a run with a slice limit of 4 and two calls of three
    bytes each. *)
Lemma write_samples_slices_witness :
  let w := SimpleSRWriter.__init__ ["D-"; "D+"]%string 48000000 4 in
  exists w' wc full,
    run_writer_ops w (map WriteSamples [[1; 2; 1]; [2; 1; 1]]) = (Ok tt, w') /\
    SimpleSRWriter.close w' = (Ok tt, wc) /\
    SimpleSRWriter.slices wc
    = SimpleSRWriter.slices w ++ full ++ [SimpleSRWriter._slice_buffer w'] /\
    Forall (fun s => Z.of_nat (length s) = 4) full /\
    Forall (fun s => Z.of_nat (length s) <= 4)
           (full ++ [SimpleSRWriter._slice_buffer w']) /\
    concat (full ++ [SimpleSRWriter._slice_buffer w'])
    = [] ++ concat [[1; 2; 1]; [2; 1; 1]] /\
    (4 < 0 + 6 ->
     (2 <= length (full ++ [SimpleSRWriter._slice_buffer w']))%nat) /\
    (0 + 6 <= 4 -> full = []).
Proof.
  intros w.
  apply (write_samples_slices w [[1; 2; 1]; [2; 1; 1]]).
  - apply init_ok. lia.
  - vm_compute. congruence.
  - repeat constructor.
Defined.

(** * Properties of the signal encoder *)

Section Encoder.

Import USBSignaling.

Lemma double_set_state self c cs :
  _double (set_state self c) cs = _double self cs.
Proof. done. Qed.

Lemma length_double self cs :
  0 <= _interpolate self ->
  Z.of_nat (length (_double self cs))
  = Z.of_nat (length cs) * _interpolate self.
Proof.
  intros Hn. unfold _double.
  induction cs as [| c cs IH]; simpl; [lia |].
  rewrite length_app, length_replicate. lia.
Qed.

Lemma write_samples_wrote w samples :
  writer_ok w -> SimpleSRWriter._unit_size w = 1 ->
  exists w',
    SimpleSRWriter.write_samples w samples = (Ok tt, w') /\
    wrote w w' samples.
Proof.
  intros Hok Hu.
  destruct (write_samples_spec w samples Hok)
    as (w' & full & Hrun & Hok' & Hcfg & Hsl & _ & Hcat & _ & _ & Hcnt).
  { by rewrite Hu. }
  { rewrite Hu. apply Z.mod_1_r. }
  exists w'. split; [done |]. split; [done | done | |].
  - by eapply written_after.
  - by rewrite Hcnt, Hu, Z.div_1_r.
Qed.

(** After a write the encoder can write again, whatever its line state
    has become. *)
Lemma ready_after l w w' samples st c :
  ready l w st -> wrote w w' samples ->
  ready l w' (set_state st.1 c, set_heap st.2 (<[l := w']> (heap st.2))).
Proof.
  intros [Hsr Hheap Hok Hu] [Hok' Hcfg _ _].
  split; simpl; [done | by rewrite lookup_insert_eq | done |].
  destruct Hcfg as (_&_&_&->&_). done.
Qed.

Lemma set_state_same self : set_state self (_state self) = self.
Proof. by destruct self. Qed.

(** [emit_chirps] on a string of symbols, the encoder being able to
    write: the samples of the string are written, and the line state
    becomes [c], the last symbol when the state is updated and the old
    state when it is not. *)
Lemma emit_chirps_str l w st cs (update_state : bool) c :
  ready l w st ->
  (if update_state then last cs = Some c else c = _state st.1) ->
  exists w',
    emit_chirps (Str cs) update_state st
    = (Ok tt, (set_state st.1 c, set_heap st.2 (<[l := w']> (heap st.2))))
    /\ wrote w w' (_double st.1 cs).
Proof.
  intros [Hsr Hheap Hok Hu] Hc. destruct st as [self g]. simpl in *.
  destruct (write_samples_wrote w (_double self cs) Hok Hu)
    as (w' & Hrun & Hw).
  exists w'. split; [| done].
  unfold emit_chirps, bind, resolve_sr, call_write_samples, get_self, ret.
  simpl. rewrite Hsr, Hheap. simpl. rewrite Hheap, Hrun. simpl.
  destruct update_state.
  - rewrite Hc. done.
  - subst c. by rewrite set_state_same.
Qed.

Lemma emit_sync_spec l w st :
  ready l w st ->
  exists w',
    emit_sync st
    = (Ok tt, (set_state st.1 K, set_heap st.2 (<[l := w']> (heap st.2))))
    /\ wrote w w' (_double st.1 [K; J; K; J; K; J; K; K]).
Proof. intros Hr. by apply emit_chirps_str. Qed.

Lemma emit_eop_spec l w st :
  ready l w st ->
  exists w',
    emit_eop st
    = (Ok tt, (set_state st.1 J, set_heap st.2 (<[l := w']> (heap st.2))))
    /\ wrote w w' (_double st.1 [SE0; SE0; J]).
Proof. intros Hr. by apply emit_chirps_str. Qed.

Lemma last_py_mul {A} (x : A) (n : Z) : 0 < n -> last (py_mul [x] n) = Some x.
Proof.
  intros Hn. unfold py_mul.
  destruct (Z.to_nat n) as [| m] eqn:E; [lia |]. clear.
  induction m as [| m IH]; [done |].
  change (replicate (S (S m)) [x]) with ([x] :: replicate (S m) [x]).
  simpl concat. simpl in IH. rewrite last_cons, IH. done.
Qed.

Lemma py_mul_singleton {A} (x : A) (n : Z) :
  py_mul [x] n = replicate (Z.to_nat n) x.
Proof.
  unfold py_mul. induction (Z.to_nat n) as [| m IH]; [done |].
  simpl. by rewrite IH.
Qed.

Lemma emit_stall_spec l w st cycles :
  ready l w st -> 0 < cycles ->
  exists w',
    emit_stall cycles st
    = (Ok tt, (st.1, set_heap st.2 (<[l := w']> (heap st.2))))
    /\ wrote w w' (_double st.1 (replicate (Z.to_nat cycles) (_state st.1))).
Proof.
  intros Hr Hc. unfold emit_stall.
  destruct (Z.ltb_spec cycles 0) as [? | _]; [lia |].
  destruct (Z.eqb_spec cycles 0) as [? | _]; [lia |].
  destruct (emit_chirps_str l w st (py_mul [_state st.1] cycles) true
              (_state st.1) Hr (last_py_mul _ _ Hc)) as (w' & Hrun & Hw).
  exists w'. rewrite py_mul_singleton in Hw. split; [| done].
  unfold bind, get_self. simpl. rewrite Hrun.
  by rewrite set_state_same.
Qed.

Lemma emit_bytes_spec l w st seq tmp :
  ready l w st -> _jk_index (_state st.1) = Some tmp ->
  exists w',
    emit_bytes seq st
    = (Ok tt, (set_state st.1 (_jk (bytes_loop seq tmp 0).2.1),
               set_heap st.2 (<[l := w']> (heap st.2))))
    /\ wrote w w' (_double st.1 (bytes_loop seq tmp 0).1).
Proof.
  intros [Hsr Hheap Hok Hu] Hjk. destruct st as [self g]. simpl in *.
  destruct (write_samples_wrote w (_double self (bytes_loop seq tmp 0).1)
              Hok Hu) as (w' & Hrun & Hw).
  exists w'. split; [| done].
  unfold emit_bytes, emit_chirps, _to_chirp, bind, resolve_sr,
    call_write_samples, get_self, put_state, ret.
  simpl. rewrite Hsr, Hheap. simpl. rewrite Hjk.
  destruct (bytes_loop seq tmp 0) as [ys [tmp' stuff']]. simpl.
  rewrite Hheap. rewrite double_set_state. simpl in Hrun. by rewrite Hrun.
Qed.

End Encoder.

(** ** The claims about the encoder *)

(** C9: [emit_sync] hands the writer the samples of K,J,K,J,K,J,K,K, each
    symbol [_interpolate] times, and leaves the line state at K; with an
    interpolation of 1 and the full-speed table these samples are the
    bytes 1,2,1,2,1,2,1,1. *)
Theorem emit_sync_pattern l w st :
  ready l w st ->
  exists w',
    USBSignaling.emit_sync st
    = (Ok tt, (USBSignaling.set_state st.1 K,
               set_heap st.2 (<[l := w']> (heap st.2)))) /\
    SimpleSRWriter.written w'
    = SimpleSRWriter.written w
      ++ USBSignaling._double st.1 [K; J; K; J; K; J; K; K] /\
    (USBSignaling._interpolate st.1 = 1 ->
     USBSignaling.CHIRP_TO_SAMPLE "fs" = Some (USBSignaling._c2s st.1) ->
     SimpleSRWriter.written w'
     = SimpleSRWriter.written w ++ [1; 2; 1; 2; 1; 2; 1; 1]).
Proof.
  intros Hr.
  destruct (emit_sync_spec l w st Hr) as (w' & Hrun & Hw).
  exists w'. split; [done |].
  destruct Hw as [_ _ Hwr _]. split; [done |].
  intros Hn Hfs. rewrite Hwr. f_equal.
  unfold USBSignaling._double. rewrite Hn.
  injection Hfs as <-. done.
Qed.

(** A full-speed encoder with an interpolation of 1 and a fresh
    two-channel writer under the global name [sr]. *)
Lemma emit_sync_pattern_witness :
  let w := SimpleSRWriter.__init__ ["D-"; "D+"]%string 12000000 16777216 in
  let st :=
    (USBSignaling.mk J (VStr "fs") USBSignaling.c2s_fs 1,
     {| sr := Some (VRef writer_loc); heap := <[writer_loc := w]> ∅ |}) in
  exists w',
    USBSignaling.emit_sync st
    = (Ok tt, (USBSignaling.set_state st.1 K,
               set_heap st.2 (<[writer_loc := w']> (heap st.2)))) /\
    SimpleSRWriter.written w'
    = SimpleSRWriter.written w
      ++ USBSignaling._double st.1 [K; J; K; J; K; J; K; K] /\
    (USBSignaling._interpolate st.1 = 1 ->
     USBSignaling.CHIRP_TO_SAMPLE "fs" = Some (USBSignaling._c2s st.1) ->
     SimpleSRWriter.written w'
     = SimpleSRWriter.written w ++ [1; 2; 1; 2; 1; 2; 1; 1]).
Proof.
  intros w st.
  apply (emit_sync_pattern writer_loc w st).
  split.
  - reflexivity.
  - vm_compute. reflexivity.
  - apply init_ok. lia.
  - reflexivity.
Defined.

(** A positive count: [emit_stall] is [emit_chirps] on that many copies
    of the line state. *)
Lemma emit_stall_pos cycles st :
  0 < cycles ->
  USBSignaling.emit_stall cycles st
  = USBSignaling.emit_chirps
      (USBSignaling.Str (py_mul [USBSignaling._state st.1] cycles)) true st.
Proof.
  intros Hpos. unfold USBSignaling.emit_stall.
  destruct (Z.ltb_spec cycles 0); [lia |].
  by destruct (Z.eqb_spec cycles 0); [lia |].
Qed.

(** [emit_stall] never changes the encoder object, however it ends. *)
Lemma emit_stall_keeps_encoder cycles st :
  (USBSignaling.emit_stall cycles st).2.1 = st.1.
Proof.
  unfold USBSignaling.emit_stall.
  destruct (cycles <? 0) eqn:Hneg; [done |].
  destruct (cycles =? 0) eqn:Hzero; [done |].
  assert (Hpos : 0 < cycles) by lia.
  destruct st as [self g].
  unfold USBSignaling.bind, USBSignaling.get_self,
    USBSignaling.emit_chirps, USBSignaling.resolve_sr,
    USBSignaling.call_write_samples, USBSignaling.ret,
    USBSignaling.put_state, USBSignaling.bind.
  simpl.
  destruct (sr g) as [[? | ? | l] |]; try done.
  destruct (heap g !! l) as [w |] eqn:Hw; [| done]. simpl. rewrite Hw.
  destruct (SimpleSRWriter.write_samples w _) as [[[] | e |] w']; simpl;
    try done.
  rewrite last_py_mul by done. simpl. by rewrite set_state_same.
Qed.

(** C6: the three cases of [emit_stall].  A negative count raises the
    range error with the machine state as it was; a count of 0 returns
    with the state as it was; a positive count, the encoder being able to
    write, writes the samples of [cycles] copies of the current line
    state; and in every case the encoder object, its line state
    included, is what it was before the call. *)
Theorem emit_stall_cases cycles st :
  (cycles < 0 ->
   USBSignaling.emit_stall cycles st
   = (Raise (ValueError "Cycles must be 0 or positive."), st)) /\
  (cycles = 0 -> USBSignaling.emit_stall cycles st = (Ok tt, st)) /\
  (0 < cycles ->
   forall l w, ready l w st ->
   exists w',
     USBSignaling.emit_stall cycles st
     = (Ok tt, (st.1, set_heap st.2 (<[l := w']> (heap st.2)))) /\
     SimpleSRWriter.written w'
     = SimpleSRWriter.written w
       ++ USBSignaling._double st.1
            (replicate (Z.to_nat cycles) (USBSignaling._state st.1))) /\
  USBSignaling._state (USBSignaling.emit_stall cycles st).2.1
  = USBSignaling._state st.1.
Proof.
  split; [| split; [| split]].
  - intros Hneg. unfold USBSignaling.emit_stall.
    by destruct (Z.ltb_spec cycles 0); [| lia].
  - intros ->. done.
  - intros Hpos l w Hr.
    destruct (emit_stall_spec l w st cycles Hr Hpos) as (w' & Hrun & Hw).
    exists w'. split; [done |]. by destruct Hw.
  - by rewrite emit_stall_keeps_encoder.
Qed.

Lemma heap_after_frame g samples l :
  sr g <> Some (VRef l) -> heap_after g samples !! l = heap g !! l.
Proof.
  intros Hne. unfold heap_after.
  destruct (sr g) as [[? | ? | l'] |]; try done.
  destruct samples as [s |]; [| done].
  destruct (heap g !! l') as [w |]; [| done].
  apply lookup_insert_ne. congruence.
Qed.

Lemma emit_chirps_str_global self g cs (update_state : bool) :
  let r := USBSignaling.emit_chirps (USBSignaling.Str cs) update_state
             (self, g) in
  (forall v,
     USBSignaling.emit_chirps (USBSignaling.Str cs) update_state
       (with_sr self v, g)
     = (r.1, (with_sr r.2.1 v, r.2.2))) /\
  sr r.2.2 = sr g /\
  heap r.2.2 = heap_after g (Some (USBSignaling._double self cs)).
Proof.
  unfold USBSignaling.emit_chirps, USBSignaling.bind,
    USBSignaling.resolve_sr, USBSignaling.call_write_samples,
    USBSignaling.get_self, USBSignaling.ret, USBSignaling.put_state,
    USBSignaling.raise, heap_after.
  simpl.
  destruct (sr g) as [[? | ? | l] |] eqn:Hsr; [by repeat split .. | | by repeat split].
  destruct (heap g !! l) as [w |] eqn:Hw; [| by repeat split]. simpl. rewrite Hw.
  change (USBSignaling._double (with_sr self ?v) cs)
    with (USBSignaling._double self cs).
  destruct (SimpleSRWriter.write_samples w _) as [[[] | e |] w']; simpl;
    [| by repeat split ..].
  destruct update_state; [| by repeat split].
  by destruct (last cs).
Qed.

(** Without a global [sr] the call fails on the name, also when the
    encoder holds a writer in [_sr]. *)
Lemma emit_chirps_unbound_global self g seq update_state :
  sr g = None ->
  USBSignaling.emit_chirps seq update_state (self, g)
  = (Raise (NameError "sr"), (self, g)).
Proof.
  intros Hsr.
  unfold USBSignaling.emit_chirps, USBSignaling.bind, USBSignaling.resolve_sr.
  simpl. by rewrite Hsr.
Qed.

(** C10: every emitting call writes through the global name [sr].  The
    call behaves the same whatever object the encoder holds in its own
    [_sr] attribute; the global binding stays; the heap after the call is
    the heap before it with the call's samples written to the writer the
    global [sr] names; so every other writer, the one in [_sr] included
    when it is a different object, is untouched. *)
Theorem emit_writes_through_global op self g :
  let r := run_emit_op op (self, g) in
  (forall v,
     run_emit_op op (with_sr self v, g) = (r.1, (with_sr r.2.1 v, r.2.2))) /\
  sr r.2.2 = sr g /\
  heap r.2.2 = heap_after g (op_samples op self) /\
  (forall l, sr g <> Some (VRef l) -> heap r.2.2 !! l = heap g !! l) /\
  (forall l, USBSignaling._sr self = VRef l -> sr g <> Some (VRef l) ->
             heap r.2.2 !! l = heap g !! l).
Proof.
  intros r.
  assert (H3 : (forall v,
     run_emit_op op (with_sr self v, g) = (r.1, (with_sr r.2.1 v, r.2.2))) /\
     sr r.2.2 = sr g /\ heap r.2.2 = heap_after g (op_samples op self)).
  { subst r. destruct op as [cs upd | | | cycles | seq]; simpl.
    - apply emit_chirps_str_global.
    - apply emit_chirps_str_global.
    - apply emit_chirps_str_global.
    - destruct (Z.leb_spec cycles 0) as [Hle | Hpos].
      + assert (Hsame : heap_after g None = heap g)
          by (unfold heap_after; by destruct (sr g) as [[] |]).
        unfold USBSignaling.emit_stall.
        destruct (Z.ltb_spec cycles 0) as [Hneg | Hnn]; [by repeat split |].
        by destruct (Z.eqb_spec cycles 0) as [-> | Hnz]; [repeat split | lia].
      + destruct (emit_chirps_str_global self g
                    (py_mul [USBSignaling._state self] cycles) true)
          as (Hsr & Hg & Hheap).
        rewrite (emit_stall_pos cycles (self, g)) by lia.
        split; [| done].
        intros v. rewrite (emit_stall_pos cycles (with_sr self v, g)) by lia.
        apply Hsr.
    - unfold USBSignaling.emit_bytes, USBSignaling.emit_chirps,
        USBSignaling._to_chirp, USBSignaling.bind, USBSignaling.resolve_sr,
        USBSignaling.call_write_samples, USBSignaling.get_self,
        USBSignaling.ret, USBSignaling.put_state, USBSignaling.raise,
        heap_after.
      simpl.
      destruct (sr g) as [[? | ? | l] |] eqn:Hsr;
        [by repeat split .. | | by repeat split].
      destruct (heap g !! l) as [w |] eqn:Hw;
        [| by destruct (USBSignaling._jk_index _); repeat split].
      simpl.
      destruct (USBSignaling._jk_index (USBSignaling._state self))
        as [tmp |]; [| by repeat split].
      destruct (USBSignaling.bytes_loop seq tmp 0) as [ys [tmp' stuff']].
      simpl. rewrite Hw.
      change (USBSignaling._double (USBSignaling.set_state ?s ?c) ys)
        with (USBSignaling._double s ys).
      change (USBSignaling._double (with_sr self ?v) ys)
        with (USBSignaling._double self ys).
      by destruct (SimpleSRWriter.write_samples w _) as [[[] | e |] w'];
        repeat split. }
  destruct H3 as (Hsr & Hg & Hheap).
  split; [done |]. split; [done |]. split; [done |].
  split.
  - intros l Hne. rewrite Hheap. by apply heap_after_frame.
  - intros l _ Hne. rewrite Hheap. by apply heap_after_frame.
Qed.

(** * Properties of the timing loop *)

Section Timing.

Import USBSignaling.

(** Runs the first call of a sequence, whose result is known. *)
Ltac run_call H := unfold bind at 1; rewrite H.

(** How many symbols a data bit yields, and what becomes of [byte] and
    [stuff], does not depend on the line level. *)
Lemma bit_step_level byte tmp tmp' stuff :
  length (bit_step byte tmp stuff).1 = length (bit_step byte tmp' stuff).1 /\
  (bit_step byte tmp stuff).2.1.1 = (bit_step byte tmp' stuff).2.1.1 /\
  (bit_step byte tmp stuff).2.2 = (bit_step byte tmp' stuff).2.2.
Proof.
  unfold bit_step.
  destruct (Z.land byte 1 =? 0); simpl.
  - done.
  - by destruct (stuff + 1 >=? 6).
Qed.

Lemma byte_loop_level n : forall byte tmp tmp' stuff,
  length (byte_loop n byte tmp stuff).1
  = length (byte_loop n byte tmp' stuff).1 /\
  (byte_loop n byte tmp stuff).2.2 = (byte_loop n byte tmp' stuff).2.2.
Proof.
  induction n as [| n IH]; intros byte tmp tmp' stuff; [done |].
  cbn [byte_loop].
  destruct (bit_step_level byte tmp tmp' stuff) as (Hlen & Hbyte & Hstuff).
  destruct (bit_step byte tmp stuff) as [ys [[b t] s]].
  destruct (bit_step byte tmp' stuff) as [ys' [[b' t'] s']].
  simpl in *. subst b' s'.
  destruct (IH b t t' s) as [Hl Hs].
  destruct (byte_loop n b t s) as [rest fin].
  destruct (byte_loop n b t' s) as [rest' fin'].
  simpl in *. rewrite !length_app. by rewrite Hlen, Hl, Hs.
Qed.

Lemma bytes_loop_level seq : forall tmp tmp' stuff,
  length (bytes_loop seq tmp stuff).1 = length (bytes_loop seq tmp' stuff).1.
Proof.
  induction seq as [| byte seq IH]; intros tmp tmp' stuff; [done |].
  cbn [bytes_loop].
  destruct (byte_loop_level 8 byte tmp tmp' stuff) as [Hlen Hstuff].
  destruct (byte_loop 8 byte tmp stuff) as [ys [t s]].
  destruct (byte_loop 8 byte tmp' stuff) as [ys' [t' s']].
  simpl in Hlen, Hstuff. subst s'.
  specialize (IH t t' s).
  destruct (bytes_loop seq t s) as [rest fin].
  destruct (bytes_loop seq t' s) as [rest' fin'].
  simpl in *. rewrite !length_app. by rewrite Hlen, IH.
Qed.

Lemma jk_is_level tmp : _jk tmp = J \/ _jk tmp = K.
Proof. unfold _jk. destruct (tmp =? 0); auto. Qed.

Lemma enc_inv_after n l w w' samples st c :
  enc_inv n l w st -> wrote w w' samples ->
  enc_inv n l w' (set_state st.1 c, set_heap st.2 (<[l := w']> (heap st.2))).
Proof.
  intros [Hr Hn] Hw. split; [by eapply ready_after | done].
Qed.

Lemma counter_after n w w' self cs :
  0 <= n -> _interpolate self = n -> wrote w w' (_double self cs) ->
  SimpleSRWriter._sample_counter w'
  = SimpleSRWriter._sample_counter w + Z.of_nat (length cs) * n.
Proof.
  intros Hn Hi [_ _ _ Hc]. rewrite Hc, length_double; [by rewrite Hi | lia].
Qed.

Lemma emit_sync_step n l w st :
  0 <= n -> enc_inv n l w st ->
  exists w' st',
    emit_sync st = (Ok tt, st') /\ enc_inv n l w' st' /\
    _state st'.1 = K /\
    SimpleSRWriter._sample_counter w'
    = SimpleSRWriter._sample_counter w + 8 * n.
Proof.
  intros Hn Hinv. pose proof Hinv as [Hr Hi].
  destruct (emit_sync_spec l w st Hr) as (w' & Hrun & Hw).
  eexists w', _. split; [exact Hrun |].
  split; [by eapply enc_inv_after |]. split; [done |].
  by rewrite (counter_after n w w' st.1 _ Hn Hi Hw).
Qed.

Lemma emit_eop_step n l w st :
  0 <= n -> enc_inv n l w st ->
  exists w' st',
    emit_eop st = (Ok tt, st') /\ enc_inv n l w' st' /\
    _state st'.1 = J /\
    SimpleSRWriter._sample_counter w'
    = SimpleSRWriter._sample_counter w + 3 * n.
Proof.
  intros Hn Hinv. pose proof Hinv as [Hr Hi].
  destruct (emit_eop_spec l w st Hr) as (w' & Hrun & Hw).
  eexists w', _. split; [exact Hrun |].
  split; [by eapply enc_inv_after |]. split; [done |].
  by rewrite (counter_after n w w' st.1 _ Hn Hi Hw).
Qed.

Lemma emit_bytes_step n l w st seq :
  0 <= n -> enc_inv n l w st ->
  _state st.1 = J \/ _state st.1 = K ->
  exists w' st',
    emit_bytes seq st = (Ok tt, st') /\ enc_inv n l w' st' /\
    (_state st'.1 = J \/ _state st'.1 = K) /\
    SimpleSRWriter._sample_counter w'
    = SimpleSRWriter._sample_counter w
      + Z.of_nat (length (bytes_loop seq 0 0).1) * n.
Proof.
  intros Hn Hinv Hjk. pose proof Hinv as [Hr Hi].
  assert (exists tmp, _jk_index (_state st.1) = Some tmp) as [tmp Htmp].
  { destruct Hjk as [-> | ->]; eauto. }
  destruct (emit_bytes_spec l w st seq tmp Hr Htmp) as (w' & Hrun & Hw).
  eexists w', _. split; [exact Hrun |].
  split; [by eapply enc_inv_after |].
  split; [apply jk_is_level |].
  rewrite (counter_after n w w' st.1 _ Hn Hi Hw).
  by rewrite (bytes_loop_level seq tmp 0 0).
Qed.

Lemma emit_stall_step n l w st cycles :
  0 <= n -> enc_inv n l w st -> 0 <= cycles ->
  exists w' st',
    emit_stall cycles st = (Ok tt, st') /\ enc_inv n l w' st' /\
    _state st'.1 = _state st.1 /\
    SimpleSRWriter._sample_counter w'
    = SimpleSRWriter._sample_counter w + cycles * n.
Proof.
  intros Hn Hinv Hc. pose proof Hinv as [Hr Hi].
  destruct (Z.eq_dec cycles 0) as [-> | Hnz].
  { exists w, st. split; [done |]. split; [done |]. split; [done |]. lia. }
  destruct (emit_stall_spec l w st cycles Hr) as (w' & Hrun & Hw); [lia |].
  eexists w', _. split; [exact Hrun |].
  split.
  { rewrite <- (set_state_same st.1) at 1. by eapply enc_inv_after. }
  split; [done |].
  rewrite (counter_after n w w' st.1 _ Hn Hi Hw), length_replicate. lia.
Qed.

Lemma sample_ticks_step n l w st :
  n <> 0 -> enc_inv n l w st ->
  sample_ticks n st = (Ok (SimpleSRWriter._sample_counter w `div` n), st).
Proof.
  intros Hn [[Hsr Hheap _ _] _].
  unfold sample_ticks, bind, resolve_sr. rewrite Hsr, Hheap. simpl.
  rewrite Hheap. by destruct (Z.eqb_spec n 0).
Qed.

(** The loop on a capture with an overrun somewhere: it ends with the
    timing error, and the encoder could still write. *)
Lemma packet_loop_overrun speed n pcap :
  0 < n ->
  forall last_pkt_at begins_at_ticks ends_at_ticks w st,
    enc_inv n writer_loc w st ->
    _state st.1 = J ->
    loop_overruns speed last_pkt_at (ends_at_ticks - begins_at_ticks) pcap ->
    exists w' st',
      packet_loop speed n pcap last_pkt_at begins_at_ticks ends_at_ticks st
      = (Raise (RuntimeError overrun_message), st') /\
      enc_inv n writer_loc w' st'.
Proof.
  intros Hn.
  induction pcap as [| pkt pcap IH];
    intros last_pkt_at begins_at_ticks ends_at_ticks w st Hinv HJ Hover;
    [done |].
  cbn [packet_loop].
  set (gap := py_round ((time pkt - last_pkt_at) * inject_Z speed)%Q) in *.
  destruct (Z.gtb_spec (ends_at_ticks - begins_at_ticks) gap) as [Hgt | Hle].
  { by exists w, st. }
  destruct Hover as [Hnow | Hlater]; [fold gap in Hnow; lia |].
  destruct (emit_stall_step n writer_loc w st
              (gap - (ends_at_ticks - begins_at_ticks)))
    as (w1 & st1 & Hrun1 & Hinv1 & Hst1 & _); [lia | done | lia |].
  destruct (emit_sync_step n writer_loc w1 st1)
    as (w2 & st2 & Hrun2 & Hinv2 & Hst2 & Hc2); [lia | done |].
  destruct (emit_bytes_step n writer_loc w2 st2 (load pkt))
    as (w3 & st3 & Hrun3 & Hinv3 & Hst3 & Hc3); [lia | done | by right |].
  destruct (emit_eop_step n writer_loc w3 st3)
    as (w4 & st4 & Hrun4 & Hinv4 & Hst4 & Hc4); [lia | done |].
  pose proof (sample_ticks_step n writer_loc w1 st1 ltac:(lia) Hinv1) as Hb.
  pose proof (sample_ticks_step n writer_loc w4 st4 ltac:(lia) Hinv4) as He.
  run_call Hrun1. run_call Hb. run_call Hrun2. run_call Hrun3.
  run_call Hrun4. run_call He.
  apply (IH _ _ _ w4 st4 Hinv4 Hst4).
  replace (SimpleSRWriter._sample_counter w4 `div` n
           - SimpleSRWriter._sample_counter w1 `div` n)
    with (packet_cycles pkt); [done |].
  rewrite Hc4, Hc3, Hc2. unfold packet_cycles.
  replace (SimpleSRWriter._sample_counter w1 + 8 * n
           + Z.of_nat (length (bytes_loop (load pkt) 0 0).1) * n + 3 * n)
    with (SimpleSRWriter._sample_counter w1
          + (8 + Z.of_nat (length (bytes_loop (load pkt) 0 0).1) + 3) * n)
    by lia.
  rewrite Z.div_add by lia. lia.
Qed.

(** An overrun at some index of the capture is met by the loop, wherever
    it starts from. *)
Lemma overrun_at_loop speed pcap n :
  overrun_at speed pcap n ->
  forall last_pkt_at used, loop_overruns speed last_pkt_at used pcap.
Proof.
  intros (pkt & next & Hp & Hn & Hgt).
  revert pcap Hp Hn.
  induction n as [| n IH]; intros pcap Hp Hn last_pkt_at used.
  - destruct pcap as [| p0 [| p1 rest]]; try done.
    simpl in Hp, Hn. injection Hp as ->. injection Hn as ->.
    simpl. right. left. exact Hgt.
  - destruct pcap as [| p0 rest]; [done |].
    simpl. right. by apply IH.
Qed.

End Timing.

(** ** The claim about the timing loop *)

(** Built without a [signaling] argument, the encoder has the
    full-speed table. *)
Lemma usb_init_default sr_arg n :
  USBSignaling.__init__ sr_arg n None
  = Ok (USBSignaling.mk J sr_arg USBSignaling.c2s_fs n).
Proof. reflexivity. Qed.

Lemma close_spec w :
  writer_ok w ->
  exists w',
    SimpleSRWriter.close w = (Ok tt, w') /\
    SimpleSRWriter.slices w'
    = SimpleSRWriter.slices w ++ [SimpleSRWriter._slice_buffer w] /\
    SimpleSRWriter._slice_buffer w' = [] /\
    ZipFile.closed (SimpleSRWriter._sr w') = true.
Proof.
  intros Hok.
  destruct (finalize_spec w Hok) as (w1 & Hfin & _ & _ & Hsl & Hbuf & _).
  unfold SimpleSRWriter.close. rewrite Hfin.
  eexists. split; [reflexivity |]. by repeat split.
Qed.

(** C4, as the code has it: when some packet of the capture takes more
    bus-clock cycles than the rounded gap to the next one, the block of
    the [with] statement is left by the error with the fixed message, the
    writer is then closed, which puts its buffer into a last slice and
    seals the archive, and the script ends with that error. *)
Theorem timing_overrun_aborts_and_closes args speed pcap n :
  USB_SPEED (signaling args) = Some speed ->
  0 < interpolate args ->
  0 <= start_padding args ->
  overrun_at speed pcap n ->
  exists pkt0 wb wf,
    head pcap = Some pkt0 /\
    let r := with_block args speed pcap (time pkt0)
               (start_globals args speed) in
    r.1 = Raise (RuntimeError overrun_message) /\
    heap r.2 !! writer_loc = Some wb /\
    SimpleSRWriter.close wb = (Ok tt, wf) /\
    SimpleSRWriter.slices wf
    = SimpleSRWriter.slices wb ++ [SimpleSRWriter._slice_buffer wb] /\
    ZipFile.closed (SimpleSRWriter._sr wf) = true /\
    main args pcap
    = (Raise (RuntimeError overrun_message),
       set_heap r.2 (<[writer_loc := wf]> (heap r.2))).
Proof.
  intros Hspeed Hn Hpad Hover.
  destruct pcap as [| pkt0 rest].
  { by destruct Hover as (? & ? & ? & _). }
  set (w0 := SimpleSRWriter.__init__ ["D-"; "D+"]%string
               (speed * interpolate args) 16777216).
  set (usb0 := USBSignaling.mk J (VStr (signaling args)) USBSignaling.c2s_fs
                 (interpolate args)).
  assert (Hinv0 : enc_inv (interpolate args) writer_loc w0
                    (usb0, start_globals args speed)).
  { split; [| done]. split; simpl.
    - done.
    - apply lookup_insert_eq.
    - apply init_ok. lia.
    - done. }
  destruct (emit_stall_step (interpolate args) writer_loc w0
              (usb0, start_globals args speed)
              (start_padding args)) as (w1 & st1 & Hrun1 & Hinv1 & Hst1 & _);
    [lia | exact Hinv0 | done |].
  destruct (packet_loop_overrun speed (interpolate args) (pkt0 :: rest) Hn
              (time pkt0)
              (SimpleSRWriter._sample_counter w1 `div` interpolate args)
              (SimpleSRWriter._sample_counter w1 `div` interpolate args)
              w1 st1 Hinv1 Hst1)
    as (wb & stb & Hloop & Hinvb).
  { by eapply overrun_at_loop. }
  assert (Hblock :
    with_block args speed (pkt0 :: rest) (time pkt0) (start_globals args speed)
    = (Raise (RuntimeError overrun_message), stb.2)).
  { assert (Hbody :
      with_body args speed (pkt0 :: rest) (time pkt0)
        (usb0, start_globals args speed)
      = (Raise (RuntimeError overrun_message), stb)).
    { unfold with_body.
      unfold USBSignaling.bind at 1. rewrite Hrun1.
      unfold USBSignaling.bind at 1.
      rewrite (sample_ticks_step _ writer_loc w1 st1); [| lia | done].
      unfold USBSignaling.bind at 1. by rewrite Hloop. }
    unfold with_block. rewrite usb_init_default. fold usb0.
    by rewrite Hbody. }
  destruct Hinvb as [[_ Hheap Hokb _] _].
  destruct (close_spec wb Hokb) as (wf & Hclose & Hsl & _ & Hclosed).
  exists pkt0, wb, wf. split; [done |].
  cbv zeta. rewrite Hblock. simpl fst. simpl snd.
  split; [done |]. split; [done |]. split; [done |]. split; [done |].
  split; [done |].
  unfold main. rewrite Hspeed, Hblock. simpl fst. simpl snd.
  unfold closing_exit. by rewrite Hheap, Hclose.
Qed.

(** A full-speed run on two packets a microsecond apart: the first takes
    21 cycles, the gap is 12. *)
Lemma timing_overrun_aborts_and_closes_witness :
  let args := mk_args "fs" 1 0 0 in
  let pcap := [mk_packet 0 [127]; mk_packet (1 # 1000000) [0]] in
  exists pkt0 wb wf,
    head pcap = Some pkt0 /\
    let r := with_block args 12000000 pcap (time pkt0)
               (start_globals args 12000000) in
    r.1 = Raise (RuntimeError overrun_message) /\
    heap r.2 !! writer_loc = Some wb /\
    SimpleSRWriter.close wb = (Ok tt, wf) /\
    SimpleSRWriter.slices wf
    = SimpleSRWriter.slices wb ++ [SimpleSRWriter._slice_buffer wb] /\
    ZipFile.closed (SimpleSRWriter._sr wf) = true /\
    main args pcap
    = (Raise (RuntimeError overrun_message),
       set_heap r.2 (<[writer_loc := wf]> (heap r.2))).
Proof.
  intros args pcap.
  apply (timing_overrun_aborts_and_closes args 12000000 pcap 0).
  - reflexivity.
  - simpl. lia.
  - simpl. lia.
  - exists (mk_packet 0 [127]), (mk_packet (1 # 1000000) [0]).
    split; [reflexivity |]. split; [reflexivity |].
    vm_compute. reflexivity.
Defined.

(** C4 as the claim words it does not hold: two captures that overrun
    with different cycle budgets end with the very same error, so the
    error tells neither budget. *)
Lemma overrun_context_not_reported : ~ overrun_reported_with_context.
Proof.
  intros [context Hctx].
  set (args := mk_args "fs" 1 0 0).
  set (p0 := mk_packet 0 [127]).
  set (p1 := mk_packet (1 # 1000000) [0]).
  set (p2 := mk_packet 0 [0]).
  destruct (Hctx args 12000000 [p0; p1] 0%nat p0 p1) as (e1 & He1 & Hc1);
    [reflexivity | simpl; lia | simpl; lia | reflexivity | reflexivity
    | vm_compute; reflexivity | intros m Hm; lia |].
  destruct (Hctx args 12000000 [p0; p2] 0%nat p0 p2) as (e2 & He2 & Hc2);
    [reflexivity | simpl; lia | simpl; lia | reflexivity | reflexivity
    | vm_compute; reflexivity | intros m Hm; lia |].
  vm_compute in He1, He2.
  injection He1 as <-. injection He2 as <-.
  rewrite Hc1 in Hc2. vm_compute in Hc2. congruence.
Qed.

(** * Bit stuffing: the code against the rule *)

Lemma land_1_testbit byte : (Z.land byte 1 =? 0) = negb (Z.testbit byte 0).
Proof.
  change 1 with (Z.ones 1). rewrite Z.land_ones by lia.
  rewrite <- Z.bit0_mod. by destruct (Z.testbit byte 0).
Qed.

Lemma code_bit_step_view byte tmp stuff :
  USBSignaling.bit_step byte tmp stuff
  = let r := stuff_step false (Z.testbit byte 0) tmp stuff in
    (r.1, (Z.shiftr byte 1, r.2.1, r.2.2)).
Proof.
  unfold USBSignaling.bit_step, stuff_step. rewrite land_1_testbit.
  destruct (Z.testbit byte 0); simpl.
  - by destruct (stuff + 1 >=? 6).
  - done.
Qed.

Lemma rule_bit_step_view byte tmp stuff :
  Spec.bit_step byte tmp stuff
  = let r := stuff_step true (Z.testbit byte 0) tmp stuff in
    (r.1, (Z.shiftr byte 1, r.2.1, r.2.2)).
Proof.
  unfold Spec.bit_step, stuff_step. rewrite land_1_testbit.
  destruct (Z.testbit byte 0); simpl.
  - by destruct (stuff + 1 >=? 6).
  - done.
Qed.

Lemma stuff_bits_app reset bits1 : forall bits2 tmp stuff,
  stuff_bits reset (bits1 ++ bits2) tmp stuff
  = let r1 := stuff_bits reset bits1 tmp stuff in
    let r2 := stuff_bits reset bits2 r1.2.1 r1.2.2 in
    (r1.1 ++ r2.1, r2.2).
Proof.
  induction bits1 as [| b bits1 IH]; intros bits2 tmp stuff; simpl.
  - by destruct (stuff_bits reset bits2 tmp stuff).
  - destruct (stuff_step reset b tmp stuff) as [ys [t s]].
    rewrite IH. simpl.
    destruct (stuff_bits reset bits1 t s) as [ys1 [t1 s1]]. simpl.
    destruct (stuff_bits reset bits2 t1 s1) as [ys2 fin]. simpl.
    by rewrite app_assoc.
Qed.

(** The bits a loop of [n] rounds reads off [byte]. *)
Lemma testbits_shift byte n :
  map (fun i => Z.testbit (Z.shiftr byte 1) (Z.of_nat i)) (seq 0 n)
  = map (fun i => Z.testbit byte (Z.of_nat i)) (seq 1 n).
Proof.
  rewrite <- (fmap_S_seq 0 n), <- list_fmap_compose.
  apply list_fmap_ext. intros i x _.
  change (Z.testbit (Z.shiftr byte 1) (Z.of_nat x)
          = Z.testbit byte (Z.of_nat (S x))).
  rewrite Z.shiftr_spec by lia. f_equal. lia.
Qed.

Ltac byte_loop_view step_view :=
  let n := fresh "n" in let IH := fresh "IH" in
  intros n; induction n as [| n IH]; intros byte tmp stuff; [done |];
  cbn [USBSignaling.byte_loop Spec.byte_loop seq map stuff_bits];
  rewrite step_view; cbv zeta;
  change (Z.of_nat 0) with 0;
  destruct (stuff_step _ (Z.testbit byte 0) tmp stuff) as [ys [t s]];
  cbn [fst snd]; rewrite IH, testbits_shift;
  by destruct (stuff_bits _ _ t s).

Lemma code_byte_loop_view : forall n byte tmp stuff,
  USBSignaling.byte_loop n byte tmp stuff
  = stuff_bits false
      (map (fun i => Z.testbit byte (Z.of_nat i)) (seq 0 n)) tmp stuff.
Proof. byte_loop_view code_bit_step_view. Qed.

Lemma rule_byte_loop_view : forall n byte tmp stuff,
  Spec.byte_loop n byte tmp stuff
  = stuff_bits true
      (map (fun i => Z.testbit byte (Z.of_nat i)) (seq 0 n)) tmp stuff.
Proof. byte_loop_view rule_bit_step_view. Qed.

Ltac bytes_loop_view byte_view :=
  let payload := fresh "payload" in let IH := fresh "IH" in
  intros payload; induction payload as [| byte payload IH];
  intros tmp stuff; [done |];
  cbn [USBSignaling.bytes_loop Spec.bytes_loop Spec.bits_of flat_map];
  rewrite stuff_bits_app, byte_view; cbv zeta;
  change (map (fun i => Z.testbit byte (Z.of_nat i)) (List.seq 0 8))
    with (Spec.bits_of_byte byte);
  destruct (stuff_bits _ (Spec.bits_of_byte byte) tmp stuff) as [ys [t s]];
  cbn [fst snd]; rewrite IH;
  by destruct (stuff_bits _ _ t s).

Lemma code_bytes_loop_view : forall seq tmp stuff,
  USBSignaling.bytes_loop seq tmp stuff
  = stuff_bits false (Spec.bits_of seq) tmp stuff.
Proof. bytes_loop_view code_byte_loop_view. Qed.

Lemma rule_bytes_loop_view : forall seq tmp stuff,
  Spec.bytes_loop seq tmp stuff
  = stuff_bits true (Spec.bits_of seq) tmp stuff.
Proof. bytes_loop_view rule_byte_loop_view. Qed.

Lemma toggle_level tmp :
  tmp = 0 \/ tmp = 1 ->
  (Z.land (Z.lnot tmp) 1 = 0 \/ Z.land (Z.lnot tmp) 1 = 1) /\
  USBSignaling._jk (Z.land (Z.lnot tmp) 1) <> USBSignaling._jk tmp.
Proof. intros [-> | ->]; simpl; split; auto; discriminate. Qed.

(** Decoding undoes the stuffing of the rule, from any point of the
    stream: [stuff] ones have just been sent at level [tmp]. *)
Lemma rule_decodes bits : forall tmp stuff,
  tmp = 0 \/ tmp = 1 -> 0 <= stuff < 6 ->
  Spec.unstuff (Z.to_nat stuff)
    (Spec.nrzi_decode (USBSignaling._jk tmp) (stuff_bits true bits tmp stuff).1)
  = bits.
Proof.
  induction bits as [| b bits IH]; intros tmp stuff Htmp Hstuff; [done |].
  destruct (toggle_level tmp Htmp) as [Htog Hne].
  cbn [stuff_bits]. unfold stuff_step.
  assert (Hone : Nat.eqb (Z.to_nat stuff) 6 = false)
    by (apply Nat.eqb_neq; lia).
  destruct b.
  - destruct (Z.geb_spec (stuff + 1) 6) as [Hsix | Hless].
    + specialize (IH (Z.land (Z.lnot tmp) 1) 0 Htog ltac:(lia)).
      destruct (stuff_bits true bits _ 0) as [rest fin].
      cbn [fst app Spec.nrzi_decode Spec.unstuff]. rewrite Hone.
      rewrite bool_decide_eq_true_2 by done.
      rewrite bool_decide_eq_false_2 by done.
      replace (S (Z.to_nat stuff)) with 6%nat by lia.
      cbn [Spec.unstuff Nat.eqb]. f_equal. exact IH.
    + specialize (IH tmp (stuff + 1) Htmp ltac:(lia)).
      destruct (stuff_bits true bits tmp (stuff + 1)) as [rest fin].
      cbn [fst app Spec.nrzi_decode Spec.unstuff]. rewrite Hone.
      rewrite bool_decide_eq_true_2 by done.
      replace (S (Z.to_nat stuff)) with (Z.to_nat (stuff + 1)) by lia.
      f_equal. exact IH.
  - specialize (IH (Z.land (Z.lnot tmp) 1) 0 Htog ltac:(lia)).
    change (0 >=? 6) with false. cbv iota.
    destruct (stuff_bits true bits _ 0) as [rest fin].
    cbn [fst app Spec.nrzi_decode Spec.unstuff]. rewrite Hone.
    rewrite bool_decide_eq_false_2 by done.
    f_equal. exact IH.
Qed.

(** On a bit string without seven ones in a row the generator of
    [emit_bytes] yields what the rule yields: [ones] counts the ones
    just seen, [c] is the counter of the code and [s] the counter of the
    rule. *)
Lemma code_follows_rule bits : forall ones tmp c s,
  short_runs ones bits = true ->
  (c = Z.of_nat ones /\ s = Z.of_nat ones /\ (ones < 6)%nat) \/
  (ones = 6%nat /\ c = 6 /\ s = 0) ->
  (stuff_bits false bits tmp c).1 = (stuff_bits true bits tmp s).1 /\
  (stuff_bits false bits tmp c).2.1 = (stuff_bits true bits tmp s).2.1.
Proof.
  induction bits as [| b bits IH]; intros ones tmp c s Hshort Hcount;
    [done |].
  cbn [stuff_bits]. unfold stuff_step. destruct b.
  - simpl in Hshort. apply andb_prop in Hshort as [Hlt Hshort].
    apply Nat.ltb_lt in Hlt.
    destruct Hcount as [(-> & -> & _) | (-> & _)]; [| lia].
    destruct (Z.geb_spec (Z.of_nat ones + 1) 6) as [Hsix | Hless].
    + destruct (IH (S ones) (Z.land (Z.lnot tmp) 1) (Z.of_nat ones + 1) 0
                  Hshort) as [Hys Htmp]; [right; lia |].
      destruct (stuff_bits false bits _ _) as [r1 [t1 s1]].
      destruct (stuff_bits true bits _ _) as [r2 [t2 s2]].
      simpl in *. by subst.
    + destruct (IH (S ones) tmp (Z.of_nat ones + 1) (Z.of_nat ones + 1)
                  Hshort) as [Hys Htmp]; [left; lia |].
      destruct (stuff_bits false bits _ _) as [r1 [t1 s1]].
      destruct (stuff_bits true bits _ _) as [r2 [t2 s2]].
      simpl in *. by subst.
  - simpl in Hshort. change (0 >=? 6) with false. cbv iota.
    destruct (IH 0%nat (Z.land (Z.lnot tmp) 1) 0 0 Hshort) as [Hys Htmp];
      [left; lia |].
    destruct (stuff_bits false bits _ _) as [r1 [t1 s1]].
    destruct (stuff_bits true bits _ _) as [r2 [t2 s2]].
    simpl in *. by subst.
Qed.

Lemma byte_of_bits_of_byte byte :
  0 <= byte < 256 -> Spec.byte_of_bits (Spec.bits_of_byte byte) = byte.
Proof.
  assert (Hnat : forall n : nat, (n < 256)%nat ->
            Spec.byte_of_bits (Spec.bits_of_byte (Z.of_nat n)) = Z.of_nat n).
  { intros n Hn. do 256 (destruct n as [| n]; [reflexivity |]). lia. }
  intros Hb. rewrite <- (Z2Nat.id byte) by lia. apply Hnat. lia.
Qed.

Lemma pack_bits_of payload : forall n,
  is_payload payload ->
  (length (Spec.bits_of payload) <= n)%nat ->
  Spec.pack n (Spec.bits_of payload) = Some payload.
Proof.
  induction payload as [| byte payload IH]; intros n Hp Hn.
  - by destruct n.
  - apply Forall_cons in Hp as [Hb Hp].
    destruct n as [| n]; [simpl in Hn; lia |].
    change (Spec.bits_of (byte :: payload))
      with (Spec.bits_of_byte byte ++ Spec.bits_of payload) in *.
    cbn [Spec.pack].
    change (take 8 (Spec.bits_of_byte byte ++ Spec.bits_of payload))
      with (Spec.bits_of_byte byte).
    change (drop 8 (Spec.bits_of_byte byte ++ Spec.bits_of payload))
      with (Spec.bits_of payload).
    rewrite byte_of_bits_of_byte by done.
    rewrite IH; [done | done |].
    rewrite length_app in Hn. simpl in Hn. lia.
Qed.

Lemma jk_index_level state tmp :
  USBSignaling._jk_index state = Some tmp ->
  (tmp = 0 \/ tmp = 1) /\ USBSignaling._jk tmp = state.
Proof. destruct state; intros [= <-]; auto. Qed.

(** The decoder is an inverse of stuffing by the rule: from line state J
    or K, every payload comes back from its symbols. *)
Theorem rule_round_trip state payload :
  state = J \/ state = K ->
  is_payload payload ->
  exists cs,
    Spec.to_chirp state payload = Some cs /\
    Spec.decode state cs = Some payload.
Proof.
  intros Hstate Hp. unfold Spec.to_chirp.
  assert (exists tmp, USBSignaling._jk_index state = Some tmp) as [tmp Htmp]
    by (destruct Hstate as [-> | ->]; eauto).
  rewrite Htmp. eexists. split; [reflexivity |].
  destruct (jk_index_level state tmp Htmp) as [Hlevel <-].
  unfold Spec.decode. rewrite rule_bytes_loop_view.
  pose proof (rule_decodes (Spec.bits_of payload) tmp 0 Hlevel ltac:(lia))
    as Hdec.
  change (Z.to_nat 0) with 0%nat in Hdec. rewrite Hdec.
  by apply pack_bits_of.
Qed.

(** On payloads without seven 1-bits in a row the generator of
    [emit_bytes] yields the symbols of the rule, and they decode to the
    payload. *)
Theorem to_chirp_round_trip_short_runs payload self g :
  USBSignaling._state self = J \/ USBSignaling._state self = K ->
  is_payload payload ->
  short_runs 0 (Spec.bits_of payload) = true ->
  exists cs,
    (USBSignaling._to_chirp payload (self, g)).1 = Ok cs /\
    Spec.to_chirp (USBSignaling._state self) payload = Some cs /\
    Spec.decode (USBSignaling._state self) cs = Some payload.
Proof.
  intros Hstate Hp Hshort.
  destruct (rule_round_trip _ payload Hstate Hp) as (cs & Hcs & Hdec).
  exists cs. split; [| done].
  unfold Spec.to_chirp in Hcs.
  unfold USBSignaling._to_chirp, USBSignaling.bind, USBSignaling.get_self,
    USBSignaling.put_state, USBSignaling.ret.
  simpl.
  destruct (USBSignaling._jk_index (USBSignaling._state self)) as [tmp |];
    [| done].
  injection Hcs as <-.
  destruct (code_follows_rule (Spec.bits_of payload) 0 tmp 0 0 Hshort)
    as [Hys _]; [left; lia |].
  rewrite <- code_bytes_loop_view, <- rule_bytes_loop_view in Hys.
  rewrite <- Hys.
  by destruct (USBSignaling.bytes_loop payload tmp 0) as [ys [t s]].
Qed.

Lemma to_chirp_round_trip_short_runs_witness :
  let self := USBSignaling.mk K (VStr "fs") USBSignaling.c2s_fs 4 in
  exists cs,
    (USBSignaling._to_chirp [63; 252; 0; 165] (self, no_globals)).1 = Ok cs /\
    Spec.to_chirp K [63; 252; 0; 165] = Some cs /\
    Spec.decode K cs = Some [63; 252; 0; 165].
Proof.
  intros self.
  apply (to_chirp_round_trip_short_runs [63; 252; 0; 165] self no_globals).
  - right. reflexivity.
  - repeat constructor; lia.
  - reflexivity.
Defined.

(** ** The claims about bit stuffing and the speed profile *)

(** In the code a 1-bit that brings the counter to 6 or beyond yields a
    stuffed symbol and leaves the counter where it is, so the next 1-bit
    yields another one. *)
Lemma bit_step_keeps_counter byte tmp stuff :
  Z.land byte 1 <> 0 -> 5 <= stuff ->
  length (USBSignaling.bit_step byte tmp stuff).1 = 2%nat /\
  (USBSignaling.bit_step byte tmp stuff).2.2 = stuff + 1.
Proof.
  intros Hbit Hstuff. unfold USBSignaling.bit_step.
  destruct (Z.eqb_spec (Z.land byte 1) 0) as [? | _]; [done |].
  by destruct (Z.geb_spec (stuff + 1) 6) as [_ | ?]; [| lia].
Qed.

(** C1, at the input where the code leaves the claim: the payload
    [b'\x7f'], seven 1-bits and a 0-bit, sent from line state J.  The
    generator of [emit_bytes] yields ten symbols, a stuffed one after the
    sixth and another after the seventh 1-bit, where stuffing with a
    counter reset yields nine; the counter is at 6 after the first stuffed
    symbol and at 7 after the second.  More generally every 1-bit that
    finds the counter at 5 or more yields a stuffed symbol and leaves the
    counter one higher. *)
Theorem emit_bytes_stuffs_twice :
  let usb := USBSignaling.mk J (VStr "fs") USBSignaling.c2s_fs 1 in
  let g := start_globals (mk_args "fs" 1 0 0) 12000000 in
  (USBSignaling._to_chirp [127] (usb, g)).1
  = Ok [J; J; J; J; J; J; K; K; J; K] /\
  Spec.to_chirp J [127] = Some [J; J; J; J; J; J; K; K; J] /\
  USBSignaling.bit_step 1 0 5 = ([J; K], (0, 1, 6)) /\
  USBSignaling.bit_step 1 1 6 = ([K; J], (0, 0, 7)) /\
  Spec.bit_step 1 0 5 = ([J; K], (0, 1, 0)) /\
  Spec.bit_step 1 1 0 = ([K], (0, 1, 1)) /\
  (forall byte tmp stuff,
     Z.land byte 1 <> 0 -> 5 <= stuff ->
     length (USBSignaling.bit_step byte tmp stuff).1 = 2%nat /\
     (USBSignaling.bit_step byte tmp stuff).2.2 = stuff + 1).
Proof.
  do 6 (split; [reflexivity |]).
  intros byte tmp stuff Hbit Hstuff. by apply bit_step_keeps_counter.
Qed.

(** C2, at the input where the code leaves the claim: the payload
    [b'\xff'] sent from line state J.  NRZI decoding and unstuffing the
    symbols of [emit_bytes] gives ten bits, of which the first eight spell
    0x7f, and no payload at all as whole bytes; the same decoder gives the
    payload back on the symbols stuffed with a counter reset. *)
Theorem emit_bytes_round_trip_fails :
  let usb := USBSignaling.mk J (VStr "fs") USBSignaling.c2s_fs 1 in
  let g := start_globals (mk_args "fs" 1 0 0) 12000000 in
  exists cs,
    (USBSignaling._to_chirp [255] (usb, g)).1 = Ok cs /\
    Spec.unstuff 0 (Spec.nrzi_decode J cs)
    = [true; true; true; true; true; true; true; false; true; false] /\
    Spec.byte_of_bits (take 8 (Spec.unstuff 0 (Spec.nrzi_decode J cs))) = 127 /\
    Spec.bits_of [255]
    = [true; true; true; true; true; true; true; true] /\
    Spec.decode J cs <> Some [255] /\
    (exists cs', Spec.to_chirp J [255] = Some cs' /\
                 Spec.decode J cs' = Some [255]).
Proof.
  eexists. split; [reflexivity |].
  split; [reflexivity |]. split; [reflexivity |]. split; [reflexivity |].
  split; [by vm_compute |].
  eexists. split; reflexivity.
Qed.

(** C5, at the input where the code leaves the claim: a run with the
    profile ['ls'].  The script builds its encoder without a [signaling]
    argument, so for every command line the encoder has the full-speed
    table; the low-speed run of one packet [b'\x00'] with one cycle of
    padding ends well and its slice holds full-speed samples, J as 2 and
    K as 1, where the low-speed table has J as 1 and K as 2. *)
Theorem low_speed_run_uses_full_speed_table :
  (forall args,
     USBSignaling.__init__ (VStr (signaling args)) (interpolate args) None
     = Ok (USBSignaling.mk J (VStr (signaling args)) USBSignaling.c2s_fs
             (interpolate args))) /\
  USBSignaling.CHIRP_TO_SAMPLE "ls" = Some USBSignaling.c2s_ls /\
  let args := mk_args "ls" 1 1 0 in
  let pcap := [mk_packet 0 [0]] in
  let symbols :=
    [J; K; J; K; J; K; J; K; K; J; K; J; K; J; K; J; K; SE0; SE0; J] in
  exists w,
    (main args pcap).1 = Ok tt /\
    final_writer (main args pcap) = Some w /\
    SimpleSRWriter.slices w = [map USBSignaling.c2s_fs symbols] /\
    map USBSignaling.c2s_fs symbols
    = [2; 1; 2; 1; 2; 1; 2; 1; 1; 2; 1; 2; 1; 2; 1; 2; 1; 0; 0; 2] /\
    map USBSignaling.c2s_ls symbols
    = [1; 2; 1; 2; 1; 2; 1; 2; 2; 1; 2; 1; 2; 1; 2; 1; 2; 0; 0; 1].
Proof.
  split; [intros args; apply usb_init_default |].
  split; [reflexivity |].
  eexists. split; [by vm_compute |].
  split; [vm_compute; reflexivity |].
  split; [by vm_compute |]. by split.
Qed.

(** * More on the container writer *)

Section WriterMore.

Import SimpleSRWriter.

(** The loop never reads the sample counter. *)
Lemma write_loop_counter fuel : forall w mv c,
  write_loop fuel (set_sample_counter w c) mv
  = ((write_loop fuel w mv).1,
     set_sample_counter (write_loop fuel w mv).2 c).
Proof.
  induction fuel as [| fuel IH]; intros w mv c; [done |].
  cbn [write_loop]. simpl.
  destruct (Z.of_nat (length mv) >? _); [| done].
  unfold _finalize_current_slice, ZipFile.write_entry. simpl.
  destruct (ZipFile.closed (_sr w)); [done |].
  match goal with
  | |- write_loop _ _ ?mv' = ((write_loop _ ?w' _).1, _) =>
      exact (IH w' mv' c)
  end.
Qed.

(** More rounds than the loop needs change nothing. *)
Lemma write_loop_fuel_mono fuel : forall fuel' w mv,
  (write_loop fuel w mv).1 <> Diverge -> (fuel <= fuel')%nat ->
  write_loop fuel' w mv = write_loop fuel w mv.
Proof.
  induction fuel as [| fuel IH]; intros fuel' w mv Hend Hle; [done |].
  destruct fuel' as [| fuel']; [lia |].
  cbn [write_loop] in *.
  destruct (Z.of_nat (length mv) >? _); [| done].
  destruct (_finalize_current_slice _) as [[[] | e |] w1]; try done.
  apply IH; [done | lia].
Qed.

Lemma write_loop_ok fuel w mv :
  writer_ok w -> (length mv + 2 <= fuel)%nat ->
  exists w', write_loop fuel w mv = (Ok tt, w') /\ writer_ok w' /\
             same_config w w' /\ _sample_counter w' = _sample_counter w.
Proof.
  intros Hok Hfuel.
  destruct (write_loop_spec fuel w mv Hok)
    as (w' & ? & Hrun & Hok' & Hcfg & _ & _ & _ & _ & _ & Hcnt);
    [by left | eauto].
Qed.

Lemma write_loop_S fuel w mv :
  write_loop (S fuel) w mv
  = let remaining := _slice_limit w - Z.of_nat (length (_slice_buffer w)) in
    if Z.of_nat (length mv) >? remaining then
      match _finalize_current_slice
              (set_slice_buffer w
                 (_slice_buffer w ++ py_slice_to mv remaining)) with
      | (Ok _, w') => write_loop fuel w' (py_slice_from mv remaining)
      | (r, w') => (r, w')
      end
    else (Ok tt, set_slice_buffer w (_slice_buffer w ++ mv)).
Proof. reflexivity. Qed.

(** Writing [a ++ b] in one go leaves the loop where writing [a] and then
    [b] leaves it. *)
Lemma write_loop_app fuel : forall w a b,
  writer_ok w ->
  (length a + length b + 2 <= fuel)%nat \/
  (Z.of_nat (length (_slice_buffer w)) < _slice_limit w /\
   (length a + length b + 1 <= fuel)%nat) ->
  write_loop fuel w (a ++ b)
  = write_loop (write_fuel b) (write_loop fuel w a).2 b.
Proof.
  induction fuel as [| fuel IH]; intros w a b Hok Hfuel.
  { exfalso. destruct Hfuel as [? | [_ ?]]; lia. }
  pose proof Hok as [Hl Hb Ho Hh].
  rewrite (write_loop_S fuel w (a ++ b)), (write_loop_S fuel w a). cbv zeta.
  set (remaining := _slice_limit w - Z.of_nat (length (_slice_buffer w))).
  assert (Hr : 0 <= remaining) by (unfold remaining; lia).
  unfold py_slice_to, py_slice_from, py_clamp_index.
  destruct (Z.ltb_spec remaining 0) as [? | _]; [lia |].
  set (n := Z.to_nat remaining).
  rewrite length_app.
  destruct (Z.gtb_spec (Z.of_nat (length a)) remaining) as [Hgt | Hle].
  - (* [a] alone overflows the buffer *)
    destruct (Z.gtb_spec (Z.of_nat (length a + length b)) remaining)
      as [_ | ?]; [| lia].
    rewrite take_app_le, drop_app_le by (unfold n; lia).
    set (w1 := set_slice_buffer w (_slice_buffer w ++ take n a)).
    assert (Hok1 : writer_ok w1).
    { split; [done | | done | done]. unfold w1. simpl.
      rewrite length_app, length_take. unfold n, remaining in *. lia. }
    destruct (finalize_spec w1 Hok1)
      as (w2 & Hfin & Hok2 & Hcfg2 & _ & Hbuf2 & _).
    rewrite Hfin. apply IH; [done |].
    right. rewrite Hbuf2. destruct Hcfg2 as (_&_&_&_&->). simpl.
    split; [lia |]. rewrite length_drop.
    destruct Hfuel as [? | [? ?]]; unfold n, remaining in *; lia.
  - (* [a] fits: the second call goes on from the buffer with [a] in it *)
    cbn [snd].
    set (w1 := set_slice_buffer w (_slice_buffer w ++ a)).
    unfold write_fuel. rewrite (write_loop_S (S (length b)) w1 b). cbv zeta.
    change (_slice_limit w1) with (_slice_limit w).
    change (_slice_buffer w1) with (_slice_buffer w ++ a).
    rewrite length_app.
    replace (_slice_limit w - Z.of_nat (length (_slice_buffer w) + length a))
      with (remaining - Z.of_nat (length a)) by (unfold remaining; lia).
    destruct (Z.gtb_spec (Z.of_nat (length a + length b)) remaining)
      as [Hgt | Hfit].
    + destruct (Z.gtb_spec (Z.of_nat (length b))
                  (remaining - Z.of_nat (length a))) as [_ | ?]; [| lia].
      unfold py_slice_to, py_slice_from, py_clamp_index.
      destruct (Z.ltb_spec (remaining - Z.of_nat (length a)) 0) as [? | _];
        [lia |].
      rewrite take_app_ge, drop_app_ge by (unfold n; lia).
      replace (Z.to_nat (remaining - Z.of_nat (length a)))
        with (n - length a)%nat by (unfold n; lia).
      assert (Hsame :
        set_slice_buffer w1 ((_slice_buffer w ++ a) ++ take (n - length a) b)
        = set_slice_buffer w (_slice_buffer w ++ a ++ take (n - length a) b)).
      { unfold w1, set_slice_buffer. simpl. by rewrite app_assoc. }
      rewrite Hsame.
      set (w2 := set_slice_buffer w _).
      assert (Hok2 : writer_ok w2).
      { split; [done | | done | done]. unfold w2. simpl.
        rewrite !length_app, length_take. unfold n, remaining in *. lia. }
      destruct (finalize_spec w2 Hok2)
        as (w3 & Hfin & Hok3 & Hcfg3 & _ & Hbuf3 & _).
      rewrite Hfin.
      destruct (write_loop_spec (S (length b)) w3 (drop (n - length a) b) Hok3)
        as (w4 & ? & Hrun4 & _).
      { right. rewrite Hbuf3. destruct Hcfg3 as (_&_&_&_&->). simpl.
        split; [lia |]. rewrite length_drop. unfold n, remaining in *. lia. }
      transitivity (write_loop (Nat.min fuel (S (length b))) w3
                      (drop (n - length a) b)).
      * destruct (write_loop_spec (Nat.min fuel (S (length b))) w3
                    (drop (n - length a) b) Hok3) as (w5 & ? & Hrun5 & _).
        { right. rewrite Hbuf3. destruct Hcfg3 as (_&_&_&_&->). simpl.
          split; [lia |]. rewrite length_drop.
          destruct Hfuel as [? | [? ?]]; unfold n, remaining in *; lia. }
        apply write_loop_fuel_mono; [by rewrite Hrun5 | lia].
      * symmetry.
        destruct (write_loop_spec (Nat.min fuel (S (length b))) w3
                    (drop (n - length a) b) Hok3) as (w5 & ? & Hrun5 & _).
        { right. rewrite Hbuf3. destruct Hcfg3 as (_&_&_&_&->). simpl.
          split; [lia |]. rewrite length_drop.
          destruct Hfuel as [? | [? ?]]; unfold n, remaining in *; lia. }
        apply write_loop_fuel_mono; [by rewrite Hrun5 | lia].
    + destruct (Z.gtb_spec (Z.of_nat (length b))
                  (remaining - Z.of_nat (length a))) as [? | _]; [lia |].
      unfold w1, set_slice_buffer. simpl. by rewrite app_assoc.
Qed.

(** Two aligned writes one after the other leave the writer, counter
    and archive included, exactly as one write of both inputs. *)
Theorem write_samples_concat w a b :
  writer_ok w ->
  _unit_size w <> 0 ->
  Z.of_nat (length a) `mod` _unit_size w = 0 ->
  Z.of_nat (length b) `mod` _unit_size w = 0 ->
  (run_writer_ops w [WriteSamples (a ++ b)]).1 = Ok tt /\
  run_writer_ops w [WriteSamples a; WriteSamples b]
  = run_writer_ops w [WriteSamples (a ++ b)].
Proof.
  intros Hok Hu Ha Hb.
  assert (Hab : Z.of_nat (length (a ++ b)) `mod` _unit_size w = 0).
  { rewrite length_app, Nat2Z.inj_add, Z.add_mod, Ha, Hb by done.
    by rewrite Z.add_0_l, Z.mod_0_l. }
  destruct (write_loop_ok (write_fuel a) w a Hok)
    as (wa & Hruna & Hoka & Hcfga & Hca); [unfold write_fuel; lia |].
  pose proof Hcfga as (_&_&_&Hua&_).
  destruct (write_loop_ok (write_fuel b) wa b Hoka)
    as (wb & Hrunb & _ & Hcfgb & Hcb); [unfold write_fuel; lia |].
  pose proof Hcfgb as (_&_&_&Hub&_).
  assert (Happ : write_loop (write_fuel (a ++ b)) w (a ++ b) = (Ok tt, wb)).
  { destruct (write_loop_ok (length a + length b + 2) w a Hok)
      as (wa' & Hruna' & _); [lia |].
    assert (wa' = wa) as ->.
    { rewrite (write_loop_fuel_mono (write_fuel a)) in Hruna';
        [congruence | by rewrite Hruna | unfold write_fuel; lia]. }
    unfold write_fuel at 1. rewrite length_app.
    replace (S (S (length a + length b))) with (length a + length b + 2)%nat
      by lia.
    rewrite write_loop_app by (done || left; lia).
    by rewrite Hruna'. }
  simpl. unfold write_samples.
  destruct (Z.eqb_spec (_unit_size w) 0) as [? | _]; [done |].
  rewrite Ha, Hab, Z.eqb_refl. cbn [negb]. rewrite Hruna, Happ.
  cbn [fst snd]. split; [done |].
  change (_unit_size (set_sample_counter wa ?c)) with (_unit_size wa).
  rewrite Hua.
  destruct (Z.eqb_spec (_unit_size w) 0) as [? | _]; [done |].
  rewrite Hb, Z.eqb_refl. cbn [negb].
  rewrite write_loop_counter, Hrunb. cbn [fst snd].
  unfold set_sample_counter. cbn. rewrite ?Hub, ?Hua.
  do 2 f_equal.
  apply Z.div_exact in Ha, Hb, Hab; [| done ..].
  rewrite length_app, Nat2Z.inj_add in *. rewrite Hcb.
  generalize dependent (Z.of_nat (length a) `div` _unit_size w).
  generalize dependent (Z.of_nat (length b) `div` _unit_size w).
  generalize dependent
    ((Z.of_nat (length a) + Z.of_nat (length b)) `div` _unit_size w).
  intros. nia.
Qed.

Lemma write_samples_concat_witness :
  let w := SimpleSRWriter.__init__ ["D-"; "D+"]%string 48000000 4 in
  (run_writer_ops w [WriteSamples ([1; 2; 1] ++ [2; 1; 1])]).1 = Ok tt /\
  run_writer_ops w [WriteSamples [1; 2; 1]; WriteSamples [2; 1; 1]]
  = run_writer_ops w [WriteSamples ([1; 2; 1] ++ [2; 1; 1])].
Proof.
  intros w. apply (write_samples_concat w [1; 2; 1] [2; 1; 1]).
  - apply init_ok. lia.
  - vm_compute. congruence.
  - reflexivity.
  - reflexivity.
Defined.

Lemma numbered_length w :
  numbered w -> (2 <= length (ZipFile.entries (_sr w)))%nat.
Proof.
  intros [Hh _ _]. apply (f_equal length) in Hh.
  rewrite length_map, length_take in Hh.
  change (length ["version"%string; "metadata"%string]) with 2%nat in Hh. lia.
Qed.

Lemma numbered_init channels sample_rate slice_limit :
  numbered (__init__ channels sample_rate slice_limit).
Proof. by split. Qed.

(** Only the archive and the slice number matter for the numbering. *)
Lemma numbered_same w w' :
  ZipFile.entries (_sr w') = ZipFile.entries (_sr w) ->
  _current_slice w' = _current_slice w ->
  _capture_file w' = _capture_file w ->
  numbered w -> numbered w'.
Proof.
  intros Hsr Hcur Hcap [Hh Hn Hc].
  unfold slice_name, slices in *.
  split; unfold slice_name, slices; rewrite ?Hsr, ?Hcur; [done | | done].
  rewrite Hn. apply map_ext. intros k. by rewrite Hcap.
Qed.

Lemma numbered_finalize w :
  numbered w -> numbered (_finalize_current_slice w).2.
Proof.
  intros Hnum. pose proof (numbered_length w Hnum) as Hlen.
  destruct Hnum as [Hh Hn Hc].
  unfold _finalize_current_slice, ZipFile.write_entry.
  destruct (ZipFile.closed (_sr w)); [by split |].
  cbn [fst snd].
  match goal with |- numbered ?x => set (w' := x) end.
  assert (Hsl : slices w' = slices w ++ [_slice_buffer w]).
  { unfold slices. simpl. by apply slices_snoc. }
  split.
  - simpl. by rewrite take_app_le.
  - rewrite Hsl. simpl. rewrite drop_app_le, map_app, Hn by done.
    rewrite length_app. simpl length.
    rewrite Nat.add_1_r, seq_S, map_app. simpl. f_equal.
    unfold slice_name. cbn [_capture_file w' set_current_slice
      set_slice_buffer set_sr]. rewrite Hc.
    by replace (Z.of_nat (length (slices w)) + 1)
      with (Z.of_nat (1 + length (slices w))) by lia.
  - rewrite Hsl. simpl. rewrite length_app. simpl. lia.
Qed.

Lemma numbered_write_loop fuel : forall w mv,
  numbered w -> numbered (write_loop fuel w mv).2.
Proof.
  induction fuel as [| fuel IH]; intros w mv Hnum; [done |].
  rewrite write_loop_S. cbv zeta.
  destruct (Z.of_nat (length mv) >? _).
  - set (w1 := set_slice_buffer w _).
    assert (Hnum1 : numbered w1) by (by apply (numbered_same w)).
    pose proof (numbered_finalize w1 Hnum1) as Hnum2.
    destruct (_finalize_current_slice w1) as [[[] | e |] w2]; [| done ..].
    by apply IH.
  - by apply (numbered_same w).
Qed.

Lemma numbered_write_samples w samples :
  numbered w -> numbered (write_samples w samples).2.
Proof.
  intros Hnum. unfold write_samples.
  destruct (_unit_size w =? 0); [done |].
  destruct (negb _); [done |].
  pose proof (numbered_write_loop (write_fuel samples) w samples Hnum) as H1.
  destruct (write_loop _ w samples) as [[[] | e |] w1]; [| done ..].
  by apply (numbered_same w1).
Qed.

Lemma numbered_run_op w op : numbered w -> numbered (run_writer_op w op).2.
Proof.
  intros Hnum. destruct op as [samples | pattern count]; simpl.
  - by apply numbered_write_samples.
  - unfold fill_sample.
    destruct (_unit_size w =? 0); [done |].
    destruct (negb _); [done |].
    pose proof (numbered_write_samples w (py_mul pattern count) Hnum) as H1.
    destruct (write_samples w _) as [[[] | e |] w1]; [| done ..].
    by apply (numbered_same w1).
Qed.

Lemma numbered_run_ops ops : forall w,
  numbered w -> numbered (run_writer_ops w ops).2.
Proof.
  induction ops as [| op ops IH]; intros w Hnum; [done |].
  simpl. pose proof (numbered_run_op w op Hnum) as H1.
  destruct (run_writer_op w op) as [[[] | e |] w1]; [| done ..].
  by apply IH.
Qed.

(** Either writing method keeps a writer between two calls in that
    state, and ends: it returns or raises. *)
Lemma run_op_ok w op :
  writer_ok w ->
  (run_writer_op w op).1 <> Diverge /\ writer_ok (run_writer_op w op).2.
Proof.
  intros Hok.
  assert (Hws : forall s, (write_samples w s).1 <> Diverge /\
                          writer_ok (write_samples w s).2 /\
                          _unit_size (write_samples w s).2 = _unit_size w).
  { intros s. unfold write_samples.
    destruct (Z.eqb_spec (_unit_size w) 0) as [? | Hu]; [done |].
    destruct (Z.eqb_spec (Z.of_nat (length s) `mod` _unit_size w) 0)
      as [Hal | ?]; [| done].
    destruct (write_loop_ok (write_fuel s) w s Hok)
      as (w' & -> & Hok' & (_&_&_&Hunit&_) & _); [unfold write_fuel; lia |].
    cbn. split; [done |]. split; [by destruct Hok' | done]. }
  destruct op as [s | p c]; simpl; [by destruct (Hws s) as (? & ? & _) |].
  unfold fill_sample.
  destruct (_unit_size w =? 0); [done |].
  destruct (negb _); [done |].
  destruct (Hws (py_mul p c)) as (Hend & Hok' & _).
  destruct (write_samples w _) as [[[] | e |] w1]; [| done ..].
  split; [done |]. by destruct Hok'.
Qed.

Lemma run_ops_ok ops : forall w,
  writer_ok w ->
  (run_writer_ops w ops).1 <> Diverge /\ writer_ok (run_writer_ops w ops).2.
Proof.
  induction ops as [| op ops IH]; intros w Hok; [done |].
  simpl. destruct (run_op_ok w op Hok) as [Hend Hok'].
  destruct (run_writer_op w op) as [[[] | e |] w1]; [by apply IH | done ..].
Qed.

(** Whatever calls of the two writing methods a new writer with a
    positive slice limit receives, they end (the run stops at the first
    call that raises), the archive holds [version], [metadata] and then
    the slices under the names [logic-1-1], [logic-1-2], ... in order,
    and [_current_slice] is the next number; [close] then returns and
    the same holds of the closed archive. *)
Theorem slice_members_numbered channels sample_rate slice_limit ops :
  0 < slice_limit ->
  let r := run_writer_ops (__init__ channels sample_rate slice_limit) ops in
  let w := r.2 in
  let names (w : t) :=
    ["version"%string; "metadata"%string]
    ++ map (fun k => ("logic-1-" ++ pretty (Z.of_nat k))%string)
           (seq 1 (length (slices w))) in
  r.1 <> Diverge /\
  (map fst (ZipFile.entries (_sr w)) = names w /\
   _current_slice w = Z.of_nat (length (slices w)) + 1) /\
  (close w).1 = Ok tt /\
  (map fst (ZipFile.entries (_sr (close w).2)) = names (close w).2 /\
   _current_slice (close w).2 = Z.of_nat (length (slices (close w).2)) + 1).
Proof.
  intros Hl r w names.
  destruct (run_ops_ok ops (__init__ channels sample_rate slice_limit))
    as [Hend Hokw]; [by apply init_ok |].
  fold r in Hend. fold r w in Hokw.
  assert (Hcap : forall w0, numbered w0 -> _capture_file w0 = "logic-1"%string ->
            map fst (ZipFile.entries (_sr w0)) = names w0 /\
            _current_slice w0 = Z.of_nat (length (slices w0)) + 1).
  { intros w0 [Hh Hn Hc] Hcf. split; [| done].
    rewrite <- (take_drop 2 (ZipFile.entries (_sr w0))), map_app, Hh, Hn.
    unfold names, slice_name. by rewrite Hcf. }
  assert (Hcf : forall fuel w0 mv, _capture_file (write_loop fuel w0 mv).2
                                   = _capture_file w0).
  { induction fuel as [| fuel IH]; intros w0 mv; [done |].
    rewrite write_loop_S. cbv zeta.
    destruct (Z.of_nat (length mv) >? _); [| done].
    unfold _finalize_current_slice, ZipFile.write_entry. simpl.
    destruct (ZipFile.closed (_sr w0)); [done |]. by rewrite IH. }
  assert (Hcfs : forall w0 s, _capture_file (write_samples w0 s).2
                              = _capture_file w0).
  { intros w0 s. unfold write_samples.
    destruct (_unit_size w0 =? 0); [done |].
    destruct (negb _); [done |].
    specialize (Hcf (write_fuel s) w0 s).
    by destruct (write_loop _ w0 s) as [[[] | e |] w1]. }
  assert (Hcfo : forall ops0 w0, _capture_file (run_writer_ops w0 ops0).2
                                 = _capture_file w0).
  { induction ops0 as [| op ops0 IH]; intros w0; [done |]. simpl.
    assert (Hop : _capture_file (run_writer_op w0 op).2 = _capture_file w0).
    { destruct op as [s | p c]; simpl; [apply Hcfs |].
      unfold fill_sample.
      destruct (_unit_size w0 =? 0); [done |].
      destruct (negb _); [done |].
      specialize (Hcfs w0 (py_mul p c)).
      by destruct (write_samples w0 _) as [[[] | e |] w1]. }
    destruct (run_writer_op w0 op) as [[[] | e |] w1]; [| done ..].
    by rewrite IH. }
  assert (Hnum : numbered w)
    by (apply numbered_run_ops, numbered_init).
  assert (Hw : _capture_file w = "logic-1"%string)
    by (unfold w, r; by rewrite Hcfo).
  split; [done |]. split; [by apply Hcap |].
  split; [by destruct (close_spec w Hokw) as (? & -> & _) |].
  apply Hcap.
  - unfold close. pose proof (numbered_finalize w Hnum) as H1.
    destruct (_finalize_current_slice w) as [[[] | e |] w1]; [| done ..].
    by apply (numbered_same w1).
  - unfold close, _finalize_current_slice, ZipFile.write_entry.
    by destruct (ZipFile.closed (_sr w)).
Qed.

Lemma slice_members_numbered_witness :
  let r := run_writer_ops (__init__ ["D-"; "D+"]%string 48000000 4)
             [WriteSamples [1; 2; 1]; FillSample [2; 1] 3] in
  let w := r.2 in
  let names (w : t) :=
    ["version"%string; "metadata"%string]
    ++ map (fun k => ("logic-1-" ++ pretty (Z.of_nat k))%string)
           (seq 1 (length (slices w))) in
  r.1 <> Diverge /\
  (map fst (ZipFile.entries (_sr w)) = names w /\
   _current_slice w = Z.of_nat (length (slices w)) + 1) /\
  (close w).1 = Ok tt /\
  (map fst (ZipFile.entries (_sr (close w).2)) = names (close w).2 /\
   _current_slice (close w).2 = Z.of_nat (length (slices (close w).2)) + 1).
Proof.
  apply (slice_members_numbered ["D-"; "D+"]%string 48000000 4
           [WriteSamples [1; 2; 1]; FillSample [2; 1] 3]).
  lia.
Defined.

(** [fill_sample] in general, on a writer between two calls and with
    [len(pattern) * count] a multiple of the unit size: it returns, the
    bytes of [pattern * count] are written once, which are
    [len(pattern) * max(0, count)] bytes, and the counter moves by the
    samples of these bytes plus [len(pattern) * count // unit_size]; that
    is twice the samples written when [count] is not negative, and a step
    back with nothing written when it is. *)
Theorem fill_sample_counts w pattern count :
  writer_ok w ->
  _unit_size w <> 0 ->
  (Z.of_nat (length pattern) * count) `mod` _unit_size w = 0 ->
  exists w',
    fill_sample w pattern count = (Ok tt, w') /\
    written w' = written w ++ py_mul pattern count /\
    Z.of_nat (length (py_mul pattern count))
    = Z.of_nat (length pattern) * Z.max 0 count /\
    sample_count w'
    = sample_count w
      + (Z.of_nat (length pattern) * Z.max 0 count) `div` _unit_size w
      + (Z.of_nat (length pattern) * count) `div` _unit_size w.
Proof.
  intros Hok Hu Hal.
  assert (Hlen : Z.of_nat (length (py_mul pattern count))
                 = Z.of_nat (length pattern) * Z.max 0 count).
  { destruct (Z.le_gt_cases 0 count) as [Hc | Hc].
    - rewrite length_py_mul by done. by rewrite Z.max_r.
    - unfold py_mul. rewrite Z2Nat.nonpos by lia. simpl. lia. }
  assert (Hal' : Z.of_nat (length (py_mul pattern count))
                   `mod` _unit_size w = 0).
  { rewrite Hlen. destruct (Z.le_gt_cases 0 count) as [Hc | Hc].
    - by rewrite Z.max_r.
    - rewrite Z.max_l by lia. by rewrite Z.mul_0_r, Z.mod_0_l. }
  unfold fill_sample.
  destruct (Z.eqb_spec (_unit_size w) 0) as [? | _]; [done |].
  rewrite Hal, Z.eqb_refl. cbn [negb].
  destruct (write_samples_spec w (py_mul pattern count) Hok Hu Hal')
    as (w' & full & Hrun & _ & (_&_&_&Hunit&_) & Hsl & _ & Hcat & _ & _ & Hcnt).
  rewrite Hrun. eexists. split; [reflexivity |].
  assert (Hwr : written w' = written w ++ py_mul pattern count)
    by (by eapply written_after).
  split; [done |]. split; [done |].
  unfold sample_count. cbn [_sample_counter set_sample_counter].
  by rewrite Hcnt, Hunit, Hlen.
Qed.

Lemma fill_sample_counts_witness :
  let w := __init__ ["D-"; "D+"]%string 48000000 4 in
  exists w',
    fill_sample w [1; 2] (-3) = (Ok tt, w') /\
    written w' = written w ++ py_mul [1; 2] (-3) /\
    Z.of_nat (length (py_mul [1; 2] (-3)))
    = Z.of_nat (length [1; 2]) * Z.max 0 (-3) /\
    sample_count w'
    = sample_count w
      + (Z.of_nat (length [1; 2]) * Z.max 0 (-3)) `div` _unit_size w
      + (Z.of_nat (length [1; 2]) * (-3)) `div` _unit_size w.
Proof.
  intros w. apply (fill_sample_counts w [1; 2] (-3)).
  - apply init_ok. lia.
  - vm_compute. congruence.
  - reflexivity.
Defined.

(** The loop raises nothing but what the archive raises. *)
Lemma write_loop_raises fuel : forall w mv e w',
  write_loop fuel w mv = (Raise e, w') ->
  ZipFile.closed (_sr w) = true /\
  e = ValueError "Attempt to use ZIP archive that was already closed".
Proof.
  induction fuel as [| fuel IH]; intros w mv e w' Hrun; [done |].
  rewrite write_loop_S in Hrun. cbv zeta in Hrun.
  destruct (Z.of_nat (length mv) >? _); [| done].
  unfold _finalize_current_slice, ZipFile.write_entry in Hrun.
  simpl in Hrun.
  destruct (ZipFile.closed (_sr w)) eqn:Ho; [by injection Hrun as <- _ |].
  by apply IH in Hrun as [Hclosed _].
Qed.

(** A writer made for no channel at all has unit size 0, and each of its
    writing calls raises ZeroDivisionError and changes nothing; a writer
    made for at least one channel never raises that error on its first
    call. *)
Theorem zero_division_iff_no_channels channels sample_rate slice_limit op :
  let w := __init__ channels sample_rate slice_limit in
  (channels = [] <-> (run_writer_op w op).1 = Raise ZeroDivisionError) /\
  (channels = [] <-> run_writer_op w op = (Raise ZeroDivisionError, w)).
Proof.
  intros w.
  assert (Hempty : channels = [] ->
                   run_writer_op w op = (Raise ZeroDivisionError, w)).
  { intros ->. by destruct op. }
  assert (Honly : (run_writer_op w op).1 = Raise ZeroDivisionError ->
                  channels = []); [| split; split; try done].
  2: { by intros ->%Hempty. }
  2: { intros Hrun. apply Honly. by rewrite Hrun. }
  intros Hzero. destruct channels as [| ch channels]; [done |]. exfalso.
  pose proof (unit_size_of_pos (ch :: channels) ltac:(done)) as Hu.
  assert (Hws : forall (w0 : t) s, _unit_size w0 <> 0 ->
                  ZipFile.closed (_sr w0) = false ->
                  (write_samples w0 s).1 <> Raise ZeroDivisionError).
  { intros w0 s Hu0 Ho. unfold write_samples.
    destruct (Z.eqb_spec (_unit_size w0) 0) as [? | _]; [done |].
    destruct (negb _); [done |].
    destruct (write_loop (write_fuel s) w0 s) as [[[] | e |] w1] eqn:Hrun;
      [done | | done].
    apply write_loop_raises in Hrun as [_ ->]. done. }
  destruct op as [s | p c]; simpl in Hzero.
  - by apply (Hws w s); [simpl; lia | |].
  - unfold fill_sample in Hzero.
    destruct (Z.eqb_spec (_unit_size w) 0) as [Hu0 | _];
      [simpl in Hu0; lia |].
    destruct (negb _); [done |].
    specialize (Hws w (py_mul p c) ltac:(simpl; lia) eq_refl).
    by destruct (write_samples w _) as [[[] | e |] w1].
Qed.

(** Once closed, a writer cannot be closed again: the second [close]
    raises the archive's ValueError and changes nothing.  A later write
    that fits into the empty buffer still returns and is counted, but
    stays in the buffer and adds no member to the archive; one that does
    not fit raises the same error, with the part that fits left in the
    buffer. *)
Theorem use_after_close w samples :
  writer_ok w ->
  _unit_size w <> 0 ->
  Z.of_nat (length samples) `mod` _unit_size w = 0 ->
  let closed_error :=
    ValueError "Attempt to use ZIP archive that was already closed" in
  exists wc,
    close w = (Ok tt, wc) /\
    close wc = (Raise closed_error, wc) /\
    write_samples wc samples
    = if Z.of_nat (length samples) >? _slice_limit w
      then (Raise closed_error,
            set_slice_buffer wc (py_slice_to samples (_slice_limit w)))
      else (Ok tt,
            set_sample_counter (set_slice_buffer wc samples)
              (sample_count wc
               + Z.of_nat (length samples) `div` _unit_size w)).
Proof.
  intros Hok Hu Hal closed_error.
  destruct (finalize_spec w Hok)
    as (w1 & Hfin & Hok1 & (_&_&_&Hunit&Hlim) & _ & Hbuf & _).
  set (wc := set_sr w1 (ZipFile.close (_sr w1))).
  exists wc. split; [unfold close; by rewrite Hfin |].
  split; [done |].
  assert (Hbufc : _slice_buffer wc = []) by done.
  assert (Hunitc : _unit_size wc = _unit_size w) by (by rewrite <- Hunit).
  assert (Hlimc : _slice_limit wc = _slice_limit w) by (by rewrite <- Hlim).
  assert (Hclosed : ZipFile.closed (_sr wc) = true) by done.
  clearbody wc.
  unfold write_samples. rewrite Hunitc.
  destruct (Z.eqb_spec (_unit_size w) 0) as [? | _]; [done |].
  rewrite Hal, Z.eqb_refl. cbn [negb].
  unfold write_fuel. rewrite write_loop_S. cbv zeta.
  rewrite Hbufc, Hlimc. simpl length. rewrite Z.sub_0_r.
  destruct (Z.of_nat (length samples) >? _slice_limit w);
    [| simpl; by rewrite Hunitc].
  unfold _finalize_current_slice, ZipFile.write_entry. simpl.
  by rewrite Hclosed.
Qed.

Lemma use_after_close_witness :
  let w := __init__ ["D-"; "D+"]%string 48000000 4 in
  let closed_error :=
    ValueError "Attempt to use ZIP archive that was already closed" in
  exists wc,
    close w = (Ok tt, wc) /\
    close wc = (Raise closed_error, wc) /\
    write_samples wc [1; 2; 1]
    = if Z.of_nat (length [1; 2; 1]) >? _slice_limit w
      then (Raise closed_error,
            set_slice_buffer wc (py_slice_to [1; 2; 1] (_slice_limit w)))
      else (Ok tt,
            set_sample_counter (set_slice_buffer wc [1; 2; 1])
              (sample_count wc
               + Z.of_nat (length [1; 2; 1]) `div` _unit_size w)).
Proof.
  intros w. apply (use_after_close w [1; 2; 1]).
  - apply init_ok. lia.
  - vm_compute. congruence.
  - reflexivity.
Defined.

End WriterMore.

(** * More on the signal encoder *)

Section EncoderMore.

Import USBSignaling.

(** The profiles of the class: a profile with a table is one the
    script has a clock rate for; the constructor then gives an encoder
    at line state J with that table; the table is one-to-one with values
    in [range(4)], so that every sample fits the two channels and tells
    its symbol; SE0 is 0, SE1 is 3, and J and K are complementary. *)
Theorem encoder_profiles sr_arg n signaling table :
  CHIRP_TO_SAMPLE signaling = Some table ->
  __init__ sr_arg n (Some signaling) = Ok (mk J sr_arg table n) /\
  is_Some (USB_SPEED signaling) /\
  (forall c c', table c = table c' -> c = c') /\
  (forall c, 0 <= table c < 4) /\
  table SE0 = 0 /\ table SE1 = 3 /\ table J + table K = 3.
Proof.
  intros Htable.
  split; [unfold __init__; simpl; by rewrite Htable |].
  revert Htable. unfold CHIRP_TO_SAMPLE, USB_SPEED.
  destruct (String.eqb signaling "ls");
    [| destruct (String.eqb signaling "fs")];
    intros [= <-]; (split; [by eexists |]);
    (split; [intros [] []; simpl; congruence |]);
    (split; [intros []; simpl; lia | done]).
Qed.

Lemma encoder_profiles_witness :
  __init__ (VStr "ls") 4 (Some "ls"%string)
  = Ok (mk J (VStr "ls") c2s_ls 4) /\
  is_Some (USB_SPEED "ls") /\
  (forall c c', c2s_ls c = c2s_ls c' -> c = c') /\
  (forall c, 0 <= c2s_ls c < 4) /\
  c2s_ls SE0 = 0 /\ c2s_ls SE1 = 3 /\ c2s_ls J + c2s_ls K = 3.
Proof.
  apply (encoder_profiles (VStr "ls") 4 "ls" c2s_ls). reflexivity.
Defined.

(** Interpolation: the samples of a string of symbols are as many as the
    symbols times [_interpolate], and sample number [k] is the sample of
    symbol number [k // _interpolate]. *)
Theorem double_interpolates self cs k :
  0 < _interpolate self ->
  Z.of_nat (length (_double self cs))
  = Z.of_nat (length cs) * _interpolate self /\
  _double self cs !! k
  = _c2s self <$> cs !! (k `div` Z.to_nat (_interpolate self))%nat.
Proof.
  intros Hn. split; [apply length_double; lia |].
  unfold _double. set (n := Z.to_nat (_interpolate self)).
  assert (Hpos : (0 < n)%nat) by (unfold n; lia). clearbody n.
  revert k. induction cs as [| c cs IH]; intros k; [done |].
  cbn [flat_map].
  destruct (Nat.lt_ge_cases k n) as [Hlt | Hge].
  - rewrite lookup_app_l by (by rewrite length_replicate).
    rewrite Nat.div_small by done. simpl.
    by apply lookup_replicate_2.
  - rewrite lookup_app_r by (by rewrite length_replicate).
    rewrite length_replicate, IH.
    replace (k `div` n)%nat with (S ((k - n) `div` n)); [done |].
    replace k with ((k - n) + 1 * n)%nat at 2 by lia.
    rewrite Nat.div_add by lia. lia.
Qed.

Lemma double_interpolates_witness :
  let self := mk J (VStr "fs") c2s_fs 4 in
  Z.of_nat (length (_double self [K; J; SE0]))
  = Z.of_nat (length [K; J; SE0]) * _interpolate self /\
  _double self [K; J; SE0] !! 9%nat
  = _c2s self <$> [K; J; SE0] !! (9 `div` Z.to_nat (_interpolate self))%nat.
Proof.
  intros self. apply (double_interpolates self [K; J; SE0] 9). simpl. lia.
Defined.

(** [emit_eop], the encoder being able to write: the samples of SE0, SE0,
    J are written, which with a table of the class are [_interpolate]
    times 0, again as many, and as many times the sample of J; the line
    state is J afterwards and the counter has advanced by the bytes
    written. *)
Theorem emit_eop_pattern l w st signaling :
  ready l w st ->
  CHIRP_TO_SAMPLE signaling = Some (_c2s st.1) ->
  exists w',
    emit_eop st
    = (Ok tt, (set_state st.1 J, set_heap st.2 (<[l := w']> (heap st.2)))) /\
    SimpleSRWriter.written w'
    = SimpleSRWriter.written w
      ++ replicate (Z.to_nat (_interpolate st.1)) 0
      ++ replicate (Z.to_nat (_interpolate st.1)) 0
      ++ replicate (Z.to_nat (_interpolate st.1)) (_c2s st.1 J) /\
    SimpleSRWriter.sample_count w'
    = SimpleSRWriter.sample_count w
      + 3 * Z.of_nat (Z.to_nat (_interpolate st.1)).
Proof.
  intros Hr Htable.
  destruct (emit_eop_spec l w st Hr) as (w' & Hrun & [_ _ Hwr Hcnt]).
  exists w'. split; [done |].
  assert (Hse0 : _c2s st.1 SE0 = 0).
  { unfold CHIRP_TO_SAMPLE in Htable.
    destruct (String.eqb signaling "ls");
      [| destruct (String.eqb signaling "fs")]; try done;
      by injection Htable as <-. }
  unfold _double in *. cbn [flat_map] in *. rewrite Hse0, app_nil_r in *.
  split; [done |].
  unfold SimpleSRWriter.sample_count. rewrite Hcnt.
  rewrite !length_app, !length_replicate. lia.
Qed.

Lemma emit_eop_pattern_witness :
  let w := SimpleSRWriter.__init__ ["D-"; "D+"]%string 6000000 16777216 in
  let st :=
    (mk K (VStr "ls") c2s_ls 4,
     {| sr := Some (VRef writer_loc); heap := <[writer_loc := w]> ∅ |}) in
  exists w',
    emit_eop st
    = (Ok tt, (set_state st.1 J,
               set_heap st.2 (<[writer_loc := w']> (heap st.2)))) /\
    SimpleSRWriter.written w'
    = SimpleSRWriter.written w
      ++ replicate (Z.to_nat (_interpolate st.1)) 0
      ++ replicate (Z.to_nat (_interpolate st.1)) 0
      ++ replicate (Z.to_nat (_interpolate st.1)) (_c2s st.1 J) /\
    SimpleSRWriter.sample_count w'
    = SimpleSRWriter.sample_count w
      + 3 * Z.of_nat (Z.to_nat (_interpolate st.1)).
Proof.
  intros w st. apply (emit_eop_pattern writer_loc w st "ls").
  - split; [reflexivity | vm_compute; reflexivity | apply init_ok; lia
           | reflexivity].
  - reflexivity.
Defined.

(** Writing no byte at all leaves a writer between two calls as it is. *)
Lemma write_samples_nil w :
  writer_ok w -> SimpleSRWriter._unit_size w <> 0 ->
  SimpleSRWriter.write_samples w [] = (Ok tt, w).
Proof.
  intros [Hl Hb _ _] Hu. unfold SimpleSRWriter.write_samples.
  destruct (Z.eqb_spec (SimpleSRWriter._unit_size w) 0) as [? | _]; [done |].
  rewrite Z.mod_0_l by done. cbn [negb Z.eqb].
  unfold SimpleSRWriter.write_fuel. rewrite write_loop_S. cbv zeta.
  change (Z.of_nat (length (@nil Z))) with 0.
  destruct (Z.gtb_spec 0 (SimpleSRWriter._slice_limit w
                          - Z.of_nat (length (SimpleSRWriter._slice_buffer w))))
    as [? | _]; [lia |].
  destruct w. unfold SimpleSRWriter.set_sample_counter,
    SimpleSRWriter.set_slice_buffer. simpl in *.
  rewrite app_nil_r, Z.div_0_l, Z.add_0_r by (simpl in Hu; done). done.
Qed.

(** [emit_chirps] on the empty string, the encoder being able to write:
    with [update_state] it raises IndexError on [seq[-1]], without it
    returns; in both cases nothing has changed, neither the writer nor
    the line state. *)
Theorem emit_chirps_empty l w st :
  ready l w st ->
  emit_chirps (Str []) true st
  = (Raise (IndexError "string index out of range"), st) /\
  emit_chirps (Str []) false st = (Ok tt, st).
Proof.
  intros [Hsr Hheap Hok Hu]. destruct st as [self g]. simpl in *.
  unfold emit_chirps, bind, resolve_sr, call_write_samples, get_self, ret,
    raise.
  simpl. rewrite Hsr, Hheap. simpl. rewrite Hheap.
  rewrite write_samples_nil by (done || lia). simpl.
  rewrite insert_id by done. by destruct g.
Qed.

Lemma emit_chirps_empty_witness :
  let w := SimpleSRWriter.__init__ ["D-"; "D+"]%string 6000000 16777216 in
  let st :=
    (mk K (VStr "ls") c2s_ls 4,
     {| sr := Some (VRef writer_loc); heap := <[writer_loc := w]> ∅ |}) in
  emit_chirps (Str []) true st
  = (Raise (IndexError "string index out of range"), st) /\
  emit_chirps (Str []) false st = (Ok tt, st).
Proof.
  intros w st. apply (emit_chirps_empty writer_loc w st).
  split; [reflexivity | vm_compute; reflexivity | apply init_ok; lia
         | reflexivity].
Defined.

(** After [emit_chirps] has left the line state at SE0 or SE1,
    [emit_bytes] cannot go on: its generator raises ValueError on
    ['jk'.index], and neither the writer nor the line state changes. *)
Theorem emit_bytes_needs_jk l w st cs c payload :
  ready l w st ->
  last cs = Some c ->
  c = SE0 \/ c = SE1 ->
  exists st1,
    emit_chirps (Str cs) true st = (Ok tt, st1) /\
    _state st1.1 = c /\
    emit_bytes payload st1 = (Raise (ValueError "substring not found"), st1).
Proof.
  intros Hr Hlast Hc.
  destruct (emit_chirps_str l w st cs true c Hr Hlast) as (w' & Hrun & Hw).
  eexists. split; [exact Hrun |]. split; [done |].
  pose proof (ready_after l w w' _ st c Hr Hw) as [Hsr Hheap _ _].
  unfold emit_bytes, emit_chirps, _to_chirp, bind, resolve_sr, get_self,
    raise.
  cbn [fst snd] in *. rewrite Hsr, Hheap. cbn [fst snd _state set_state].
  by destruct Hc as [-> | ->].
Qed.

Lemma emit_bytes_needs_jk_witness :
  let w := SimpleSRWriter.__init__ ["D-"; "D+"]%string 6000000 16777216 in
  let st :=
    (mk K (VStr "ls") c2s_ls 4,
     {| sr := Some (VRef writer_loc); heap := <[writer_loc := w]> ∅ |}) in
  exists st1,
    emit_chirps (Str [SE0; SE0]) true st = (Ok tt, st1) /\
    _state st1.1 = SE0 /\
    emit_bytes [165] st1 = (Raise (ValueError "substring not found"), st1).
Proof.
  intros w st.
  apply (emit_bytes_needs_jk writer_loc w st [SE0; SE0] SE0 [165]).
  - split; [reflexivity | vm_compute; reflexivity | apply init_ok; lia
           | reflexivity].
  - reflexivity.
  - left. reflexivity.
Defined.

Lemma jk_cases tmp : _jk tmp = J \/ _jk tmp = K.
Proof. unfold _jk. destruct (tmp =? 0); auto. Qed.

(** What the stuffing loop yields, with or without the counter reset:
    only J and K, between one and two symbols a bit, and the level it
    ends at is the last symbol. *)
Lemma stuff_bits_symbols reset bits : forall tmp stuff,
  let r := stuff_bits reset bits tmp stuff in
  Forall (fun c => c = J \/ c = K) r.1 /\
  (length bits <= length r.1 <= 2 * length bits)%nat /\
  (bits <> [] -> last r.1 = Some (_jk r.2.1)) /\
  (bits = [] -> r.1 = [] /\ r.2.1 = tmp).
Proof.
  induction bits as [| b bits IH]; intros tmp stuff; [by repeat split |].
  cbn [stuff_bits].
  assert (Hstep : exists ys t s,
            stuff_step reset b tmp stuff = (ys, (t, s)) /\
            Forall (fun c => c = J \/ c = K) ys /\
            (1 <= length ys <= 2)%nat /\ last ys = Some (_jk t)).
  { unfold stuff_step.
    destruct b; [destruct (stuff + 1 >=? 6) | change (0 >=? 6) with false];
      cbv iota; eexists _, _, _; (split; [reflexivity |]);
      (split; [repeat (apply Forall_cons_2; [apply jk_cases |]);
               apply Forall_nil_2 |]);
      simpl; split; (lia || done). }
  destruct Hstep as (ys & t & s & -> & Hjk & Hlen & Hlast).
  specialize (IH t s). cbv zeta in IH.
  destruct (stuff_bits reset bits t s) as [rest [t' s']].
  destruct IH as (Hjk' & Hlen' & Hlast' & Hnil').
  cbn [fst snd] in *. split; [by apply Forall_app |].
  split; [rewrite length_app; simpl; lia |].
  split; [| done]. intros _.
  destruct bits as [| b' bits].
  - destruct Hnil' as [-> ->]; [done |]. by rewrite app_nil_r.
  - rewrite last_app, Hlast' by done. done.
Qed.

(** [emit_bytes] from line state J or K, the encoder being able to
    write: it returns; the symbols whose samples it writes are J and K
    only, at least 8 and at most 16 for each payload byte; the line
    state it leaves is the last of these symbols, and the state it found
    when there is none. *)
Theorem emit_bytes_symbols l w st payload :
  ready l w st ->
  _state st.1 = J \/ _state st.1 = K ->
  exists w' cs c,
    emit_bytes payload st
    = (Ok tt, (set_state st.1 c, set_heap st.2 (<[l := w']> (heap st.2)))) /\
    SimpleSRWriter.written w'
    = SimpleSRWriter.written w ++ _double st.1 cs /\
    Forall (fun c => c = J \/ c = K) cs /\
    (8 * length payload <= length cs <= 16 * length payload)%nat /\
    last (_state st.1 :: cs) = Some c.
Proof.
  intros Hr Hstate.
  assert (exists tmp, _jk_index (_state st.1) = Some tmp
                      /\ _jk tmp = _state st.1) as (tmp & Htmp & Hjk)
    by (destruct Hstate as [-> | ->]; eauto).
  destruct (emit_bytes_spec l w st payload tmp Hr Htmp)
    as (w' & Hrun & [_ _ Hwr _]).
  exists w', (bytes_loop payload tmp 0).1, (_jk (bytes_loop payload tmp 0).2.1).
  split; [done |]. split; [done |].
  rewrite code_bytes_loop_view.
  destruct (stuff_bits_symbols false (Spec.bits_of payload) tmp 0)
    as (Hsym & Hlen & Hlast & Hnil).
  assert (Hbits : length (Spec.bits_of payload) = (8 * length payload)%nat).
  { clear. induction payload as [| b p IH]; [done |].
    change (Spec.bits_of (b :: p))
      with (Spec.bits_of_byte b ++ Spec.bits_of p).
    rewrite length_app, IH. simpl. lia. }
  split; [done |]. split; [lia |].
  destruct payload as [| b p].
  - destruct Hnil as [-> ->]; [done |]. simpl. by rewrite Hjk.
  - rewrite last_cons, Hlast; done.
Qed.

Lemma emit_bytes_symbols_witness :
  let w := SimpleSRWriter.__init__ ["D-"; "D+"]%string 48000000 16777216 in
  let st :=
    (mk K (VStr "fs") c2s_fs 4,
     {| sr := Some (VRef writer_loc); heap := <[writer_loc := w]> ∅ |}) in
  exists w' cs c,
    emit_bytes [255; 0] st
    = (Ok tt, (set_state st.1 c,
               set_heap st.2 (<[writer_loc := w']> (heap st.2)))) /\
    SimpleSRWriter.written w'
    = SimpleSRWriter.written w ++ _double st.1 cs /\
    Forall (fun c => c = J \/ c = K) cs /\
    (8 * length [255; 0] <= length cs <= 16 * length [255; 0])%nat /\
    last (_state st.1 :: cs) = Some c.
Proof.
  intros w st. apply (emit_bytes_symbols writer_loc w st [255; 0]).
  - split; [reflexivity | vm_compute; reflexivity | apply init_ok; lia
           | reflexivity].
  - right. reflexivity.
Defined.

(** The stuffing loop of the code never lets a level last for more than
    seven symbols: [run] symbols at the level [tmp] have just been sent,
    and [stuff] is the counter. *)
Lemma stuff_bits_runs bits : forall tmp stuff run,
  tmp = 0 \/ tmp = 1 ->
  (0 <= stuff <= 5 /\ (1 <= run)%nat /\ Z.of_nat run <= stuff + 1) \/
  (6 <= stuff /\ run = 1%nat) ->
  run_bounded 7 (_jk tmp) run (stuff_bits false bits tmp stuff).1 = true.
Proof.
  induction bits as [| b bits IH]; intros tmp stuff run Htmp Hinv; [done |].
  destruct (toggle_level tmp Htmp) as [Htog Hne].
  cbn [stuff_bits]. unfold stuff_step. destruct b.
  - destruct (Z.geb_spec (stuff + 1) 6) as [Hsix | Hless].
    + specialize (IH (Z.land (Z.lnot tmp) 1) (stuff + 1) 1%nat Htog
                    ltac:(right; lia)).
      destruct (stuff_bits false bits _ _) as [rest fin].
      cbn [fst app run_bounded] in *.
      rewrite bool_decide_eq_true_2 by done.
      rewrite bool_decide_eq_false_2 by done.
      rewrite IH, andb_true_r. apply Nat.leb_le. lia.
    + specialize (IH tmp (stuff + 1) (S run) Htmp ltac:(left; lia)).
      destruct (stuff_bits false bits _ _) as [rest fin].
      cbn [fst app run_bounded] in *.
      rewrite bool_decide_eq_true_2 by done.
      rewrite IH, andb_true_r. apply Nat.leb_le. lia.
  - change (0 >=? 6) with false. cbv iota.
    specialize (IH (Z.land (Z.lnot tmp) 1) 0 1%nat Htog ltac:(left; lia)).
    destruct (stuff_bits false bits _ _) as [rest fin].
    cbn [fst app run_bounded] in *.
    by rewrite bool_decide_eq_false_2 by done.
Qed.

(** [emit_bytes] from line state J or K, the encoder being able to
    write: counted from the line state it starts from, the symbols it
    sends never stay at one level for more than seven symbols in a
    row. *)
Theorem emit_bytes_runs l w st payload :
  ready l w st ->
  _state st.1 = J \/ _state st.1 = K ->
  exists w' cs c,
    emit_bytes payload st
    = (Ok tt, (set_state st.1 c, set_heap st.2 (<[l := w']> (heap st.2)))) /\
    SimpleSRWriter.written w'
    = SimpleSRWriter.written w ++ _double st.1 cs /\
    run_bounded 7 (_state st.1) 1 cs = true.
Proof.
  intros Hr Hstate.
  assert (exists tmp, _jk_index (_state st.1) = Some tmp) as [tmp Htmp]
    by (destruct Hstate as [-> | ->]; eauto).
  destruct (jk_index_level _ tmp Htmp) as [Hlevel Hjk].
  destruct (emit_bytes_spec l w st payload tmp Hr Htmp)
    as (w' & Hrun & [_ _ Hwr _]).
  exists w', (bytes_loop payload tmp 0).1, (_jk (bytes_loop payload tmp 0).2.1).
  split; [done |]. split; [done |].
  rewrite code_bytes_loop_view, <- Hjk.
  apply stuff_bits_runs; [done |]. left. lia.
Qed.

Lemma emit_bytes_runs_witness :
  let w := SimpleSRWriter.__init__ ["D-"; "D+"]%string 48000000 16777216 in
  let st :=
    (mk K (VStr "fs") c2s_fs 4,
     {| sr := Some (VRef writer_loc); heap := <[writer_loc := w]> ∅ |}) in
  exists w' cs c,
    emit_bytes [255; 255] st
    = (Ok tt, (set_state st.1 c,
               set_heap st.2 (<[writer_loc := w']> (heap st.2)))) /\
    SimpleSRWriter.written w'
    = SimpleSRWriter.written w ++ _double st.1 cs /\
    run_bounded 7 (_state st.1) 1 cs = true.
Proof.
  intros w st. apply (emit_bytes_runs writer_loc w st [255; 255]).
  - split; [reflexivity | vm_compute; reflexivity | apply init_ok; lia
           | reflexivity].
  - right. reflexivity.
Defined.

End EncoderMore.

(** * More on the timing loop and the script *)

Section MainMore.

Import USBSignaling.

Lemma header_write_loop fuel : forall w mv,
  (2 <= length (ZipFile.entries (SimpleSRWriter._sr w)))%nat ->
  header (SimpleSRWriter.write_loop fuel w mv).2 = header w.
Proof.
  induction fuel as [| fuel IH]; intros w mv Hlen; [done |].
  rewrite write_loop_S. cbv zeta.
  destruct (Z.of_nat (length mv) >? _); [| done].
  unfold SimpleSRWriter._finalize_current_slice, ZipFile.write_entry.
  simpl. destruct (ZipFile.closed (SimpleSRWriter._sr w)); [done |].
  rewrite IH; simpl.
  - unfold header. simpl. by rewrite take_app_le.
  - rewrite length_app. lia.
Qed.

Lemma header_write_samples w samples :
  writer_ok w ->
  header (SimpleSRWriter.write_samples w samples).2 = header w.
Proof.
  intros [_ _ _ Hlen]. unfold SimpleSRWriter.write_samples.
  destruct (SimpleSRWriter._unit_size w =? 0); [done |].
  destruct (negb _); [done |].
  pose proof (header_write_loop (SimpleSRWriter.write_fuel samples) w samples
                Hlen) as Hh.
  by destruct (SimpleSRWriter.write_loop _ w samples) as [[[] | e |] w1].
Qed.

(** ** Calls that keep the encoder able to write *)

(** Closes a goal of [keeps_ready] once the call has been run. *)
Ltac still_ready w :=
  exists w; split; [discriminate | split; [assumption | reflexivity]].

Lemma keeps_ready_ret {A} (a : A) : keeps_ready (ret a).
Proof. intros l w st Hr. still_ready w. Qed.

Lemma keeps_ready_raise {A} e : keeps_ready (@raise A e).
Proof. intros l w st Hr. still_ready w. Qed.

Lemma keeps_ready_bind {A B} (m : M A) (f : A -> M B) :
  keeps_ready m -> (forall a, keeps_ready (f a)) -> keeps_ready (bind m f).
Proof.
  intros Hm Hf l w st Hr. unfold bind.
  destruct (Hm l w st Hr) as (w1 & Hend & Hr1 & Hh1).
  destruct (m st) as [[a | e |] st1]; cbn [fst snd] in *;
    [| exists w1; split; [discriminate | split; assumption] | done].
  destruct (Hf a l w1 st1 Hr1) as (w2 & Hend2 & Hr2 & Hh2).
  exists w2. by rewrite Hh2.
Qed.

Lemma keeps_ready_get_self : keeps_ready get_self.
Proof. intros l w st Hr. still_ready w. Qed.

Lemma keeps_ready_put_state c : keeps_ready (put_state c).
Proof.
  intros l w st [Hsr Hh Hok Hu]. exists w.
  split; [discriminate |]. by split.
Qed.

Lemma keeps_ready_resolve attr : keeps_ready (resolve_sr attr).
Proof.
  intros l w st Hr. exists w. pose proof Hr as [Hsr Hh _ _].
  unfold resolve_sr. rewrite Hsr, Hh. cbn [fst snd].
  split; [discriminate | by split].
Qed.

Lemma keeps_ready_write samples :
  keeps_ready (l <- resolve_sr "write_samples" ;;
               call_write_samples l samples).
Proof.
  intros l w st Hr. pose proof Hr as [Hsr Hh Hok Hu].
  unfold bind, resolve_sr, call_write_samples. rewrite Hsr, Hh.
  cbn [fst snd]. rewrite Hh.
  destruct (write_samples_wrote w samples Hok Hu) as (w' & Hrun & Hw).
  pose proof (header_write_samples w samples Hok) as Hhd.
  rewrite Hrun in *. cbn [fst snd] in *.
  exists w'. split; [discriminate |]. split; [| done].
  pose proof (ready_after l w w' samples st (_state st.1) Hr Hw) as Hr'.
  by rewrite set_state_same in Hr'.
Qed.

Lemma keeps_ready_emit_chirps cs update_state :
  keeps_ready (emit_chirps (Str cs) update_state).
Proof.
  intros l w st Hr. pose proof Hr as [Hsr Hh Hok Hu].
  destruct (write_samples_wrote w (_double st.1 cs) Hok Hu)
    as (w' & Hrun & Hw).
  pose proof (header_write_samples w (_double st.1 cs) Hok) as Hhd.
  rewrite Hrun in Hhd. cbn [snd] in Hhd.
  exists w'.
  unfold emit_chirps, bind, resolve_sr, call_write_samples, get_self, ret,
    raise, put_state.
  rewrite Hsr, Hh. cbn [fst snd]. rewrite Hh, Hrun. cbn [fst snd].
  pose proof (fun c => ready_after l w w' _ st c Hr Hw) as Hr'.
  pose proof (Hr' (_state st.1)) as Hsame. rewrite set_state_same in Hsame.
  destruct update_state; [destruct (last cs) as [c |] |]; cbn [fst snd];
    (split; [discriminate | split; [| done]]); [apply Hr' | done | done].
Qed.

Lemma keeps_ready_emit_bytes payload : keeps_ready (emit_bytes payload).
Proof.
  intros l w st Hr. pose proof Hr as [Hsr Hh Hok Hu].
  destruct (_jk_index (_state st.1)) as [tmp |] eqn:Htmp.
  - unfold emit_bytes, emit_chirps, _to_chirp, bind, resolve_sr,
      call_write_samples, get_self, put_state, ret.
    rewrite Hsr, Hh. cbn [fst snd]. rewrite Htmp.
    destruct (bytes_loop payload tmp 0) as [ys [t s]]. cbn [fst snd].
    destruct (write_samples_wrote w (_double st.1 ys) Hok Hu)
      as (w' & Hrun & Hw).
    pose proof (header_write_samples w (_double st.1 ys) Hok) as Hhd.
    rewrite Hh, double_set_state, Hrun in *. cbn [fst snd] in *.
    exists w'. split; [discriminate |]. split; [| done].
    exact (ready_after l w w' _ st (_jk t) Hr Hw).
  - exists w.
    unfold emit_bytes, emit_chirps, _to_chirp, bind, resolve_sr, get_self,
      raise.
    rewrite Hsr, Hh. cbn [fst snd]. rewrite Htmp. cbn [fst snd].
    split; [discriminate | by split].
Qed.

Lemma keeps_ready_emit_stall cycles : keeps_ready (emit_stall cycles).
Proof.
  unfold emit_stall.
  destruct (cycles <? 0); [apply keeps_ready_raise |].
  destruct (cycles =? 0); [apply keeps_ready_ret |].
  apply keeps_ready_bind; [apply keeps_ready_get_self |].
  intros self. apply keeps_ready_emit_chirps.
Qed.

Lemma keeps_ready_sample_ticks n : keeps_ready (sample_ticks n).
Proof.
  intros l w st Hr. pose proof Hr as [Hsr Hh _ _]. exists w.
  unfold sample_ticks, bind, resolve_sr. rewrite Hsr, Hh. cbn [fst snd].
  rewrite Hh. destruct (n =? 0); cbn [fst snd];
    (split; [discriminate | by split]).
Qed.

Lemma keeps_ready_packet_loop speed n pcap :
  forall last_pkt_at begins_at_ticks ends_at_ticks,
    keeps_ready (packet_loop speed n pcap last_pkt_at
                             begins_at_ticks ends_at_ticks).
Proof.
  induction pcap as [| pkt pcap IH]; intros last_pkt_at b e;
    [apply keeps_ready_ret |].
  cbn [packet_loop]. cbv zeta.
  destruct (_ >? _); [apply keeps_ready_raise |].
  apply keeps_ready_bind; [apply keeps_ready_emit_stall | intros _].
  apply keeps_ready_bind; [apply keeps_ready_sample_ticks | intros b'].
  apply keeps_ready_bind; [apply (keeps_ready_emit_chirps _ true) | intros _].
  apply keeps_ready_bind; [apply keeps_ready_emit_bytes | intros _].
  apply keeps_ready_bind; [apply (keeps_ready_emit_chirps _ true) | intros _].
  apply keeps_ready_bind; [apply keeps_ready_sample_ticks | intros e'].
  apply IH.
Qed.

Lemma keeps_ready_with_body args speed pcap last_pkt_at :
  keeps_ready (with_body args speed pcap last_pkt_at).
Proof.
  unfold with_body.
  apply keeps_ready_bind; [apply keeps_ready_emit_stall | intros _].
  apply keeps_ready_bind; [apply keeps_ready_sample_ticks | intros b].
  apply keeps_ready_bind; [apply keeps_ready_packet_loop | intros _].
  apply keeps_ready_emit_stall.
Qed.

(** ** Runs without an overrun *)

Lemma wrote_refl w : writer_ok w -> wrote w w [].
Proof.
  intros Hok. split; [done | apply same_config_refl | | simpl; lia].
  by rewrite app_nil_r.
Qed.

Lemma wrote_trans w1 w2 w3 s1 s2 :
  wrote w1 w2 s1 -> wrote w2 w3 s2 -> wrote w1 w3 (s1 ++ s2).
Proof.
  intros [_ Hc1 Hw1 Hn1] [Hok Hc2 Hw2 Hn2].
  split; [done | by eapply same_config_trans | |].
  - by rewrite Hw2, Hw1, app_assoc.
  - rewrite Hn2, Hn1, length_app. lia.
Qed.

Lemma double_app self cs1 cs2 :
  _double self (cs1 ++ cs2) = _double self cs1 ++ _double self cs2.
Proof. unfold _double. by rewrite flat_map_app. Qed.

Lemma emit_stall_wrote l w st cycles :
  ready l w st -> 0 <= cycles ->
  exists w' st',
    emit_stall cycles st = (Ok tt, st') /\ ready l w' st' /\ st'.1 = st.1 /\
    wrote w w' (_double st.1 (replicate (Z.to_nat cycles) (_state st.1))).
Proof.
  intros Hr Hc. destruct (Z.eq_dec cycles 0) as [-> | Hnz].
  - exists w, st. split; [done |]. split; [done |]. split; [done |].
    apply wrote_refl. by destruct Hr.
  - destruct (emit_stall_spec l w st cycles Hr) as (w' & Hrun & Hw); [lia |].
    eexists w', _. split; [exact Hrun |]. split; [| by split].
    pose proof (ready_after l w w' _ st (_state st.1) Hr Hw) as Hr'.
    by rewrite set_state_same in Hr'.
Qed.

Lemma frame_length pkt :
  Z.of_nat (length (frame_chirps pkt)) = packet_cycles pkt.
Proof.
  unfold frame_chirps, packet_cycles.
  rewrite !length_app, (bytes_loop_level (load pkt) 1 0 0). simpl length. lia.
Qed.

(** One round of the loop once the stall is over: the frame of the
    packet is written and the line is back at J. *)
Lemma frame_wrote l w st pkt :
  ready l w st ->
  exists w1 st1 w2 st2 w3 st3,
    emit_sync st = (Ok tt, st1) /\
    emit_bytes (load pkt) st1 = (Ok tt, st2) /\
    emit_eop st2 = (Ok tt, st3) /\
    ready l w1 st1 /\ ready l w2 st2 /\ ready l w3 st3 /\
    st3.1 = set_state st.1 J /\
    wrote w w3 (_double st.1 (frame_chirps pkt)).
Proof.
  intros Hr.
  destruct (emit_sync_spec l w st Hr) as (w1 & Hrun1 & Hw1).
  pose proof (ready_after l w w1 _ st K Hr Hw1) as Hr1.
  set (st1 := (set_state st.1 K, set_heap st.2 (<[l:=w1]> (heap st.2)))) in *.
  destruct (emit_bytes_spec l w1 st1 (load pkt) 1 Hr1 eq_refl)
    as (w2 & Hrun2 & Hw2).
  pose proof (ready_after l w1 w2 _ st1
                (_jk (bytes_loop (load pkt) 1 0).2.1) Hr1 Hw2) as Hr2.
  set (st2 := (set_state st1.1 _, set_heap st1.2 _)) in *.
  destruct (emit_eop_spec l w2 st2 Hr2) as (w3 & Hrun3 & Hw3).
  pose proof (ready_after l w2 w3 _ st2 J Hr2 Hw3) as Hr3.
  eexists w1, st1, w2, st2, w3, _.
  split; [exact Hrun1 |]. split; [exact Hrun2 |]. split; [exact Hrun3 |].
  split; [done |]. split; [done |]. split; [done |]. split; [done |].
  unfold frame_chirps. rewrite !double_app.
  eapply wrote_trans; [exact Hw1 |].
  eapply wrote_trans; [exact Hw2 | exact Hw3].
Qed.

Lemma packet_loop_fits speed n l pcap :
  0 < n ->
  forall last_pkt_at begins_at_ticks ends_at_ticks w st,
    ready l w st -> _interpolate st.1 = n -> _state st.1 = J ->
    SimpleSRWriter._sample_counter w = ends_at_ticks * n ->
    loop_fits speed last_pkt_at (ends_at_ticks - begins_at_ticks) pcap ->
    exists w' st',
      packet_loop speed n pcap last_pkt_at begins_at_ticks ends_at_ticks st
      = (Ok tt, st') /\
      ready l w' st' /\ st'.1 = st.1 /\
      wrote w w'
        (_double st.1
           (loop_chirps speed last_pkt_at (ends_at_ticks - begins_at_ticks)
                        pcap)).
Proof.
  intros Hn.
  induction pcap as [| pkt pcap IH];
    intros last_pkt_at b e w st Hr Hi HJ Hcnt Hfits.
  { exists w, st. split; [done |]. split; [done |]. split; [done |].
    apply wrote_refl. by destruct Hr. }
  cbn [packet_loop loop_chirps loop_fits] in *. cbv zeta.
  set (gap := py_round ((time pkt - last_pkt_at) * inject_Z speed)%Q) in *.
  destruct Hfits as [Hgap Hfits].
  destruct (Z.gtb_spec (e - b) gap) as [? | _]; [lia |].
  destruct (emit_stall_wrote l w st (gap - (e - b)) Hr ltac:(lia))
    as (w0 & st0 & Hrun0 & Hr0 & Hst0 & Hw0).
  destruct (frame_wrote l w0 st0 pkt Hr0)
    as (w1 & st1 & w2 & st2 & w3 & st3 & Hrun1 & Hrun2 & Hrun3
        & Hr1 & Hr2 & Hr3 & Hst3 & Hw3).
  assert (Hdouble : forall cs, _double st0.1 cs = _double st.1 cs)
    by (by rewrite Hst0).
  rewrite Hdouble in Hw3.
  assert (Hc0 : SimpleSRWriter._sample_counter w0 = (b + gap) * n).
  { destruct Hw0 as [_ _ _ ->]. rewrite Hcnt, length_double, Hi by lia.
    rewrite length_replicate, Z2Nat.id by lia. ring. }
  assert (Hc3 : SimpleSRWriter._sample_counter w3
                = (b + gap + packet_cycles pkt) * n).
  { destruct Hw3 as [_ _ _ ->]. rewrite Hc0, length_double, Hi by lia.
    rewrite frame_length. ring. }
  assert (Hb : sample_ticks n st0 = (Ok (b + gap), st0)).
  { rewrite (sample_ticks_step n l w0 st0); [| lia | by split; [| congruence]].
    by rewrite Hc0, Z.div_mul by lia. }
  assert (He : sample_ticks n st3
               = (Ok (b + gap + packet_cycles pkt), st3)).
  { rewrite (sample_ticks_step n l w3 st3); [| lia |].
    - by rewrite Hc3, Z.div_mul by lia.
    - split; [done |]. by rewrite Hst3, Hst0. }
  destruct (IH (time pkt) (b + gap) (b + gap + packet_cycles pkt) w3 st3)
    as (w' & st' & Hrun & Hr' & Hst' & Hw');
    [done | by rewrite Hst3, Hst0 | by rewrite Hst3 | done | |].
  { by replace (b + gap + packet_cycles pkt - (b + gap))
      with (packet_cycles pkt) by lia. }
  exists w', st'.
  split.
  { unfold bind at 1. rewrite Hrun0.
    unfold bind at 1. rewrite Hb.
    unfold bind at 1. rewrite Hrun1.
    unfold bind at 1. rewrite Hrun2.
    unfold bind at 1. rewrite Hrun3.
    unfold bind at 1. by rewrite He. }
  split; [done |].
  split.
  { rewrite Hst', Hst3, Hst0. rewrite <- HJ. apply set_state_same. }
  rewrite HJ in Hw0.
  replace (b + gap + packet_cycles pkt - (b + gap))
    with (packet_cycles pkt) in Hw' by lia.
  assert (Hd3 : forall cs, _double st3.1 cs = _double st.1 cs)
    by (intros cs; by rewrite Hst3, Hst0).
  rewrite Hd3 in Hw'. rewrite !double_app.
  eapply wrote_trans; [exact Hw0 |].
  eapply wrote_trans; [exact Hw3 | exact Hw'].
Qed.

Lemma py_round_comp x y : (x == y)%Q -> py_round x = py_round y.
Proof.
  intros H. unfold py_round. cbv zeta.
  rewrite (Qfloor_comp _ _ H).
  assert (Hc : ((x - inject_Z (Qfloor y)) ?= 1 # 2)%Q
               = ((y - inject_Z (Qfloor y)) ?= 1 # 2)%Q)
    by (by rewrite H).
  by rewrite Hc.
Qed.

(** The first packet starts right after the start padding. *)
Lemma py_round_same t speed :
  py_round ((t - t) * inject_Z speed)%Q = 0.
Proof.
  rewrite (py_round_comp _ 0%Q); [done |]. ring.
Qed.

Lemma fits_tail speed pkt pcap : fits speed (pkt :: pcap) -> fits speed pcap.
Proof.
  intros Hf n (p & q & Hp & Hq & Hgt). apply (Hf (S n)). by exists p, q.
Qed.

Lemma fits_loop speed : forall pcap pkt,
  fits speed (pkt :: pcap) ->
  loop_fits speed (time pkt) (packet_cycles pkt) pcap.
Proof.
  induction pcap as [| next pcap IH]; intros pkt Hf; [done |].
  cbn [loop_fits]. split.
  - destruct (Z_le_gt_dec (packet_cycles pkt) (gap_cycles speed pkt next))
      as [Hle | Hgt]; [done |].
    exfalso. apply (Hf 0%nat). by exists pkt, next.
  - apply IH. by eapply fits_tail.
Qed.

Lemma fits_loop_start speed pkt0 pcap :
  fits speed (pkt0 :: pcap) ->
  loop_fits speed (time pkt0) 0 (pkt0 :: pcap).
Proof.
  intros Hf. cbn [loop_fits]. rewrite py_round_same.
  split; [done | by apply fits_loop].
Qed.

Lemma with_body_fits args speed pcap last_pkt_at l w st :
  ready l w st ->
  _interpolate st.1 = interpolate args -> _state st.1 = J ->
  SimpleSRWriter._sample_counter w = 0 ->
  0 < interpolate args -> 0 <= start_padding args ->
  loop_fits speed last_pkt_at 0 pcap ->
  exists w' st',
    with_body args speed pcap last_pkt_at st
    = (if end_padding args <? 0
       then Raise (ValueError "Cycles must be 0 or positive.")
       else Ok tt, st') /\
    ready l w' st' /\
    wrote w w'
      (_double st.1
         (replicate (Z.to_nat (start_padding args)) J
          ++ loop_chirps speed last_pkt_at 0 pcap
          ++ replicate (Z.to_nat (end_padding args)) J)).
Proof.
  intros Hr Hi HJ Hcnt Hn Hs Hfits.
  destruct (emit_stall_wrote l w st (start_padding args) Hr Hs)
    as (w0 & st0 & Hrun0 & Hr0 & Hst0 & Hw0).
  rewrite HJ in Hw0.
  assert (Hc0 : SimpleSRWriter._sample_counter w0
                = start_padding args * interpolate args).
  { destruct Hw0 as [_ _ _ ->]. rewrite Hcnt, length_double, Hi by lia.
    rewrite length_replicate, Z2Nat.id by lia. ring. }
  assert (Hb : sample_ticks (interpolate args) st0
               = (Ok (start_padding args), st0)).
  { rewrite (sample_ticks_step _ l w0 st0); [| lia |].
    - by rewrite Hc0, Z.div_mul by lia.
    - split; [done |]. by rewrite Hst0. }
  destruct (packet_loop_fits speed (interpolate args) l pcap Hn last_pkt_at
              (start_padding args) (start_padding args) w0 st0)
    as (w1 & st1 & Hrun1 & Hr1 & Hst1 & Hw1);
    [done | by rewrite Hst0 | by rewrite Hst0 | done
     | by rewrite Z.sub_diag |].
  rewrite Z.sub_diag, Hst0 in Hw1.
  assert (Hbody : forall out st',
            emit_stall (end_padding args) st1 = (out, st') ->
            with_body args speed pcap last_pkt_at st = (out, st')).
  { intros out st' Hend. unfold with_body.
    unfold bind at 1. rewrite Hrun0.
    unfold bind at 1. rewrite Hb.
    unfold bind at 1. by rewrite Hrun1. }
  destruct (Z.ltb_spec (end_padding args) 0) as [Hneg | Hpos].
  - exists w1, st1. split.
    { apply Hbody. unfold emit_stall.
      by destruct (Z.ltb_spec (end_padding args) 0) as [_ | ?]; [| lia]. }
    split; [done |].
    replace (Z.to_nat (end_padding args)) with 0%nat by lia.
    cbn [replicate]. rewrite app_nil_r, double_app.
    by eapply wrote_trans.
  - destruct (emit_stall_wrote l w1 st1 (end_padding args) Hr1 Hpos)
      as (w2 & st2 & Hrun2 & Hr2 & Hst2 & Hw2).
    exists w2, st2. split; [by apply Hbody |]. split; [done |].
    rewrite Hst1, Hst0, HJ in Hw2.
    rewrite !double_app.
    eapply wrote_trans; [exact Hw0 |].
    eapply wrote_trans; [exact Hw1 | exact Hw2].
Qed.

Lemma start_ready args speed usb :
  ready writer_loc
    (SimpleSRWriter.__init__ ["D-"; "D+"]%string
       (speed * interpolate args) 16777216)
    (usb, start_globals args speed).
Proof.
  split; simpl; [done | apply lookup_insert_eq | apply init_ok; lia | done].
Qed.

(** A run on good arguments: everything the block writes is in the
    sealed archive, and only a negative end padding makes it raise. *)
Lemma main_runs args speed pcap pkt0 :
  USB_SPEED (signaling args) = Some speed ->
  head pcap = Some pkt0 ->
  0 < interpolate args -> 0 <= start_padding args ->
  fits speed pcap ->
  exists wf,
    (main args pcap).1
    = (if end_padding args <? 0
       then Raise (ValueError "Cycles must be 0 or positive.")
       else Ok tt) /\
    final_writer (main args pcap) = Some wf /\
    ZipFile.closed (SimpleSRWriter._sr wf) = true /\
    concat (SimpleSRWriter.slices wf)
    = fs_samples (interpolate args) (run_chirps args speed pcap) /\
    SimpleSRWriter.sample_count wf
    = Z.of_nat (length (fs_samples (interpolate args)
                          (run_chirps args speed pcap))).
Proof.
  intros Hspeed Hhead Hn Hs Hfits.
  destruct pcap as [| p rest]; [done |]. injection Hhead as ->.
  set (w0 := SimpleSRWriter.__init__ ["D-"; "D+"]%string
               (speed * interpolate args) 16777216).
  set (usb0 := mk J (VStr (signaling args)) c2s_fs (interpolate args)).
  destruct (with_body_fits args speed (pkt0 :: rest) (time pkt0)
              writer_loc w0 (usb0, start_globals args speed)
              (start_ready args speed usb0) eq_refl eq_refl eq_refl Hn Hs
              (fits_loop_start speed pkt0 rest Hfits))
    as (wb & stb & Hbody & Hr & Hw).
  destruct Hr as [_ Hheap Hokb _].
  destruct Hw as [_ _ Hwritten Hcount].
  change (SimpleSRWriter.written w0) with (@nil Z) in Hwritten.
  change (SimpleSRWriter._sample_counter w0) with 0 in Hcount.
  cbn [fst app] in Hwritten, Hcount.
  change (_double usb0 ?cs) with (fs_samples (interpolate args) cs)
    in Hwritten, Hcount.
  change (replicate _ J ++ loop_chirps _ _ _ _ ++ replicate _ J)
    with (run_chirps args speed (pkt0 :: rest)) in Hwritten, Hcount.
  destruct (finalize_spec wb Hokb)
    as (w1 & Hfin & _ & _ & Hsl & Hbuf & _ & Hcnt).
  set (wf := SimpleSRWriter.set_sr w1 (ZipFile.close (SimpleSRWriter._sr w1))).
  assert (Hclose : SimpleSRWriter.close wb = (Ok tt, wf))
    by (unfold SimpleSRWriter.close; by rewrite Hfin).
  assert (Hmain : main args (pkt0 :: rest)
                  = ((if end_padding args <? 0
                      then Raise (ValueError "Cycles must be 0 or positive.")
                      else Ok tt),
                     set_heap stb.2 (<[writer_loc := wf]> (heap stb.2)))).
  { unfold main. rewrite Hspeed. cbv zeta. unfold with_block.
    rewrite usb_init_default. fold usb0. cbv zeta. rewrite Hbody.
    cbn [fst snd]. unfold closing_exit. rewrite Hheap, Hclose. cbn [fst snd].
    by destruct (end_padding args <? 0). }
  exists wf. rewrite Hmain. cbn [fst snd].
  split; [done |].
  split; [unfold final_writer; simpl; apply lookup_insert_eq |].
  split; [done |].
  split.
  - change (SimpleSRWriter.slices wf) with (SimpleSRWriter.slices w1).
    rewrite Hsl, concat_app. simpl. rewrite app_nil_r. exact Hwritten.
  - change (SimpleSRWriter.sample_count wf)
      with (SimpleSRWriter._sample_counter w1).
    rewrite Hcnt, Hcount. lia.
Qed.

Lemma fs_samples_length n cs :
  0 <= n ->
  Z.of_nat (length (fs_samples n cs)) = n * Z.of_nat (length cs).
Proof.
  intros Hn.
  change (fs_samples n cs) with (_double (mk J (VStr "") c2s_fs n) cs).
  rewrite length_double by done. simpl. lia.
Qed.

Lemma fs_samples_app n cs1 cs2 :
  fs_samples n (cs1 ++ cs2) = fs_samples n cs1 ++ fs_samples n cs2.
Proof. unfold fs_samples. by rewrite flat_map_app. Qed.

(** The symbols of the loop take the cycles from the first rounded gap
    to the end of the last packet. *)
Lemma loop_chirps_length speed : forall pcap pkt last_pkt_at used,
  loop_fits speed last_pkt_at used (pkt :: pcap) ->
  Z.of_nat (length (loop_chirps speed last_pkt_at used (pkt :: pcap)))
  = py_round ((time pkt - last_pkt_at) * inject_Z speed)%Q - used
    + capture_ticks speed (pkt :: pcap).
Proof.
  induction pcap as [| next pcap IH]; intros pkt last_pkt_at used [Hgap Hf].
  - cbn [loop_chirps capture_ticks].
    rewrite !length_app, length_replicate, !Nat2Z.inj_add, frame_length.
    change (length (@nil chirp)) with 0%nat. lia.
  - specialize (IH next (time pkt) (packet_cycles pkt) Hf).
    change (loop_chirps speed last_pkt_at used (pkt :: next :: pcap))
      with (replicate
              (Z.to_nat (py_round ((time pkt - last_pkt_at)
                                   * inject_Z speed)%Q - used)) J
            ++ frame_chirps pkt
            ++ loop_chirps speed (time pkt) (packet_cycles pkt)
                 (next :: pcap)).
    change (capture_ticks speed (pkt :: next :: pcap))
      with (gap_cycles speed pkt next + capture_ticks speed (next :: pcap)).
    rewrite !length_app, length_replicate, !Nat2Z.inj_add, IH, frame_length.
    unfold gap_cycles. lia.
Qed.

(** The frame of packet [k] sits in the symbols of the loop after the
    cycles of the rounded gaps before it. *)
Lemma loop_chirps_frame speed : forall k pcap pkt last_pkt_at used first,
  head pcap = Some first ->
  pcap !! k = Some pkt ->
  loop_fits speed last_pkt_at used pcap ->
  exists before after,
    loop_chirps speed last_pkt_at used pcap
    = before ++ frame_chirps pkt ++ after /\
    Z.of_nat (length before)
    = py_round ((time first - last_pkt_at) * inject_Z speed)%Q - used
      + packet_start speed pcap k.
Proof.
  induction k as [| k IH];
    intros pcap pkt last_pkt_at used first Hhd Hk Hf;
    destruct pcap as [| p0 rest]; try done;
    injection Hhd as ->; destruct Hf as [Hgap Hf].
  - injection Hk as ->.
    eexists _, _. split; [reflexivity |].
    rewrite length_replicate. simpl. lia.
  - simpl in Hk. destruct rest as [| next rest]; [done |].
    destruct (IH (next :: rest) pkt (time first) (packet_cycles first) next
                eq_refl Hk Hf) as (before & after & Heq & Hlen).
    exists (replicate
              (Z.to_nat (py_round ((time first - last_pkt_at)
                                   * inject_Z speed)%Q - used)) J
            ++ frame_chirps first ++ before), after.
    split.
    + cbn [loop_chirps] in *. rewrite Heq. by rewrite <- !app_assoc.
    + rewrite !length_app, length_replicate, !Nat2Z.inj_add, Hlen,
        frame_length.
      change (packet_start speed (first :: next :: rest) (S k))
        with (gap_cycles speed first next
              + packet_start speed (next :: rest) k).
      unfold gap_cycles. lia.
Qed.

(** On good arguments and a capture without an overrun the script
    returns, and the sealed archive holds, in its slices, exactly the
    samples of the run: the start padding at J, then for each packet the
    idle cycles that the rounded gap leaves free, SYNC, the stuffed NRZI
    payload and EOP, then the end padding, every symbol as
    [interpolate] samples of the full-speed table. *)
Theorem main_stream args speed pcap pkt0 :
  USB_SPEED (signaling args) = Some speed ->
  head pcap = Some pkt0 ->
  0 < interpolate args ->
  0 <= start_padding args ->
  0 <= end_padding args ->
  fits speed pcap ->
  exists wf,
    (main args pcap).1 = Ok tt /\
    final_writer (main args pcap) = Some wf /\
    ZipFile.closed (SimpleSRWriter._sr wf) = true /\
    concat (SimpleSRWriter.slices wf)
    = fs_samples (interpolate args) (run_chirps args speed pcap).
Proof.
  intros Hspeed Hhead Hn Hs He Hfits.
  destruct (main_runs args speed pcap pkt0 Hspeed Hhead Hn Hs Hfits)
    as (wf & Hout & Hfw & Hclosed & Hstream & _).
  exists wf. split; [| done].
  rewrite Hout. by destruct (Z.ltb_spec (end_padding args) 0); [lia |].
Qed.

Lemma main_stream_witness :
  let args := mk_args "fs" 2 1 1 in
  let pcap := [mk_packet 0 [165]; mk_packet (1 # 100000) [90]] in
  exists wf,
    (main args pcap).1 = Ok tt /\
    final_writer (main args pcap) = Some wf /\
    ZipFile.closed (SimpleSRWriter._sr wf) = true /\
    concat (SimpleSRWriter.slices wf)
    = fs_samples (interpolate args) (run_chirps args 12000000 pcap).
Proof.
  intros args pcap.
  apply (main_stream args 12000000 pcap (mk_packet 0 [165]));
    try reflexivity; try (simpl; lia).
  intros [| [| n]] (p & q & Hp & Hq & Hgt); try done.
  injection Hp as <-. injection Hq as <-. by vm_compute in Hgt.
Defined.

(** The length of such a run: the sample counter the writer ends with,
    and the number of bytes in the slices, is [interpolate] times the
    cycles of the start padding, of the capture from the start of its
    first packet to the end of its last, with every gap rounded to whole
    cycles, and of the end padding. *)
Theorem main_duration args speed pcap pkt0 :
  USB_SPEED (signaling args) = Some speed ->
  head pcap = Some pkt0 ->
  0 < interpolate args ->
  0 <= start_padding args ->
  0 <= end_padding args ->
  fits speed pcap ->
  exists wf,
    final_writer (main args pcap) = Some wf /\
    SimpleSRWriter.sample_count wf
    = interpolate args
      * (start_padding args + capture_ticks speed pcap + end_padding args) /\
    Z.of_nat (length (concat (SimpleSRWriter.slices wf)))
    = SimpleSRWriter.sample_count wf.
Proof.
  intros Hspeed Hhead Hn Hs He Hfits.
  destruct (main_runs args speed pcap pkt0 Hspeed Hhead Hn Hs Hfits)
    as (wf & _ & Hfw & _ & Hstream & Hcount).
  exists wf. split; [done |]. rewrite Hstream, Hcount. split; [| done].
  rewrite fs_samples_length by lia. f_equal.
  destruct pcap as [| p rest]; [done |]. injection Hhead as ->.
  unfold run_chirps. cbn [head fmap option_fmap option_map default].
  unfold id. rewrite !length_app, !length_replicate, !Nat2Z.inj_add.
  rewrite (loop_chirps_length speed rest pkt0 (time pkt0) 0
             (fits_loop_start speed pkt0 rest Hfits)).
  rewrite py_round_same. lia.
Qed.

Lemma main_duration_witness :
  let args := mk_args "fs" 2 1 1 in
  let pcap := [mk_packet 0 [165]; mk_packet (1 # 100000) [90]] in
  exists wf,
    final_writer (main args pcap) = Some wf /\
    SimpleSRWriter.sample_count wf
    = interpolate args
      * (start_padding args + capture_ticks 12000000 pcap
         + end_padding args) /\
    Z.of_nat (length (concat (SimpleSRWriter.slices wf)))
    = SimpleSRWriter.sample_count wf.
Proof.
  intros args pcap.
  apply (main_duration args 12000000 pcap (mk_packet 0 [165]));
    try reflexivity; try (simpl; lia).
  intros [| [| n]] (p & q & Hp & Hq & Hgt); try done.
  injection Hp as <-. injection Hq as <-. by vm_compute in Hgt.
Defined.

(** Where a packet lands in such a run: the samples of packet [k]'s
    frame (SYNC, payload, EOP) start at sample [interpolate] times the
    start padding plus the rounded gaps between the packets before it. *)
Theorem main_packet_position args speed pcap pkt0 k pkt :
  USB_SPEED (signaling args) = Some speed ->
  head pcap = Some pkt0 ->
  0 < interpolate args ->
  0 <= start_padding args ->
  fits speed pcap ->
  pcap !! k = Some pkt ->
  exists wf before after,
    final_writer (main args pcap) = Some wf /\
    concat (SimpleSRWriter.slices wf)
    = before ++ fs_samples (interpolate args) (frame_chirps pkt) ++ after /\
    Z.of_nat (length before)
    = interpolate args * (start_padding args + packet_start speed pcap k).
Proof.
  intros Hspeed Hhead Hn Hs Hfits Hk.
  destruct (main_runs args speed pcap pkt0 Hspeed Hhead Hn Hs Hfits)
    as (wf & _ & Hfw & _ & Hstream & _).
  assert (Hloop : loop_fits speed (time pkt0) 0 pcap).
  { destruct pcap as [| p rest]; [done |]. injection Hhead as ->.
    by apply fits_loop_start. }
  destruct (loop_chirps_frame speed k pcap pkt (time pkt0) 0 pkt0
              Hhead Hk Hloop) as (before & after & Heq & Hlen).
  rewrite py_round_same in Hlen.
  exists wf,
    (fs_samples (interpolate args)
       (replicate (Z.to_nat (start_padding args)) J ++ before)),
    (fs_samples (interpolate args)
       (after ++ replicate (Z.to_nat (end_padding args)) J)).
  split; [done |]. split.
  - rewrite Hstream. unfold run_chirps. rewrite Hhead.
    cbn [fmap option_fmap option_map default]. unfold id. rewrite Heq.
    rewrite <- !fs_samples_app. by rewrite <- !app_assoc.
  - rewrite fs_samples_length by lia. f_equal.
    rewrite length_app, length_replicate, Nat2Z.inj_add. lia.
Qed.

Lemma main_packet_position_witness :
  let args := mk_args "fs" 2 1 1 in
  let pcap := [mk_packet 0 [165]; mk_packet (1 # 100000) [90]] in
  exists wf before after,
    final_writer (main args pcap) = Some wf /\
    concat (SimpleSRWriter.slices wf)
    = before
      ++ fs_samples (interpolate args) (frame_chirps (mk_packet (1 # 100000) [90]))
      ++ after /\
    Z.of_nat (length before)
    = interpolate args * (start_padding args + packet_start 12000000 pcap 1).
Proof.
  intros args pcap.
  apply (main_packet_position args 12000000 pcap (mk_packet 0 [165]));
    try reflexivity; try (simpl; lia).
  intros [| [| n]] (p & q & Hp & Hq & Hgt); try done.
  injection Hp as <-. injection Hq as <-. by vm_compute in Hgt.
Defined.

(** The end padding is checked last: when it is negative, the script
    ends with the ValueError of [emit_stall] only after the start padding
    and every packet have been written, and the sealed archive holds
    them. *)
Theorem main_negative_end_padding args speed pcap pkt0 :
  USB_SPEED (signaling args) = Some speed ->
  head pcap = Some pkt0 ->
  0 < interpolate args ->
  0 <= start_padding args ->
  end_padding args < 0 ->
  fits speed pcap ->
  exists wf,
    (main args pcap).1 = Raise (ValueError "Cycles must be 0 or positive.") /\
    final_writer (main args pcap) = Some wf /\
    ZipFile.closed (SimpleSRWriter._sr wf) = true /\
    concat (SimpleSRWriter.slices wf)
    = fs_samples (interpolate args)
        (replicate (Z.to_nat (start_padding args)) J
         ++ loop_chirps speed (time pkt0) 0 pcap).
Proof.
  intros Hspeed Hhead Hn Hs He Hfits.
  destruct (main_runs args speed pcap pkt0 Hspeed Hhead Hn Hs Hfits)
    as (wf & Hout & Hfw & Hclosed & Hstream & _).
  exists wf. split.
  { rewrite Hout. by destruct (Z.ltb_spec (end_padding args) 0); [| lia]. }
  split; [done |]. split; [done |].
  rewrite Hstream. unfold run_chirps. rewrite Hhead.
  cbn [fmap option_fmap option_map default]. unfold id.
  replace (Z.to_nat (end_padding args)) with 0%nat by lia.
  cbn [replicate]. by rewrite app_nil_r.
Qed.

Lemma main_negative_end_padding_witness :
  let args := mk_args "fs" 2 1 (-1) in
  let pcap := [mk_packet 0 [165]; mk_packet (1 # 100000) [90]] in
  exists wf,
    (main args pcap).1 = Raise (ValueError "Cycles must be 0 or positive.") /\
    final_writer (main args pcap) = Some wf /\
    ZipFile.closed (SimpleSRWriter._sr wf) = true /\
    concat (SimpleSRWriter.slices wf)
    = fs_samples (interpolate args)
        (replicate (Z.to_nat (start_padding args)) J
         ++ loop_chirps 12000000 (time (mk_packet 0 [165])) 0 pcap).
Proof.
  intros args pcap.
  apply (main_negative_end_padding args 12000000 pcap (mk_packet 0 [165]));
    try reflexivity; try (simpl; lia).
  intros [| [| n]] (p & q & Hp & Hq & Hgt); try done.
  injection Hp as <-. injection Hq as <-. by vm_compute in Hgt.
Defined.

(** Every run that gets as far as creating the archive leaves it sealed:
    for a known profile and a capture that is not empty, whatever the
    other arguments and the packets are, the script ends (it returns or
    raises), [close] has run, the header members are the two written at
    creation, the buffer is empty, and the slices hold every byte that
    was accepted by the writer; the script's outcome is that of the
    block. *)
Theorem main_always_seals args speed pcap pkt0 :
  USB_SPEED (signaling args) = Some speed ->
  head pcap = Some pkt0 ->
  let w0 := SimpleSRWriter.__init__ ["D-"; "D+"]%string
              (speed * interpolate args) 16777216 in
  let r := with_block args speed pcap (time pkt0) (start_globals args speed) in
  exists wb wf,
    r.1 <> Diverge /\
    heap r.2 !! writer_loc = Some wb /\
    main args pcap = (r.1, set_heap r.2 (<[writer_loc := wf]> (heap r.2))) /\
    ZipFile.closed (SimpleSRWriter._sr wf) = true /\
    header wf = header w0 /\
    SimpleSRWriter._slice_buffer wf = [] /\
    concat (SimpleSRWriter.slices wf) = SimpleSRWriter.written wb /\
    SimpleSRWriter.sample_count wf = SimpleSRWriter.sample_count wb.
Proof.
  intros Hspeed Hhead w0 r.
  destruct pcap as [| p rest]; [done |]. injection Hhead as ->.
  set (usb0 := mk J (VStr (signaling args)) c2s_fs (interpolate args)).
  destruct (keeps_ready_with_body args speed (pkt0 :: rest) (time pkt0)
              writer_loc w0 (usb0, start_globals args speed)
              (start_ready args speed usb0)) as (wb & Hend & Hr & Hhd).
  assert (Hblock : r = ((with_body args speed (pkt0 :: rest) (time pkt0)
                           (usb0, start_globals args speed)).1,
                        (with_body args speed (pkt0 :: rest) (time pkt0)
                           (usb0, start_globals args speed)).2.2)).
  { unfold r, with_block. by rewrite usb_init_default. }
  destruct (with_body _ _ _ _ _) as [out [self g]]. cbn [fst snd] in *.
  destruct Hr as [_ Hheap Hokb _]. cbn [snd] in Hheap.
  destruct (finalize_spec wb Hokb)
    as (w1 & Hfin & [_ _ _ Hlen1] & _ & Hsl & Hbuf & _ & Hcnt).
  set (wf := SimpleSRWriter.set_sr w1 (ZipFile.close (SimpleSRWriter._sr w1))).
  assert (Hclose : SimpleSRWriter.close wb = (Ok tt, wf))
    by (unfold SimpleSRWriter.close; by rewrite Hfin).
  exists wb, wf. rewrite Hblock. cbn [fst snd].
  split; [done |]. split; [done |].
  split.
  { unfold main. rewrite Hspeed. fold r. rewrite Hblock. cbn [fst snd].
    unfold closing_exit. rewrite Hheap, Hclose. cbn [fst snd].
    by destruct out. }
  split; [done |].
  split.
  { rewrite <- Hhd. unfold header. change (SimpleSRWriter._sr wf)
      with (ZipFile.close (SimpleSRWriter._sr w1)). simpl.
    revert Hfin. unfold SimpleSRWriter._finalize_current_slice,
      ZipFile.write_entry.
    destruct Hokb as [_ _ -> Hlenb]. intros [= <-]. simpl.
    by rewrite take_app_le. }
  split; [done |].
  split.
  { change (SimpleSRWriter.slices wf) with (SimpleSRWriter.slices w1).
    rewrite Hsl, concat_app. simpl. by rewrite app_nil_r. }
  done.
Qed.

Lemma main_always_seals_witness :
  let args := mk_args "ls" 0 3 (-1) in
  let pcap := [mk_packet 0 [165]] in
  let w0 := SimpleSRWriter.__init__ ["D-"; "D+"]%string
              (1500000 * interpolate args) 16777216 in
  let r := with_block args 1500000 pcap (time (mk_packet 0 [165]))
             (start_globals args 1500000) in
  exists wb wf,
    r.1 <> Diverge /\
    heap r.2 !! writer_loc = Some wb /\
    main args pcap = (r.1, set_heap r.2 (<[writer_loc := wf]> (heap r.2))) /\
    ZipFile.closed (SimpleSRWriter._sr wf) = true /\
    header wf = header w0 /\
    SimpleSRWriter._slice_buffer wf = [] /\
    concat (SimpleSRWriter.slices wf) = SimpleSRWriter.written wb /\
    SimpleSRWriter.sample_count wf = SimpleSRWriter.sample_count wb.
Proof.
  intros args pcap.
  apply (main_always_seals args 1500000 pcap (mk_packet 0 [165]));
    reflexivity.
Defined.

End MainMore.

(** ** Runs that write no sample *)

Section MainSilent.

Import USBSignaling.

Lemma double_nonpos self cs : _interpolate self <= 0 -> _double self cs = [].
Proof.
  intros Hi. unfold _double.
  replace (Z.to_nat (_interpolate self)) with 0%nat by lia.
  by induction cs.
Qed.

Lemma call_write_nothing l w st :
  ready l w st -> call_write_samples l [] st = (Ok tt, st).
Proof.
  intros [Hsr Hheap Hok Hu]. unfold call_write_samples. rewrite Hheap.
  rewrite write_samples_nil by (done || lia). cbn [fst snd].
  rewrite insert_id by done. by destruct st as [self [s h]].
Qed.

Lemma emit_chirps_silent l w st cs c :
  ready l w st -> _interpolate st.1 <= 0 -> last cs = Some c ->
  emit_chirps (Str cs) true st = (Ok tt, (set_state st.1 c, st.2)).
Proof.
  intros Hr Hi Hl. pose proof (call_write_nothing l w st Hr) as Hw.
  destruct Hr as [Hsr Hheap _ _].
  unfold emit_chirps, bind, resolve_sr, get_self, ret.
  rewrite Hsr, Hheap. cbn [fst snd].
  rewrite double_nonpos by done. rewrite Hw, Hl. done.
Qed.

Lemma emit_stall_silent l w st cycles :
  ready l w st -> _interpolate st.1 <= 0 -> 0 <= cycles ->
  emit_stall cycles st = (Ok tt, st).
Proof.
  intros Hr Hi Hc. unfold emit_stall.
  destruct (Z.ltb_spec cycles 0) as [? | _]; [lia |].
  destruct (Z.eqb_spec cycles 0) as [? | Hnz]; [done |].
  unfold bind at 1. unfold get_self. cbn [fst snd].
  rewrite (emit_chirps_silent l w st _ (_state st.1) Hr Hi)
    by (apply last_py_mul; lia).
  rewrite set_state_same. by destruct st.
Qed.

Lemma emit_bytes_silent l w st payload tmp :
  ready l w st -> _interpolate st.1 <= 0 ->
  _jk_index (_state st.1) = Some tmp ->
  emit_bytes payload st
  = (Ok tt, (set_state st.1 (_jk (bytes_loop payload tmp 0).2.1), st.2)).
Proof.
  intros Hr Hi Hjk.
  assert (Hw : forall c,
             call_write_samples l [] (set_state st.1 c, st.2)
             = (Ok tt, (set_state st.1 c, st.2))).
  { intros c. apply (call_write_nothing l w). by destruct Hr. }
  destruct Hr as [Hsr Hheap _ _].
  unfold emit_bytes, emit_chirps, _to_chirp, bind, resolve_sr, get_self,
    put_state, ret.
  rewrite Hsr, Hheap. cbn [fst snd]. rewrite Hjk.
  destruct (bytes_loop payload tmp 0) as [ys [tmp' stuff']]. cbn [fst snd].
  rewrite double_nonpos by done. by rewrite Hw.
Qed.

Lemma sample_ticks_silent n l w st :
  n <> 0 -> ready l w st -> SimpleSRWriter._sample_counter w = 0 ->
  sample_ticks n st = (Ok 0, st).
Proof.
  intros Hn [Hsr Hheap _ _] Hc.
  unfold sample_ticks, bind, resolve_sr. rewrite Hsr, Hheap. cbn [fst snd].
  rewrite Hheap. destruct (Z.eqb_spec n 0) as [? | _]; [done |].
  unfold SimpleSRWriter.sample_count. by rewrite Hc.
Qed.

Lemma ordered_tail speed pkt pcap :
  ordered speed (pkt :: pcap) -> ordered speed pcap.
Proof. intros Ho k p q Hp Hq. by apply (Ho (S k)). Qed.

(** With a negative [interpolate] the loop goes through the whole
    capture and changes nothing. *)
Lemma packet_loop_silent speed n l w :
  n < 0 -> SimpleSRWriter._sample_counter w = 0 ->
  forall pcap last_pkt_at st,
    ready l w st -> _interpolate st.1 = n -> _state st.1 = J ->
    (forall pkt, head pcap = Some pkt ->
                 0 <= py_round ((time pkt - last_pkt_at) * inject_Z speed)%Q) ->
    ordered speed pcap ->
    packet_loop speed n pcap last_pkt_at 0 0 st = (Ok tt, st).
Proof.
  intros Hn Hc.
  induction pcap as [| pkt pcap IH]; intros last_pkt_at st Hr Hi HJ Hhd Ho;
    [done |].
  cbn [packet_loop]. cbv zeta.
  specialize (Hhd pkt eq_refl). rewrite Z.sub_0_r.
  destruct (Z.gtb_spec 0 (py_round ((time pkt - last_pkt_at)
                                    * inject_Z speed)%Q)) as [? | _]; [lia |].
  unfold bind at 1.
  rewrite (emit_stall_silent l w st) by (done || lia).
  unfold bind at 1. rewrite (sample_ticks_silent n l w st) by (done || lia).
  unfold bind at 1. unfold emit_sync.
  rewrite (emit_chirps_silent l w st _ K) by (done || lia).
  set (st1 := (set_state st.1 K, st.2)).
  assert (Hr1 : ready l w st1) by (by destruct Hr).
  unfold bind at 1.
  rewrite (emit_bytes_silent l w st1 (load pkt) 1 Hr1)
    by (done || (simpl; lia)).
  set (st2 := (set_state st1.1 _, st1.2)).
  assert (Hr2 : ready l w st2) by (by destruct Hr).
  unfold bind at 1. unfold emit_eop.
  rewrite (emit_chirps_silent l w st2 _ J) by (done || (simpl; lia)).
  assert (Hback : (set_state st2.1 J, st2.2) = st).
  { destruct st as [[s r c i] g]. simpl in HJ. by subst s. }
  rewrite Hback.
  unfold bind at 1. rewrite (sample_ticks_silent n l w st) by (done || lia).
  apply IH; try done.
  - intros next Hnext. destruct pcap as [| p rest]; [done |].
    injection Hnext as ->. by apply (Ho 0%nat pkt next).
  - by eapply ordered_tail.
Qed.

(** The script when its block leaves the writer as it was created:
    [close] puts the empty buffer into the first slice and seals the
    archive. *)
Lemma main_of_silent_block args speed pcap pkt0 out self :
  USB_SPEED (signaling args) = Some speed ->
  head pcap = Some pkt0 ->
  out <> Diverge ->
  with_body args speed pcap (time pkt0)
    (mk J (VStr (signaling args)) c2s_fs (interpolate args),
     start_globals args speed)
  = (out, (self, start_globals args speed)) ->
  let w0 := SimpleSRWriter.__init__ ["D-"; "D+"]%string
              (speed * interpolate args) 16777216 in
  exists wf,
    (main args pcap).1 = out /\
    final_writer (main args pcap) = Some wf /\
    ZipFile.closed (SimpleSRWriter._sr wf) = true /\
    ZipFile.entries (SimpleSRWriter._sr wf)
    = ZipFile.entries (SimpleSRWriter._sr w0) ++ [("logic-1-1"%string, [])] /\
    SimpleSRWriter.sample_count wf = 0.
Proof.
  intros Hspeed Hhead Hout Hbody w0.
  destruct pcap as [| p rest]; [done |]. injection Hhead as ->.
  exists (SimpleSRWriter.close w0).2.
  assert (Hmain : main args (pkt0 :: rest)
                  = (out, set_heap (start_globals args speed)
                            (<[writer_loc := (SimpleSRWriter.close w0).2]>
                               (heap (start_globals args speed))))).
  { unfold main. rewrite Hspeed. cbv zeta. unfold with_block.
    rewrite usb_init_default. cbv zeta. rewrite Hbody. cbn [fst snd].
    unfold closing_exit.
    change (heap (start_globals args speed) !! writer_loc)
      with (<[writer_loc := w0]> (∅ : gmap loc SimpleSRWriter.t)
            !! writer_loc).
    rewrite lookup_insert_eq. by destruct out. }
  rewrite Hmain. cbn [fst snd].
  split; [done |].
  split; [unfold final_writer; simpl; apply lookup_insert_eq |].
  done.
Qed.

(** Arguments the script does not check before it creates the archive:
    with a negative start padding the first [emit_stall] raises
    ValueError, and with [interpolate] 0 the first
    [sr.sample_count // args.interpolate] raises ZeroDivisionError; either
    way the script ends with that error and leaves a sealed archive with
    the two header members and one empty slice. *)
Theorem main_bad_arguments args speed pcap pkt0 :
  USB_SPEED (signaling args) = Some speed ->
  head pcap = Some pkt0 ->
  start_padding args < 0 \/ interpolate args = 0 ->
  let w0 := SimpleSRWriter.__init__ ["D-"; "D+"]%string
              (speed * interpolate args) 16777216 in
  exists wf,
    (main args pcap).1
    = Raise (if start_padding args <? 0
             then ValueError "Cycles must be 0 or positive."
             else ZeroDivisionError) /\
    final_writer (main args pcap) = Some wf /\
    ZipFile.closed (SimpleSRWriter._sr wf) = true /\
    ZipFile.entries (SimpleSRWriter._sr wf)
    = ZipFile.entries (SimpleSRWriter._sr w0) ++ [("logic-1-1"%string, [])] /\
    SimpleSRWriter.sample_count wf = 0.
Proof.
  intros Hspeed Hhead Hbad.
  set (usb0 := mk J (VStr (signaling args)) c2s_fs (interpolate args)).
  apply (main_of_silent_block args speed pcap pkt0 _ usb0 Hspeed Hhead);
    [done |].
  fold usb0. unfold with_body.
  destruct (Z.ltb_spec (start_padding args) 0) as [Hneg | Hpos].
  - unfold bind at 1. unfold emit_stall.
    by destruct (Z.ltb_spec (start_padding args) 0) as [_ | ?]; [| lia].
  - destruct Hbad as [? | Hzero]; [lia |].
    unfold bind at 1.
    rewrite (emit_stall_silent writer_loc _ _ _
               (start_ready args speed usb0)) by (simpl; lia).
    unfold bind at 1. unfold sample_ticks, bind, resolve_sr.
    cbn [fst snd start_globals sr heap]. rewrite lookup_insert_eq.
    cbn [fst snd start_globals sr heap]. rewrite lookup_insert_eq.
    by rewrite Hzero.
Qed.

Lemma main_bad_arguments_witness :
  let args := mk_args "ls" 0 3 0 in
  let pcap := [mk_packet 0 [165]] in
  let w0 := SimpleSRWriter.__init__ ["D-"; "D+"]%string
              (1500000 * interpolate args) 16777216 in
  exists wf,
    (main args pcap).1
    = Raise (if start_padding args <? 0
             then ValueError "Cycles must be 0 or positive."
             else ZeroDivisionError) /\
    final_writer (main args pcap) = Some wf /\
    ZipFile.closed (SimpleSRWriter._sr wf) = true /\
    ZipFile.entries (SimpleSRWriter._sr wf)
    = ZipFile.entries (SimpleSRWriter._sr w0) ++ [("logic-1-1"%string, [])] /\
    SimpleSRWriter.sample_count wf = 0.
Proof.
  intros args pcap.
  apply (main_bad_arguments args 1500000 pcap (mk_packet 0 [165]));
    [reflexivity | reflexivity | right; reflexivity].
Defined.

(** A negative [interpolate] is not refused: when no packet is stamped
    before the one before it, the script goes through the whole capture
    and returns, and the archive it leaves holds no sample at all, only
    the two header members and one empty slice. *)
Theorem main_negative_interpolate args speed pcap pkt0 :
  USB_SPEED (signaling args) = Some speed ->
  head pcap = Some pkt0 ->
  interpolate args < 0 ->
  0 <= start_padding args ->
  0 <= end_padding args ->
  ordered speed pcap ->
  let w0 := SimpleSRWriter.__init__ ["D-"; "D+"]%string
              (speed * interpolate args) 16777216 in
  exists wf,
    (main args pcap).1 = Ok tt /\
    final_writer (main args pcap) = Some wf /\
    ZipFile.closed (SimpleSRWriter._sr wf) = true /\
    ZipFile.entries (SimpleSRWriter._sr wf)
    = ZipFile.entries (SimpleSRWriter._sr w0) ++ [("logic-1-1"%string, [])] /\
    SimpleSRWriter.sample_count wf = 0.
Proof.
  intros Hspeed Hhead Hn Hs He Ho.
  set (usb0 := mk J (VStr (signaling args)) c2s_fs (interpolate args)).
  apply (main_of_silent_block args speed pcap pkt0 _ usb0 Hspeed Hhead);
    [done |].
  fold usb0. unfold with_body.
  pose proof (start_ready args speed usb0) as Hr.
  set (w0 := SimpleSRWriter.__init__ ["D-"; "D+"]%string
               (speed * interpolate args) 16777216) in Hr.
  assert (Hc : SimpleSRWriter._sample_counter w0 = 0) by done.
  unfold bind at 1. rewrite (emit_stall_silent writer_loc _ _ _ Hr)
    by (simpl; lia).
  unfold bind at 1.
  rewrite (sample_ticks_silent (interpolate args) writer_loc w0 _
             (Z.lt_neq _ _ Hn) Hr Hc).
  unfold bind at 1.
  rewrite (packet_loop_silent speed (interpolate args) writer_loc w0 Hn
             Hc pcap (time pkt0) _ Hr eq_refl eq_refl); [| | done].
  - by rewrite (emit_stall_silent writer_loc _ _ _ Hr) by (simpl; lia).
  - intros pkt Hpkt. rewrite Hhead in Hpkt. injection Hpkt as <-.
    by rewrite py_round_same.
Qed.

Lemma main_negative_interpolate_witness :
  let args := mk_args "fs" (-1) 4 0 in
  let pcap := [mk_packet 0 [165]; mk_packet (1 # 100000) [90]] in
  let w0 := SimpleSRWriter.__init__ ["D-"; "D+"]%string
              (12000000 * interpolate args) 16777216 in
  exists wf,
    (main args pcap).1 = Ok tt /\
    final_writer (main args pcap) = Some wf /\
    ZipFile.closed (SimpleSRWriter._sr wf) = true /\
    ZipFile.entries (SimpleSRWriter._sr wf)
    = ZipFile.entries (SimpleSRWriter._sr w0) ++ [("logic-1-1"%string, [])] /\
    SimpleSRWriter.sample_count wf = 0.
Proof.
  intros args pcap.
  apply (main_negative_interpolate args 12000000 pcap (mk_packet 0 [165]));
    try reflexivity; try (simpl; lia).
  intros [| [| k]] p q Hp Hq; try done.
  injection Hp as <-. injection Hq as <-. by vm_compute.
Defined.

End MainSilent.
